(** * MAEUM_CODE: the agentic execution engine, embedded and verified

    The development follows the two source files that carry the engine:

    - [Code_Agent/code_tools.py]: [SafeFileOps], [CodeEditor], [UndoManager]
      and [TransactionManager];
    - [Code_Agent/ide_server.py]: [ToolExecutor.execute], the stream
      interception and the agentic loop of [IDEServer], and the
      [tool_confirm] branch of [websocket_chat].

    Environment conventions, fixed once here:

    - text is a [string] of 8-bit characters, one character of the model for
      one character of a Python [str]; the host is POSIX, so text written is
      stored as it is and text read goes through universal newlines;
    - the disk is a finite map from canonical absolute paths to the contents
      of regular files. Directories are not first-class: a path either names
      a regular file or nothing, and a missing parent directory can always be
      created. Symbolic links do not exist;
    - the backup copies that [SafeFileOps._backup_file] writes below
      [.maeum_backup] are kept in a component of their own ([backups]), so
      that [files] is the workspace without its backup directory; the clock
      that stamps their names is not modelled;
    - what the interpreter or the operating system decides (the language
      model's answers, UUIDs, other tools' subprocesses) enters through the
      record [World]. *)

From Stdlib Require Import ZArith String Ascii List Lia Bool.
From stdpp Require Import base strings gmap list pretty.
Import ListNotations.

#[local] Set Warnings "-register-all".

Open Scope string_scope.
Open Scope list_scope.

(** ** Python's [str] operations *)

Module PyStr.

Definition len (s : string) : nat := String.length s.

Fixpoint take (n : nat) (s : string) : string :=
  match n, s with
  | S n', String a s' => String a (take n' s')
  | _, _ => ""
  end.

Fixpoint drop (n : nat) (s : string) : string :=
  match n, s with
  | S n', String _ s' => drop n' s'
  | _, _ => s
  end.

(** [s[-n:]] *)
Definition suffix_of_len (n : nat) (s : string) : string := drop (len s - n) s.

(** [s.startswith(p)] *)
Definition startswith (p s : string) : bool := String.prefix p s.

(** [s.find(sub)], [None] for -1. *)
Fixpoint find (sub s : string) : option nat :=
  if String.prefix sub s then Some 0
  else match s with
       | "" => None
       | String _ s' => S <$> find sub s'
       end.

(** [sub in s] *)
Definition contains (sub s : string) : bool :=
  match find sub s with Some _ => true | None => false end.

(** [s.split(sep)[0]] and [s.split(sep, 1)[1]] for a separator that occurs. *)
Definition before (sep s : string) : string :=
  match find sep s with Some i => take i s | None => s end.

Definition after (sep s : string) : string :=
  match find sep s with Some i => drop (i + len sep) s | None => "" end.

(** [s.count(sub)]: occurrences that do not overlap, from the left. *)
Fixpoint count_fuel (fuel : nat) (sub s : string) : nat :=
  match fuel with
  | 0 => 0
  | S fuel' =>
      if String.prefix sub s then S (count_fuel fuel' sub (drop (len sub) s))
      else match s with
           | "" => 0
           | String _ s' => count_fuel fuel' sub s'
           end
  end.

Definition count (sub s : string) : nat :=
  match sub with
  | "" => S (len s)
  | _ => count_fuel (S (len s)) sub s
  end.

(** [s.replace(old, new, 1)] *)
Definition replace1 (old new s : string) : string :=
  match find old s with
  | Some i => take i s +:+ new +:+ drop (i + len old) s
  | None => s
  end.

(** [s.replace(old, new)] *)
Fixpoint replace_fuel (fuel : nat) (old new s : string) : string :=
  match fuel with
  | 0 => s
  | S fuel' =>
      if String.prefix old s then new +:+ replace_fuel fuel' old new (drop (len old) s)
      else match s with
           | "" => ""
           | String a s' => String a (replace_fuel fuel' old new s')
           end
  end.

Fixpoint intersperse_str (new s : string) : string :=
  match s with
  | "" => new
  | String a s' => new +:+ String a (intersperse_str new s')
  end.

Definition replace (old new s : string) : string :=
  match old with
  | "" => intersperse_str new s
  | _ => replace_fuel (S (len s)) old new s
  end.

(** [s.split(c)] for a one-character separator: never empty. *)
Fixpoint split (c : ascii) (s : string) : list string :=
  match s with
  | "" => [""]
  | String a s' =>
      if Ascii.eqb a c then "" :: split c s'
      else match split c s' with
           | h :: t => String a h :: t
           | [] => [String a ""]
           end
  end.

(** [sep.join(l)] *)
Fixpoint join (sep : string) (l : list string) : string :=
  match l with
  | [] => ""
  | [x] => x
  | x :: l' => x +:+ sep +:+ join sep l'
  end.

Definition nl : ascii := "010"%char.
Definition cr : ascii := "013"%char.

(** [str.isspace] on the characters below 256. *)
Definition isspace (a : ascii) : bool :=
  let n := nat_of_ascii a in
  (((9 <=? n) && (n <=? 13)) || ((28 <=? n) && (n <=? 32)) || (n =? 133) || (n =? 160))%nat.

Fixpoint lstrip (s : string) : string :=
  match s with
  | String a s' => if isspace a then lstrip s' else s
  | "" => ""
  end.

Fixpoint rstrip_by (p : ascii -> bool) (s : string) : string :=
  match s with
  | "" => ""
  | String a s' =>
      match rstrip_by p s' with
      | "" => if p a then "" else String a ""
      | r => String a r
      end
  end.

Definition rstrip (s : string) : string := rstrip_by isspace s.
Definition strip (s : string) : string := lstrip (rstrip s).

(** [s.rstrip('\r')] *)
Definition rstrip_cr (s : string) : string := rstrip_by (Ascii.eqb cr) s.

(** [s[:n]] *)
Definition upto (n : nat) (s : string) : string := take n s.

Fixpoint has_chr (c : ascii) (s : string) : bool :=
  match s with
  | "" => false
  | String a s' => Ascii.eqb a c || has_chr c s'
  end.

(** What a read in text mode returns for the bytes of a file: universal
    newlines turn every CR LF, and every other CR, into LF. *)
Fixpoint universal_newlines (s : string) : string :=
  match s with
  | "" => ""
  | String a s' =>
      if Ascii.eqb a cr then
        match s' with
        | String b _ => if Ascii.eqb b nl then universal_newlines s'
                        else String nl (universal_newlines s')
        | "" => String nl ""
        end
      else String a (universal_newlines s')
  end.

(** truthiness of a [str] *)
Definition nonempty (s : string) : bool :=
  match s with "" => false | _ => true end.

End PyStr.

(** ** Paths and the disk *)

Module Path.

(** The components of a path as [pathlib] keeps them: empty components and
    [.] are dropped, [..] is kept. *)
Definition parts (p : string) : list string :=
  filter (fun c => negb (String.eqb c "") && negb (String.eqb c ".")) (PyStr.split "/" p).

(** The operating system's resolution of [..] on an absolute path. *)
Fixpoint resolve_dots (acc : list string) (ps : list string) : list string :=
  match ps with
  | [] => rev acc
  | c :: ps' =>
      if String.eqb c ".." then resolve_dots (tail acc) ps'
      else resolve_dots (c :: acc) ps'
  end.

Definition of_parts (ps : list string) : string := "/" +:+ PyStr.join "/" ps.

(** The file a path string denotes: the key of [files]. *)
Definition canon (p : string) : string := of_parts (resolve_dots [] (parts p)).

Definition is_abs (p : string) : bool := PyStr.startswith "/" p.

(** [os.path.join(root, p)] and [Path(root) / p] for an absolute [root]:
    an absolute [p] replaces the root. *)
Definition join (root p : string) : string :=
  if is_abs p then p else root +:+ "/" +:+ p.

(** [full.with_suffix(full.suffix + '.tmp')] *)
Definition with_tmp (full : string) : string := of_parts (parts full) +:+ ".tmp".

Fixpoint strip_prefix (pre l : list string) : option (list string) :=
  match pre, l with
  | [], _ => Some l
  | a :: pre', b :: l' => if String.eqb a b then strip_prefix pre' l' else None
  | _ :: _, [] => None
  end.

(** [full.relative_to(root)]: lexical, [None] for [ValueError]. *)
Definition relative_to (root full : string) : option string :=
  PyStr.join "/" <$> strip_prefix (parts root) (parts full).

(** A path lies inside the workspace when the file it denotes is below the
    root. *)
Definition inside (root full : string) : bool :=
  match strip_prefix (parts root) (resolve_dots [] (parts full)) with
  | Some _ => true
  | None => false
  end.

End Path.

Record Disk := mkDisk {
  files : gmap string string;
  backups : list (string * string)
}.

Definition set_files (d : Disk) (f : gmap string string) : Disk :=
  {| files := f; backups := backups d |}.

Definition disk_lookup (d : Disk) (full : string) : option string :=
  files d !! Path.canon full.

Definition disk_exists (d : Disk) (full : string) : bool :=
  match disk_lookup d full with Some _ => true | None => false end.

(** ** Exceptions *)

Inductive exn :=
| ValueError (msg : string)
| TypeError (msg : string)
| RuntimeError (msg : string)
| NameError (msg : string)
| AttributeError (msg : string).

Definition exn_str (e : exn) : string :=
  match e with
  | ValueError m | TypeError m | RuntimeError m | NameError m | AttributeError m => m
  end.

Inductive outcome (A : Type) :=
| Return (a : A)
| Raise (e : exn).
Arguments Return {A} a.
Arguments Raise {A} e.

(** ** [code_tools.py] *)

Module CodeTools.

Definition MAX_UNDO_STACK : Z := 1000.
Definition MAX_UNDO_BYTES : Z := (3 * 1024 * 1024 * 1024)%Z.

Inductive OperationType := CREATE | MODIFY | DELETE | RENAME | MOVE | COPY.

Inductive OperationStatus := PENDING | APPLIED | FAILED | UNDONE.

(** [FileChange] and [Transaction]; [diff], [timestamp] and [metadata] carry
    no behaviour and are left out. *)
Record FileChange := mkChange {
  operation : OperationType;
  file_path : string;
  new_content : option string;
  old_content : option string;
  new_path : option string;
  status : OperationStatus;
  error : option string
}.

Record Transaction := mkTx {
  tx_id : string;
  description : string;
  changes : list FileChange;
  tx_status : OperationStatus
}.

Definition with_status (c : FileChange) (st : OperationStatus) (err : option string) : FileChange :=
  {| operation := operation c; file_path := file_path c;
     new_content := new_content c; old_content := old_content c;
     new_path := new_path c; status := st; error := err |}.

Definition set_status (c : FileChange) (st : OperationStatus) : FileChange :=
  with_status c st (error c).

Definition add_change (tx : Transaction) (c : FileChange) : Transaction :=
  {| tx_id := tx_id tx; description := description tx;
     changes := changes tx ++ [c]; tx_status := tx_status tx |}.

Definition with_changes (tx : Transaction) (cs : list FileChange) (st : OperationStatus) : Transaction :=
  {| tx_id := tx_id tx; description := description tx; changes := cs; tx_status := st |}.

(** *** [SafeFileOps] *)

Record SafeFileOps := mkOps {
  root_path : string;
  backup_enabled : bool
}.

Definition msg_missing (p : string) : string := "파일이 존재하지 않습니다: " +:+ p.
Definition msg_binary : string := "바이너리 파일입니다".
Definition msg_binary_write : string := "바이너리 파일은 수정할 수 없습니다".
Definition msg_no_source (p : string) : string := "원본이 존재하지 않습니다: " +:+ p.
Definition msg_target_exists (p : string) : string := "대상이 이미 존재합니다: " +:+ p.
Definition msg_no_old : string := "이전 내용이 없습니다".
Definition msg_unknown_op : string := "알 수 없는 작업".

(** The null-byte probe on the first 8 KiB. *)
Definition probe_len : nat := 8 * 1024.

Definition is_binary (content : string) : bool :=
  PyStr.has_chr "000"%char (PyStr.take probe_len content).

Definition _resolve_path (ops : SafeFileOps) (file_path : string) : string :=
  if PyStr.startswith "/" file_path then file_path
  else root_path ops +:+ "/" +:+ file_path.

Definition read_file (ops : SafeFileOps) (d : Disk) (file_path : string)
  : option string * option string :=
  match disk_lookup d (_resolve_path ops file_path) with
  | None => (None, Some (msg_missing file_path))
  | Some content =>
      if is_binary content then (None, Some msg_binary)
      else (Some (PyStr.universal_newlines content), None)
  end.

Definition _backup_file (ops : SafeFileOps) (full : string) (content : string) (d : Disk)
  : outcome Disk :=
  if negb (backup_enabled ops) then Return d
  else match Path.relative_to (root_path ops) full with
       | None => Raise (ValueError "path is not in the subpath of the root")
       | Some rel => Return {| files := files d; backups := backups d ++ [(rel, content)] |}
       end.

Definition is_some {A} (o : option A) : bool :=
  match o with Some _ => true | None => false end.

(** [write_file(file_path, content, backup=...)]; [content = None] is a call
    with [None] for the text, which [write_text] refuses with [TypeError].
    The text goes to [<path>.tmp], which then replaces [<path>]. *)
Definition write_file (ops : SafeFileOps) (file_path : string) (content : option string)
    (backup : option bool) (d : Disk)
  : (bool * option string * option string) * Disk :=
  let full := _resolve_path ops file_path in
  let backup := default (backup_enabled ops) backup in
  let probe : option string * bool :=
    if disk_exists d full then
      match read_file ops d file_path with
      | (oc, Some err) => if PyStr.contains "바이너리" err then (None, true) else (oc, false)
      | (oc, None) => (oc, false)
      end
    else (None, false) in
  let old := probe.1 in
  if probe.2 then ((false, None, Some msg_binary_write), d)
  else
    match (match old with
           | Some o => if backup then _backup_file ops full o d else Return d
           | None => Return d
           end) with
    | Raise e => ((false, old, Some (exn_str e)), d)
    | Return d1 =>
        match content with
        | None => ((false, old, Some "data must be str, not NoneType"), d1)
        | Some c =>
            ((true, old, None),
             set_files d1 (<[Path.canon full := c]>
                             (delete (Path.canon (Path.with_tmp full)) (files d1))))
        end
    end.

(** [delete_file]: the backup is taken outside the [try], so its
    [ValueError] leaves the function. *)
Definition delete_file (ops : SafeFileOps) (file_path : string) (backup : option bool) (d : Disk)
  : outcome ((bool * option string * option string) * Disk) :=
  let full := _resolve_path ops file_path in
  let backup := default (backup_enabled ops) backup in
  if negb (disk_exists d full) then Return ((false, None, Some (msg_missing file_path)), d)
  else
    let old := (read_file ops d file_path).1 in
    match (match old with
           | Some o => if backup then _backup_file ops full o d else Return d
           | None => Return d
           end) with
    | Raise e => Raise e
    | Return d1 =>
        Return ((true, old, None), set_files d1 (delete (Path.canon full) (files d1)))
    end.

Definition rename_file (ops : SafeFileOps) (old_path new_path : string) (overwrite : bool) (d : Disk)
  : (bool * option string) * Disk :=
  let full_old := _resolve_path ops old_path in
  let full_new := _resolve_path ops new_path in
  match disk_lookup d full_old with
  | None => ((false, Some (msg_no_source old_path)), d)
  | Some c =>
      if disk_exists d full_new && negb overwrite
      then ((false, Some (msg_target_exists new_path)), d)
      else ((true, None),
            set_files d (<[Path.canon full_new := c]> (delete (Path.canon full_old) (files d))))
  end.

(** *** [CodeEditor]: staging, nothing is written *)

Definition editor_ops (root : string) : SafeFileOps :=
  {| root_path := root; backup_enabled := true |}.

Definition msg_old_not_found : string := "old_string을 찾을 수 없습니다".
Definition msg_old_ambiguous (n : nat) : string :=
  "old_string이 " +:+ pretty n +:+ "번 발견됨. replace_all=True를 사용하거나 더 구체적인 컨텍스트를 제공하세요.".

Definition editor_edit (root : string) (d : Disk) (file_path old_string new_string : string)
    (replace_all : bool) : FileChange :=
  match read_file (editor_ops root) d file_path with
  | (_, Some err) => mkChange MODIFY file_path None None None FAILED (Some err)
  | (None, None) => mkChange MODIFY file_path None None None FAILED None
  | (Some content, None) =>
      let count := PyStr.count old_string content in
      if (count =? 0)%nat then
        mkChange MODIFY file_path None (Some content) None FAILED (Some msg_old_not_found)
      else if (1 <? count)%nat && negb replace_all then
        mkChange MODIFY file_path None (Some content) None FAILED (Some (msg_old_ambiguous count))
      else
        let new := if replace_all then PyStr.replace old_string new_string content
                   else PyStr.replace1 old_string new_string content in
        mkChange MODIFY file_path (Some new) (Some content) None PENDING None
  end.

Definition editor_write (root : string) (d : Disk) (file_path content : string) : FileChange :=
  let full := Path.join root file_path in
  if disk_exists d full then
    mkChange MODIFY file_path (Some content) (read_file (editor_ops root) d file_path).1 None PENDING None
  else
    mkChange CREATE file_path (Some content) None None PENDING None.

Definition editor_delete (root : string) (d : Disk) (file_path : string) : FileChange :=
  mkChange DELETE file_path None (read_file (editor_ops root) d file_path).1 None PENDING None.

Definition editor_rename (old_path new_path : string) : FileChange :=
  mkChange RENAME old_path None None (Some new_path) PENDING None.

(** *** [UndoManager]: both stacks grow at the end of the list *)

Record UndoManager := mkUndo {
  max_stack : Z;
  max_bytes : Z;
  _undo_stack : list Transaction;
  _redo_stack : list Transaction;
  _total_bytes : Z
}.

Definition opt_len (o : option string) : Z :=
  match o with
  | Some s => Z.of_nat (PyStr.len s)
  | None => 0
  end.

Definition change_size (c : FileChange) : Z :=
  (Z.of_nat (PyStr.len (file_path c)) + opt_len (old_content c) + opt_len (new_content c))%Z.

Definition _calculate_size (tx : Transaction) : Z :=
  (Z.of_nat (PyStr.len (tx_id tx)) + Z.of_nat (PyStr.len (description tx))
   + fold_left (fun acc c => acc + change_size c) (changes tx) 0)%Z.

Fixpoint evict_for_bytes (maxb tx_bytes : Z) (stack : list Transaction) (total : Z)
  : list Transaction * Z :=
  match stack with
  | [] => ([], total)
  | removed :: rest =>
      if (total + tx_bytes >? maxb)%Z
      then evict_for_bytes maxb tx_bytes rest (total - _calculate_size removed)%Z
      else (stack, total)
  end.

Definition push (um : UndoManager) (tx : Transaction) : UndoManager :=
  let tx_bytes := _calculate_size tx in
  let '(stack1, total1) := evict_for_bytes (max_bytes um) tx_bytes (_undo_stack um) (_total_bytes um) in
  let '(stack2, total2) :=
    if (Z.of_nat (length stack1) >=? max_stack um)%Z then
      match stack1 with
      | removed :: rest => (rest, (total1 - _calculate_size removed)%Z)
      | [] => (stack1, total1)
      end
    else (stack1, total1) in
  {| max_stack := max_stack um; max_bytes := max_bytes um;
     _undo_stack := stack2 ++ [tx]; _redo_stack := [];
     _total_bytes := (total2 + tx_bytes)%Z |}.

Definition um_undo (um : UndoManager) : option Transaction * UndoManager :=
  match last (_undo_stack um) with
  | None => (None, um)
  | Some tx =>
      (Some tx,
       {| max_stack := max_stack um; max_bytes := max_bytes um;
          _undo_stack := removelast (_undo_stack um);
          _redo_stack := _redo_stack um ++ [tx];
          _total_bytes := (_total_bytes um - _calculate_size tx)%Z |})
  end.

Definition um_redo (um : UndoManager) : option Transaction * UndoManager :=
  match last (_redo_stack um) with
  | None => (None, um)
  | Some tx =>
      (Some tx,
       {| max_stack := max_stack um; max_bytes := max_bytes um;
          _undo_stack := _undo_stack um ++ [tx];
          _redo_stack := removelast (_redo_stack um);
          _total_bytes := (_total_bytes um + _calculate_size tx)%Z |})
  end.

Definition new_undo_manager : UndoManager :=
  mkUndo MAX_UNDO_STACK MAX_UNDO_BYTES [] [] 0.

(** *** [TransactionManager] *)

Record TransactionManager := mkTM {
  file_ops : SafeFileOps;
  undo_manager : UndoManager;
  _current_transaction : option Transaction
}.

Definition new_tx_manager (root : string) : TransactionManager :=
  mkTM (editor_ops root) new_undo_manager None.

Definition tm_root (tm : TransactionManager) : string := root_path (file_ops tm).

Definition with_current (tm : TransactionManager) (cur : option Transaction) : TransactionManager :=
  {| file_ops := file_ops tm; undo_manager := undo_manager tm; _current_transaction := cur |}.

Definition with_undo (tm : TransactionManager) (um : UndoManager) : TransactionManager :=
  {| file_ops := file_ops tm; undo_manager := um;
     _current_transaction := _current_transaction tm |}.

Definition msg_tx_open : string := "이미 진행 중인 트랜잭션이 있습니다".
Definition msg_no_tx : string := "진행 중인 트랜잭션이 없습니다".

(** [begin]; the identifier (a digest of the clock) is supplied by the caller. *)
Definition begin (tm : TransactionManager) (descr new_id : string)
  : outcome (string * TransactionManager) :=
  match _current_transaction tm with
  | Some _ => Raise (RuntimeError msg_tx_open)
  | None => Return (new_id, with_current tm (Some (mkTx new_id descr [] PENDING)))
  end.

Definition stage (tm : TransactionManager) (c : FileChange) : TransactionManager :=
  match _current_transaction tm with
  | Some tx => with_current tm (Some (add_change tx c))
  | None => tm
  end.

Definition edit (tm : TransactionManager) (d : Disk) (path old_string new_string : string)
    (replace_all : bool) : FileChange * TransactionManager :=
  let c := editor_edit (tm_root tm) d path old_string new_string replace_all in (c, stage tm c).

Definition write (tm : TransactionManager) (d : Disk) (path content : string)
  : FileChange * TransactionManager :=
  let c := editor_write (tm_root tm) d path content in (c, stage tm c).

Definition delete (tm : TransactionManager) (d : Disk) (path : string)
  : FileChange * TransactionManager :=
  let c := editor_delete (tm_root tm) d path in (c, stage tm c).

Definition rename (tm : TransactionManager) (old_path new_path : string)
  : FileChange * TransactionManager :=
  let c := editor_rename old_path new_path in (c, stage tm c).

Definition drop_old {A B C} (r : (A * B * C) * Disk) : (A * C) * Disk :=
  let '((ok, _, err), d) := r in ((ok, err), d).

Definition _apply_change (ops : SafeFileOps) (c : FileChange) (d : Disk)
  : outcome ((bool * option string) * Disk) :=
  match operation c with
  | CREATE | MODIFY => Return (drop_old (write_file ops (file_path c) (new_content c) None d))
  | DELETE =>
      match delete_file ops (file_path c) None d with
      | Raise e => Raise e
      | Return r => Return (drop_old r)
      end
  | RENAME =>
      match new_path c with
      | Some np => Return (rename_file ops (file_path c) np false d)
      | None => Raise (AttributeError "'NoneType' object has no attribute 'startswith'")
      end
  | MOVE | COPY => Return ((false, Some msg_unknown_op), d)
  end.

Definition _revert_change (ops : SafeFileOps) (c : FileChange) (d : Disk)
  : outcome ((bool * option string) * Disk) :=
  match operation c with
  | CREATE =>
      match delete_file ops (file_path c) (Some false) d with
      | Raise e => Raise e
      | Return r => Return (drop_old r)
      end
  | MODIFY | DELETE =>
      match old_content c with
      | Some o => Return (drop_old (write_file ops (file_path c) (Some o) (Some false) d))
      | None => Return ((false, Some msg_no_old), d)
      end
  | RENAME =>
      match new_path c with
      | Some np => Return (rename_file ops np (file_path c) false d)
      | None => Raise (AttributeError "'NoneType' object has no attribute 'startswith'")
      end
  | MOVE | COPY => Return ((false, Some msg_unknown_op), d)
  end.

(** The loop of [commit]. The changes come back in their order with the
    status each one was given; an exception stops the loop and leaves the
    rest as it was. *)
Fixpoint commit_loop (ops : SafeFileOps) (todo : list FileChange) (d : Disk)
  : list FileChange * list string * Disk * option exn :=
  match todo with
  | [] => ([], [], d, None)
  | c :: rest =>
      match _apply_change ops c d with
      | Raise e => (c :: rest, [], d, Some e)
      | Return ((ok, err), d1) =>
          let '(cs, errs, d2, ex) := commit_loop ops rest d1 in
          if ok then (set_status c APPLIED :: cs, errs, d2, ex)
          else (with_status c FAILED err :: cs,
                (file_path c +:+ ": " +:+ default "None" err) :: errs, d2, ex)
      end
  end.

Definition commit (tm : TransactionManager) (dry_run : bool) (d : Disk)
  : outcome Transaction * TransactionManager * Disk :=
  match _current_transaction tm with
  | None => (Raise (RuntimeError msg_no_tx), tm, d)
  | Some tx =>
      if dry_run then
        (Return (with_changes tx (changes tx) PENDING), with_current tm None, d)
      else
        match commit_loop (file_ops tm) (changes tx) d with
        | (cs, _, d', Some e) =>
            (Raise e, with_current tm (Some (with_changes tx cs (tx_status tx))), d')
        | (cs, [], d', None) =>
            let tx' := with_changes tx cs APPLIED in
            (Return tx', with_current (with_undo tm (push (undo_manager tm) tx')) None, d')
        | (cs, _ :: _, d', None) =>
            (Return (with_changes tx cs FAILED), with_current tm None, d')
        end
  end.

Definition rollback (tm : TransactionManager) : TransactionManager :=
  with_current tm None.

(** The loops of [undo] and [redo]: the result of each step is ignored. *)
Fixpoint revert_loop (ops : SafeFileOps) (todo : list FileChange) (d : Disk)
  : list FileChange * Disk * option exn :=
  match todo with
  | [] => ([], d, None)
  | c :: rest =>
      match _revert_change ops c d with
      | Raise e => (c :: rest, d, Some e)
      | Return (_, d1) =>
          let '(cs, d2, ex) := revert_loop ops rest d1 in
          (set_status c UNDONE :: cs, d2, ex)
      end
  end.

Fixpoint reapply_loop (ops : SafeFileOps) (todo : list FileChange) (d : Disk)
  : list FileChange * Disk * option exn :=
  match todo with
  | [] => ([], d, None)
  | c :: rest =>
      match _apply_change ops c d with
      | Raise e => (c :: rest, d, Some e)
      | Return (_, d1) =>
          let '(cs, d2, ex) := reapply_loop ops rest d1 in
          (set_status c APPLIED :: cs, d2, ex)
      end
  end.

(** The transaction that [UndoManager.undo] moved to the redo stack is the
    object whose statuses [TransactionManager.undo] then sets. *)
Definition set_last {A} (l : list A) (x : A) : list A := removelast l ++ [x].

Definition with_redo_top (um : UndoManager) (tx : Transaction) : UndoManager :=
  {| max_stack := max_stack um; max_bytes := max_bytes um;
     _undo_stack := _undo_stack um; _redo_stack := set_last (_redo_stack um) tx;
     _total_bytes := _total_bytes um |}.

Definition with_undo_top (um : UndoManager) (tx : Transaction) : UndoManager :=
  {| max_stack := max_stack um; max_bytes := max_bytes um;
     _undo_stack := set_last (_undo_stack um) tx; _redo_stack := _redo_stack um;
     _total_bytes := _total_bytes um |}.

Definition undo (tm : TransactionManager) (d : Disk)
  : outcome (option Transaction) * TransactionManager * Disk :=
  match um_undo (undo_manager tm) with
  | (None, _) => (Return None, tm, d)
  | (Some tx, um) =>
      match revert_loop (file_ops tm) (rev (changes tx)) d with
      | (cs, d', Some e) =>
          (Raise e, with_undo tm (with_redo_top um (with_changes tx (rev cs) (tx_status tx))), d')
      | (cs, d', None) =>
          let tx' := with_changes tx (rev cs) UNDONE in
          (Return (Some tx'), with_undo tm (with_redo_top um tx'), d')
      end
  end.

Definition redo (tm : TransactionManager) (d : Disk)
  : outcome (option Transaction) * TransactionManager * Disk :=
  match um_redo (undo_manager tm) with
  | (None, _) => (Return None, tm, d)
  | (Some tx, um) =>
      match reapply_loop (file_ops tm) (changes tx) d with
      | (cs, d', Some e) =>
          (Raise e, with_undo tm (with_undo_top um (with_changes tx cs (tx_status tx))), d')
      | (cs, d', None) =>
          let tx' := with_changes tx cs APPLIED in
          (Return (Some tx'), with_undo tm (with_undo_top um tx'), d')
      end
  end.

Definition quick_edit (tm : TransactionManager) (d : Disk) (path old_string new_string descr new_id : string)
  : outcome Transaction * TransactionManager * Disk :=
  match begin tm (if PyStr.nonempty descr then descr else "Edit " +:+ path) new_id with
  | Raise e => (Raise e, tm, d)
  | Return (_, tm1) => commit (edit tm1 d path old_string new_string false).2 false d
  end.


End CodeTools.

(** ** JSON values and Python's view of them *)

Inductive jval :=
| JNull
| JBool (b : bool)
| JNum (z : Z)
| JFloat (lit : string)
| JStr (s : string)
| JArr (l : list jval)
| JObj (kv : list (string * jval)).

Module Py.

(** A [dict] built from JSON text keeps the last value of a repeated key. *)
Fixpoint assoc_last (kv : list (string * jval)) (k : string) : option jval :=
  match kv with
  | [] => None
  | (k', v) :: kv' =>
      match assoc_last kv' k with
      | Some v' => Some v'
      | None => if String.eqb k' k then Some v else None
      end
  end.

(** [d.get(k, dflt)]; anything but a [dict] has no [get]. *)
Definition get (d : jval) (k : string) (dflt : jval) : outcome jval :=
  match d with
  | JObj kv => Return (default dflt (assoc_last kv k))
  | _ => Raise (AttributeError "object has no attribute 'get'")
  end.

(** A float literal is zero when its mantissa has no digit but 0. *)
Fixpoint mantissa_nonzero (lit : string) : bool :=
  match lit with
  | "" => false
  | String a lit' =>
      if Ascii.eqb a "e" || Ascii.eqb a "E" then false
      else if Ascii.eqb a "-" || Ascii.eqb a "." || Ascii.eqb a "0" then mantissa_nonzero lit'
      else true
  end.

Definition truthy (v : jval) : bool :=
  match v with
  | JNull => false
  | JBool b => b
  | JNum z => negb (z =? 0)%Z
  | JFloat lit => mantissa_nonzero lit
  | JStr s => PyStr.nonempty s
  | JArr l => match l with [] => false | _ => true end
  | JObj kv => match kv with [] => false | _ => true end
  end.

(** [a or b] on already evaluated operands *)
Definition or_else (a b : jval) : jval := if truthy a then a else b.

(** A value used as an integer: [int], or [bool] counting as 0 or 1. A
    [float] is refused where it would be an index; the places that take one
    ([range], a slice) come after the arithmetic but before any effect. *)
Definition as_int (v : jval) : outcome Z :=
  match v with
  | JNum z => Return z
  | JBool b => Return (if b then 1 else 0)%Z
  | _ => Raise (TypeError "unsupported operand type(s)")
  end.

Definition as_str (v : jval) : outcome string :=
  match v with
  | JStr s => Return s
  | _ => Raise (TypeError "expected str")
  end.

(** [str(v)] inside an f-string, for the values that reach one. *)
Definition fmt (v : jval) : string :=
  match v with
  | JNum z => pretty z
  | JFloat lit => lit
  | JBool true => "True"
  | JBool false => "False"
  | JStr s => s
  | JNull => "None"
  | _ => ""
  end.

Definition is_none (v : jval) : bool :=
  match v with JNull => true | _ => false end.

Definition bind {A B} (m : outcome A) (f : A -> outcome B) : outcome B :=
  match m with
  | Return a => f a
  | Raise e => Raise e
  end.

End Py.

Notation "x <-! m ;; k" := (Py.bind m (fun x => k))
  (at level 100, m at next level, right associativity).

(** ** The external world *)

Record SymEntry := mkSym { s_name : string; s_line : Z }.

Record ClassEntry := mkClass { c_name : string; c_line : Z; c_methods : list SymEntry }.

(** The dictionary that [_extract_file_symbols] returns. *)
Record Symbols := mkSymbols {
  sy_file : string;
  sy_lines : nat;
  sy_imports : list SymEntry;
  sy_classes : list ClassEntry;
  sy_functions : list SymEntry;
  sy_variables : list SymEntry;
  sy_error : option string
}.

Inductive stream_end :=
| StreamDone
| StreamError (msg : string).

(** What the program cannot decide by itself. [parse_symbols] is the result
    of Python's [ast] and [re] on a file; [other_tool] is every branch of
    [ToolExecutor.execute] other than [read_file], [write_file] and
    [edit_file] (their code reaches the disk and the transaction manager,
    and never names [symbol_index]); [llm n prompt] is the token queue of
    the [n]-th request: its tokens, none empty, and how the stream ends;
    [abort_at n] tells whether [/api/abort] has raised [abort_requested]
    when iteration [n] begins; [uuid4 n] is the [n]-th confirmation
    identifier; [json_dumps] is [json.dumps(_, ensure_ascii=False, indent=2)]. *)
Record World := mkWorld {
  parse_symbols : string -> string ->
    list SymEntry * list ClassEntry * list SymEntry * list SymEntry * option string;
  other_tool : string -> jval -> CodeTools.TransactionManager * Disk ->
    jval * (CodeTools.TransactionManager * Disk);
  llm : nat -> string -> list string * stream_end;
  abort_at : nat -> bool;
  uuid4 : nat -> string;
  json_dumps : jval -> string
}.

(** ** [ToolExecutor] *)

Module ToolExecutor.

Record Executor := mkExec {
  workspace : string;
  tx_manager : CodeTools.TransactionManager;
  disk : Disk;
  symbol_index : list (string * Symbols)
}.

Definition with_disk (x : Executor) (d : Disk) : Executor :=
  {| workspace := workspace x; tx_manager := tx_manager x; disk := d;
     symbol_index := symbol_index x |}.

Definition with_index (x : Executor) (ix : list (string * Symbols)) : Executor :=
  {| workspace := workspace x; tx_manager := tx_manager x; disk := disk x;
     symbol_index := ix |}.

Definition with_tm_disk (x : Executor) (td : CodeTools.TransactionManager * Disk) : Executor :=
  {| workspace := workspace x; tx_manager := td.1; disk := td.2;
     symbol_index := symbol_index x |}.

(** A Python [dict] keeps the order of insertion; the index is only ever
    extended by a key that is not in it. *)
Fixpoint index_get (ix : list (string * Symbols)) (k : string) : option Symbols :=
  match ix with
  | [] => None
  | (k', v) :: ix' => if String.eqb k' k then Some v else index_get ix' k
  end.

Definition _extract_file_symbols (W : World) (path content : string) : Symbols :=
  let '(imports, classes, functions, variables, err) := parse_symbols W path content in
  {| sy_file := path;
     sy_lines := PyStr.count (String PyStr.nl "") content + 1;
     sy_imports := imports; sy_classes := classes; sy_functions := functions;
     sy_variables := variables; sy_error := err |}.

Definition sym_json (e : SymEntry) : jval :=
  JObj [("name", JStr (s_name e)); ("line", JNum (s_line e))].

Definition class_json (c : ClassEntry) : jval :=
  JObj [("name", JStr (c_name c)); ("line", JNum (c_line c));
        ("methods", JArr (map sym_json (c_methods c)))].

Definition symbols_json (s : Symbols) : jval :=
  JObj ([("file", JStr (sy_file s)); ("lines", JNum (Z.of_nat (sy_lines s)));
         ("imports", JArr (map sym_json (sy_imports s)));
         ("classes", JArr (map class_json (sy_classes s)));
         ("functions", JArr (map sym_json (sy_functions s)));
         ("variables", JArr (map sym_json (sy_variables s)))]
        ++ match sy_error s with Some e => [("error", JStr e)] | None => [] end).

Definition failure (msg : string) : jval :=
  JObj [("success", JBool false); ("error", JStr msg)].

Definition max_chars : nat := 30 * 1000.

(** ["<n>: <line>"] for the line of index [i] *)
Definition numbered (i : nat) (line : string) : string :=
  pretty (i + 1) +:+ ": " +:+ PyStr.rstrip_cr line.

(** [for i in range(lo, hi)] over [all_lines], with [hi <= len(all_lines)] *)
Definition numbered_range (all_lines : list string) (lo hi : nat) : list string :=
  imap (fun k line => numbered (lo + k) line) (firstn (hi - lo) (skipn lo all_lines)).

(** The loop under the character cap: [rest] are the lines from index [i]
    on, [char_count] what has been taken, [started] whether
    [numbered_lines] is non-empty. Returns the lines and [end_idx]. *)
Fixpoint read_capped (rest : list string) (i char_count : nat) (started : bool)
  : list string * nat :=
  match rest with
  | [] => ([], i)
  | line :: rest' =>
      let n := PyStr.len (numbered i line) + 1 in
      if (max_chars <? char_count + n)%nat && started then ([], i)
      else let '(ls, e) := read_capped rest' (S i) (char_count + n) true in
           (numbered i line :: ls, e)
  end.

Definition nlstr : string := String PyStr.nl "".

Definition exec_read_file (W : World) (x : Executor) (tool_input : jval)
  : outcome (jval * Executor) :=
  fp <-! Py.get tool_input "file_path" (JStr "") ;;
  sl <-! Py.get tool_input "start_line" JNull ;;
  off <-! Py.get tool_input "offset" (JNum 1) ;;
  let start_line := Py.or_else sl off in
  end_line <-! Py.get tool_input "end_line" JNull ;;
  file_path <-! Py.as_str fp ;;
  let full_path := Path.join (workspace x) file_path in
  match disk_lookup (disk x) full_path with
  | None => Return (failure ("File not found: " +:+ file_path), x)
  | Some bytes =>
      let full_content := PyStr.universal_newlines bytes in
      let total_chars := PyStr.len full_content in
      let all_lines := PyStr.split PyStr.nl full_content in
      let total_lines := length all_lines in
      sl_int <-! Py.as_int start_line ;;
      let start_idx := Z.to_nat (Z.max 0 (sl_int - 1)) in
      (* end_idx as a number, and as it prints *)
      r <-! (if Py.is_none end_line then
               let '(ls, e) := read_capped (skipn start_idx all_lines) start_idx 0 false in
               Return (ls, Z.of_nat e, pretty e)
             else
               el <-! Py.as_int end_line ;;
               if (Z.of_nat total_lines <? el)%Z then
                 Return (numbered_range all_lines start_idx total_lines,
                         Z.of_nat total_lines, pretty total_lines)
               else
                 Return (numbered_range all_lines start_idx (Z.to_nat el),
                         el, Py.fmt end_line)) ;;
      let '(numbered_lines, end_idx, end_shown) := r in
      let content := PyStr.join nlstr numbered_lines in
      let has_more := (end_idx <? Z.of_nat total_lines)%Z in
      let remaining_lines := (Z.of_nat total_lines - end_idx)%Z in
      let '(symbols, ix) :=
        match index_get (symbol_index x) file_path with
        | Some _ => (JNull, symbol_index x)
        | None =>
            let s := _extract_file_symbols W file_path full_content in
            (symbols_json s, symbol_index x ++ [(file_path, s)])
        end in
      Return
        (JObj ([("success", JBool true);
                ("content", JStr content);
                ("file_path", JStr file_path);
                ("total_lines", JNum (Z.of_nat total_lines));
                ("total_chars", JNum (Z.of_nat total_chars));
                ("showing", JStr (pretty (start_idx + 1) +:+ "-" +:+ end_shown));
                ("chars_read", JNum (Z.of_nat (PyStr.len content)));
                ("has_more", JBool has_more);
                ("symbols", symbols)]
               ++ (if has_more then
                     [("next_offset", JNum (end_idx + 1));
                      ("remaining_lines", JNum remaining_lines);
                      ("CONTINUE", JStr ("File has " +:+ pretty remaining_lines
                          +:+ " more lines. Use start_line=" +:+ pretty (end_idx + 1)%Z
                          +:+ " to continue."))]
                   else [])),
         with_index x ix)
  end.

(** [open(full_path, 'w')] empties the file before [f.write] looks at its
    argument. *)
Definition truncate (d : Disk) (full : string) : Disk :=
  set_files d (<[Path.canon full := ""]> (files d)).

Definition store (d : Disk) (full content : string) : Disk :=
  set_files d (<[Path.canon full := content]> (files d)).

(** An exception leaves the branch with the state reached so far. *)
Definition exec_write_file (x : Executor) (tool_input : jval)
  : outcome jval * Executor :=
  match (fp <-! Py.get tool_input "file_path" (JStr "") ;;
         content <-! Py.get tool_input "content" (JStr "") ;;
         file_path <-! Py.as_str fp ;;
         Return (file_path, content)) with
  | Raise e => (Raise e, x)
  | Return (file_path, content) =>
      let full_path := Path.join (workspace x) file_path in
      let existed := disk_exists (disk x) full_path in
      match content with
      | JStr c =>
          (Return (JObj [("success", JBool true);
                         ("action", JStr (if existed then "overwritten" else "created"));
                         ("path", JStr file_path);
                         ("size", JNum (Z.of_nat (PyStr.len c)))]),
           with_disk x (store (disk x) full_path c))
      | _ =>
          (Raise (TypeError "write() argument must be str"),
           with_disk x (truncate (disk x) full_path))
      end
  end.

Definition exec_edit_file (x : Executor) (tool_input : jval)
  : outcome (jval * Executor) :=
  fp <-! Py.get tool_input "file_path" (JStr "") ;;
  old_text <-! Py.get tool_input "old_text" (JStr "") ;;
  new_text <-! Py.get tool_input "new_text" (JStr "") ;;
  start_line <-! Py.get tool_input "start_line" JNull ;;
  end_line <-! Py.get tool_input "end_line" JNull ;;
  new_content_input <-! Py.get tool_input "new_content" (JStr "") ;;
  file_path <-! Py.as_str fp ;;
  let full_path := Path.join (workspace x) file_path in
  match disk_lookup (disk x) full_path with
  | None => Return (failure ("File not found: " +:+ file_path), x)
  | Some bytes =>
      let content := PyStr.universal_newlines bytes in
      if negb (Py.is_none start_line) && negb (Py.is_none end_line) then
        (* line range mode *)
        let all_lines := PyStr.split PyStr.nl content in
        let total_lines := Z.of_nat (length all_lines) in
        s <-! Py.as_int start_line ;;
        if (s <? 1)%Z then
          Return (failure ("Invalid line range: " +:+ Py.fmt start_line +:+ "-"
                    +:+ Py.fmt end_line +:+ " (file has " +:+ pretty total_lines +:+ " lines)"), x)
        else
        e <-! Py.as_int end_line ;;
        if (total_lines <? e)%Z || (e <? s)%Z then
          Return (failure ("Invalid line range: " +:+ Py.fmt start_line +:+ "-"
                    +:+ Py.fmt end_line +:+ " (file has " +:+ pretty total_lines +:+ " lines)"), x)
        else
          new_lines <-! (if Py.truthy new_content_input then
                           match new_content_input with
                           | JStr nc => Return (PyStr.split PyStr.nl nc)
                           | _ => Raise (AttributeError "object has no attribute 'split'")
                           end
                         else Return []) ;;
          let start_idx := Z.to_nat (s - 1) in
          let end_idx := Z.to_nat e in
          let result_lines := firstn start_idx all_lines ++ new_lines ++ skipn end_idx all_lines in
          let new_content := PyStr.join nlstr result_lines in
          Return (JObj [("success", JBool true);
                        ("path", JStr file_path);
                        ("edit_type", JStr "line_range");
                        ("range", JStr (Py.fmt start_line +:+ "-" +:+ Py.fmt end_line));
                        ("lines_removed", JNum (e - s + 1));
                        ("lines_added", JNum (Z.of_nat (length new_lines)));
                        ("new_total_lines", JNum (Z.of_nat (length result_lines)))],
                  with_disk x (store (disk x) full_path new_content))
      else if Py.truthy old_text then
        (* text replacement mode *)
        old <-! Py.as_str old_text ;;
        if negb (PyStr.contains old content) then
          Return (failure "Text not found in file", x)
        else
          new <-! Py.as_str new_text ;;
          Return (JObj [("success", JBool true);
                        ("path", JStr file_path);
                        ("edit_type", JStr "text_replace");
                        ("changes", JNum 1)],
                  with_disk x (store (disk x) full_path (PyStr.replace1 old new content)))
      else
        Return (failure "Provide old_text/new_text OR start_line/end_line/new_content", x)
  end.

(** [execute]: the [try] around the dispatch turns every exception into a
    failed result. *)
Definition execute (W : World) (x : Executor) (tool_name : string) (tool_input : jval)
  : jval * Executor :=
  if String.eqb tool_name "read_file" then
    match exec_read_file W x tool_input with
    | Return r => r
    | Raise e => (failure (exn_str e), x)
    end
  else if String.eqb tool_name "write_file" then
    match exec_write_file x tool_input with
    | (Return r, x') => (r, x')
    | (Raise e, x') => (failure (exn_str e), x')
    end
  else if String.eqb tool_name "edit_file" then
    match exec_edit_file x tool_input with
    | Return r => r
    | Raise e => (failure (exn_str e), x)
    end
  else
    let '(r, td) := other_tool W tool_name tool_input (tx_manager x, disk x) in
    (r, with_tm_disk x td).

End ToolExecutor.

(** ** [json.loads] and the two regular expressions *)

Module Json.

Definition is_ws (a : ascii) : bool :=
  Ascii.eqb a " " || Ascii.eqb a "009" || Ascii.eqb a "010" || Ascii.eqb a "013".

Fixpoint skip_ws (s : string) : string :=
  match s with
  | String a s' => if is_ws a then skip_ws s' else s
  | "" => ""
  end.

Definition is_digit (a : ascii) : bool :=
  let n := nat_of_ascii a in ((48 <=? n) && (n <=? 57))%nat.

Definition hex_val (a : ascii) : option nat :=
  let n := nat_of_ascii a in
  if ((48 <=? n) && (n <=? 57))%nat then Some (n - 48)
  else if ((97 <=? n) && (n <=? 102))%nat then Some (n - 87)
  else if ((65 <=? n) && (n <=? 70))%nat then Some (n - 55)
  else None.

Definition dquote : ascii := "034"%char.
Definition backslash : ascii := "092"%char.

Definition escape (e : ascii) : option ascii :=
  if Ascii.eqb e dquote then Some dquote
  else if Ascii.eqb e backslash then Some backslash
  else if Ascii.eqb e "/" then Some "/"%char
  else if Ascii.eqb e "b" then Some "008"%char
  else if Ascii.eqb e "f" then Some "012"%char
  else if Ascii.eqb e "n" then Some "010"%char
  else if Ascii.eqb e "r" then Some "013"%char
  else if Ascii.eqb e "t" then Some "009"%char
  else None.

(** The body of a string literal, after its opening quote. An escape
    [\uXXXX] is read when it names a character below 256; the model has no
    other characters. *)
Fixpoint parse_string (s : string) : option (string * string) :=
  match s with
  | "" => None
  | String a s' =>
      if Ascii.eqb a dquote then Some ("", s')
      else if Ascii.eqb a backslash then
        match s' with
        | String e s'' =>
            if Ascii.eqb e "u" then
              match s'' with
              | String h1 (String h2 (String h3 (String h4 rest))) =>
                  match hex_val h1, hex_val h2, hex_val h3, hex_val h4 with
                  | Some 0, Some 0, Some c, Some d =>
                      match parse_string rest with
                      | Some (r, k) => Some (String (ascii_of_nat (16 * c + d)) r, k)
                      | None => None
                      end
                  | _, _, _, _ => None
                  end
              | _ => None
              end
            else
              match escape e, parse_string s'' with
              | Some c, Some (r, k) => Some (String c r, k)
              | _, _ => None
              end
        | "" => None
        end
      else if (nat_of_ascii a <? 32)%nat then None
      else match parse_string s' with
           | Some (r, k) => Some (String a r, k)
           | None => None
           end
  end.

Fixpoint span (p : ascii -> bool) (s : string) : string * string :=
  match s with
  | String a s' => if p a then let '(x, y) := span p s' in (String a x, y) else ("", s)
  | "" => ("", "")
  end.

Fixpoint digits_val (acc : Z) (ds : string) : Z :=
  match ds with
  | "" => acc
  | String a ds' => digits_val (10 * acc + Z.of_nat (nat_of_ascii a - 48))%Z ds'
  end.

(** A JSON number: sign, integer part without leading zero, then an
    optional fraction and an optional exponent. *)
Definition parse_number (s : string) : option (jval * string) :=
  let '(neg, s1) := match s with
                    | String "-" r => (true, r)
                    | _ => (false, s)
                    end in
  let '(int_part, s2) :=
    match s1 with
    | String "0" r => ("0", r)
    | _ => span is_digit s1
    end in
  match int_part with
  | "" => None
  | _ =>
      let '(frac, s3) :=
        match s2 with
        | String "." r =>
            match span is_digit r with
            | ("", _) => ("", s2)
            | (f, r') => ("." +:+ f, r')
            end
        | _ => ("", s2)
        end in
      let '(ex, s4) :=
        match s3 with
        | String c r =>
            if Ascii.eqb c "e" || Ascii.eqb c "E" then
              let '(sign, r1) :=
                match r with
                | String "-" r' => ("-", r')
                | String "+" r' => ("+", r')
                | _ => ("", r)
                end in
              match span is_digit r1 with
              | ("", _) => ("", s3)
              | (dg, r') => ("e" +:+ sign +:+ dg, r')
              end
            else ("", s3)
        | "" => ("", s3)
        end in
      let sgn := if neg then "-" else "" in
      match frac, ex with
      | "", "" => Some (JNum (if neg then - digits_val 0 int_part else digits_val 0 int_part)%Z, s4)
      | _, _ => Some (JFloat (sgn +:+ int_part +:+ frac +:+ ex), s4)
      end
  end.

Definition strip_lit (lit s : string) : option string :=
  if String.prefix lit s then Some (PyStr.drop (PyStr.len lit) s) else None.

Definition parse_scalar (s : string) : option (jval * string) :=
  match strip_lit "null" s, strip_lit "true" s, strip_lit "false" s with
  | Some k, _, _ => Some (JNull, k)
  | _, Some k, _ => Some (JBool true, k)
  | _, _, Some k => Some (JBool false, k)
  | _, _, _ =>
      match strip_lit "NaN" s, strip_lit "Infinity" s, strip_lit "-Infinity" s with
      | Some k, _, _ => Some (JFloat "nan", k)
      | _, Some k, _ => Some (JFloat "inf", k)
      | _, _, Some k => Some (JFloat "-inf", k)
      | _, _, _ => parse_number s
      end
  end.

(** One value at the head of [s], and what follows it. *)
Fixpoint parse_value (fuel : nat) (s : string) : option (jval * string) :=
  match fuel with
  | 0 => None
  | S fuel' =>
      match s with
      | String a r =>
          if Ascii.eqb a dquote then
            match parse_string r with
            | Some (str, k) => Some (JStr str, k)
            | None => None
            end
          else if Ascii.eqb a "{" then
            match skip_ws r with
            | String "}" k => Some (JObj [], k)
            | r1 =>
                match parse_members fuel' r1 with
                | Some (kv, k) => Some (JObj kv, k)
                | None => None
                end
            end
          else if Ascii.eqb a "[" then
            match skip_ws r with
            | String "]" k => Some (JArr [], k)
            | r1 =>
                match parse_elements fuel' r1 with
                | Some (l, k) => Some (JArr l, k)
                | None => None
                end
            end
          else parse_scalar s
      | "" => None
      end
  end
(** [r] begins a value of an array; ends after the closing bracket. *)
with parse_elements (fuel : nat) (r : string) : option (list jval * string) :=
  match fuel with
  | 0 => None
  | S fuel' =>
      match parse_value fuel' r with
      | Some (v, k) =>
          match skip_ws k with
          | String "]" k' => Some ([v], k')
          | String "," k' =>
              match parse_elements fuel' (skip_ws k') with
              | Some (l, k'') => Some (v :: l, k'')
              | None => None
              end
          | _ => None
          end
      | None => None
      end
  end
(** [r] begins a key of an object; ends after the closing brace. *)
with parse_members (fuel : nat) (r : string) : option (list (string * jval) * string) :=
  match fuel with
  | 0 => None
  | S fuel' =>
      match r with
      | String a r1 =>
          if Ascii.eqb a dquote then
            match parse_string r1 with
            | Some (key, k) =>
                match skip_ws k with
                | String ":" k1 =>
                    match parse_value fuel' (skip_ws k1) with
                    | Some (v, k2) =>
                        match skip_ws k2 with
                        | String "}" k' => Some ([(key, v)], k')
                        | String "," k' =>
                            match parse_members fuel' (skip_ws k') with
                            | Some (kv, k'') => Some ((key, v) :: kv, k'')
                            | None => None
                            end
                        | _ => None
                        end
                    | None => None
                    end
                | _ => None
                end
            | None => None
            end
          else None
      | "" => None
      end
  end.

(** [json.loads(s)]: [None] for [JSONDecodeError]. The calls nest no deeper
    than twice the length of the text. *)
Definition loads (s : string) : option jval :=
  match parse_value (2 * PyStr.len s + 2) (skip_ws s) with
  | Some (v, k) => match skip_ws k with "" => Some v | _ => None end
  | None => None
  end.

End Json.

(** The two patterns of [_parse_tool_block] and [_detect_tool_calls], with
    [re.DOTALL | re.IGNORECASE]. Their groups are a run of word characters
    and a lazy body up to the next fence, so one pass without backtracking
    computes the leftmost match. *)
Module Re.

Definition lower (a : ascii) : ascii :=
  let n := nat_of_ascii a in
  if ((65 <=? n) && (n <=? 90))%nat then ascii_of_nat (n + 32) else a.

(** A literal at the head of [s], letters in either case. *)
Fixpoint strip_ci (lit s : string) : option string :=
  match lit, s with
  | "", _ => Some s
  | String a lit', String b s' =>
      if Ascii.eqb (lower a) (lower b) then strip_ci lit' s' else None
  | String _ _, "" => None
  end.

(** [\w] on the characters of the model *)
Definition is_word (a : ascii) : bool :=
  let n := nat_of_ascii (lower a) in
  (((97 <=? n) && (n <=? 122)) || ((48 <=? n) && (n <=? 57)) || (n =? 95))%nat.

Definition fence : string := "```".

(** The tail [\s*(.*?)\s*```] of every pattern: the body without the white
    space around it, and the text after the closing fence. *)
Definition body_to_fence (s : string) : option (string * string) :=
  let r := PyStr.lstrip s in
  match PyStr.find fence r with
  | Some j => Some (PyStr.rstrip (PyStr.take j r), PyStr.drop (j + 3) r)
  | None => None
  end.

Definition opt_ci (lit s : string) : string :=
  match strip_ci lit s with Some r => r | None => s end.

(** [\[TOOL:(\w+)\]\s*```] at the head of [s], then the language tag:
    [(?:json)?] in [_parse_tool_block], [json?] in [_detect_tool_calls]. *)
Definition match_tool (tag_optional : bool) (s : string) : option (string * string * string) :=
  match strip_ci "[TOOL:" s with
  | None => None
  | Some r0 =>
      match Json.span is_word r0 with
      | ("", _) => None
      | (name, String "]" r2) =>
          match strip_ci fence (PyStr.lstrip r2) with
          | None => None
          | Some r4 =>
              let after_tag :=
                if tag_optional then Some (opt_ci "json" r4)
                else match strip_ci "jso" r4 with
                     | Some r => Some (opt_ci "n" r)
                     | None => None
                     end in
              match after_tag with
              | None => None
              | Some r5 =>
                  match body_to_fence r5 with
                  | Some (body, rest) => Some (name, body, rest)
                  | None => None
                  end
              end
          end
      | (_, _) => None
      end
  end.

(** [```tool:(\w+)\s*(.*?)\s*```] at the head of [s] *)
Definition match_alt (s : string) : option (string * string * string) :=
  match strip_ci "```tool:" s with
  | None => None
  | Some r0 =>
      match Json.span is_word r0 with
      | ("", _) => None
      | (name, r1) =>
          match body_to_fence r1 with
          | Some (body, rest) => Some (name, body, rest)
          | None => None
          end
      end
  end.

(** [re.search]: the match at the leftmost position that has one. *)
Fixpoint search {A} (m : string -> option A) (s : string) : option A :=
  match m s with
  | Some r => Some r
  | None => match s with
            | "" => None
            | String _ s' => search m s'
            end
  end.

(** [re.findall]: the matches from left to right, each search resuming
    where the last match ended. *)
Fixpoint findall {A} (fuel : nat) (m : string -> option (A * string)) (s : string) : list A :=
  match fuel with
  | 0 => []
  | S fuel' =>
      match m s with
      | Some (r, rest) => r :: findall fuel' m rest
      | None => match s with
                | "" => []
                | String _ s' => findall fuel' m s'
                end
      end
  end.

End Re.

Record ToolCall := mkCall { name : string; input : jval }.

Definition _parse_tool_block (tool_block : string) : option ToolCall :=
  match Re.search (Re.match_tool true) tool_block with
  | Some (n, body, _) =>
      match Json.loads (PyStr.strip body) with
      | Some v => Some (mkCall n v)
      | None => None
      end
  | None =>
      match Re.search Re.match_alt tool_block with
      | Some (n, body, _) =>
          match Json.loads (PyStr.strip body) with
          | Some v => Some (mkCall n v)
          | None => None
          end
      | None => None
      end
  end.

Fixpoint jval_eqb (a b : jval) {struct a} : bool :=
  match a, b with
  | JNull, JNull => true
  | JBool x, JBool y => Bool.eqb x y
  | JNum x, JNum y => (x =? y)%Z
  | JFloat x, JFloat y => String.eqb x y
  | JStr x, JStr y => String.eqb x y
  | JArr x, JArr y =>
      (fix go (x y : list jval) : bool :=
         match x, y with
         | [], [] => true
         | u :: x', v :: y' => jval_eqb u v && go x' y'
         | _, _ => false
         end) x y
  | JObj x, JObj y =>
      (fix go (x y : list (string * jval)) : bool :=
         match x, y with
         | [], [] => true
         | (k, u) :: x', (k', v) :: y' => String.eqb k k' && jval_eqb u v && go x' y'
         | _, _ => false
         end) x y
  | _, _ => false
  end.

Definition call_eqb (a b : ToolCall) : bool :=
  String.eqb (name a) (name b) && jval_eqb (input a) (input b).

Definition loaded (nb : string * string) : list ToolCall :=
  match Json.loads nb.2 with
  | Some v => [mkCall nb.1 v]
  | None => []
  end.

Definition as_pair (r : option (string * string * string)) : option ((string * string) * string) :=
  match r with
  | Some (n, body, rest) => Some ((n, body), rest)
  | None => None
  end.

(** [_detect_tool_calls]. The test [not in tool_calls] compares the values
    as written; Python would also equate objects that differ in the order
    of their keys, which can only drop a later entry of the list. *)
Definition _detect_tool_calls (response : string) : list ToolCall :=
  let fuel := S (PyStr.len response) in
  let main := flat_map loaded
                (Re.findall fuel (fun s => as_pair (Re.match_tool false s)) response) in
  let alts := flat_map loaded
                (Re.findall fuel (fun s => as_pair (Re.match_alt s)) response) in
  fold_left (fun acc c => if existsb (call_eqb c) acc then acc else acc ++ [c]) alts main.

(** ** [IDEServer]: stream interception, the agentic loop, confirmation *)

Module IDE.

(** The messages sent on the WebSocket. *)
Inductive Event :=
| Token (content : string)
| ToolDetected (tool_name : string) (tool_input : jval)
| ToolExecuting (tool_name : string) (tool_input : jval)
    (exploration_count : option nat) (max_exploration : nat)
| OpenInEditor (file_path : jval) (tool_name : string) (line : jval)
| ToolResult (tool_name : string) (result : jval) (file_path : option jval)
| FileModified (file_path : jval) (action : jval)
| ToolConfirmRequest (confirmation_id tool_name : string) (tool_input : jval)
    (description : string)
| WaitingConfirmation (confirmation_id : string)
| Done (content : string)
| Error (content : string)
| Cancelled (content : string).

Record LoopContext := mkCtx {
  ctx_system_prompt : string;
  ctx_stream : bool;
  ctx_user_message : string;
  ctx_full_response : string
}.

(** The server. [sent] is what went out on the socket, oldest first.
    [executed] lists the calls of [tool_executor.execute], oldest first;
    [tick] counts the requests to the language model and [ids] the
    identifiers drawn: the three are history, the program does not read
    them. *)
Record Server := mkServer {
  tool_executor : ToolExecutor.Executor;
  abort_requested : bool;
  conversation_history : list (string * string);
  pending_tool_confirmations : gmap string ToolCall;
  _pending_loop_context : option LoopContext;
  sent : list Event;
  executed : list ToolCall;
  tick : nat;
  ids : nat
}.

Definition send (s : Server) (e : Event) : Server :=
  {| tool_executor := tool_executor s; abort_requested := abort_requested s;
     conversation_history := conversation_history s;
     pending_tool_confirmations := pending_tool_confirmations s;
     _pending_loop_context := _pending_loop_context s;
     sent := sent s ++ [e]; executed := executed s; tick := tick s; ids := ids s |}.

Definition send_all (s : Server) (es : list Event) : Server := fold_left send es s.

Definition set_abort (s : Server) (b : bool) : Server :=
  {| tool_executor := tool_executor s; abort_requested := b;
     conversation_history := conversation_history s;
     pending_tool_confirmations := pending_tool_confirmations s;
     _pending_loop_context := _pending_loop_context s;
     sent := sent s; executed := executed s; tick := tick s; ids := ids s |}.

Definition remember (s : Server) (role content : string) : Server :=
  {| tool_executor := tool_executor s; abort_requested := abort_requested s;
     conversation_history := conversation_history s ++ [(role, content)];
     pending_tool_confirmations := pending_tool_confirmations s;
     _pending_loop_context := _pending_loop_context s;
     sent := sent s; executed := executed s; tick := tick s; ids := ids s |}.

Definition set_pending (s : Server) (p : gmap string ToolCall) : Server :=
  {| tool_executor := tool_executor s; abort_requested := abort_requested s;
     conversation_history := conversation_history s;
     pending_tool_confirmations := p;
     _pending_loop_context := _pending_loop_context s;
     sent := sent s; executed := executed s; tick := tick s; ids := ids s |}.

Definition set_context (s : Server) (c : option LoopContext) : Server :=
  {| tool_executor := tool_executor s; abort_requested := abort_requested s;
     conversation_history := conversation_history s;
     pending_tool_confirmations := pending_tool_confirmations s;
     _pending_loop_context := c;
     sent := sent s; executed := executed s; tick := tick s; ids := ids s |}.

Definition next_tick (s : Server) : Server :=
  {| tool_executor := tool_executor s; abort_requested := abort_requested s;
     conversation_history := conversation_history s;
     pending_tool_confirmations := pending_tool_confirmations s;
     _pending_loop_context := _pending_loop_context s;
     sent := sent s; executed := executed s; tick := S (tick s); ids := ids s |}.

Definition next_id (s : Server) : Server :=
  {| tool_executor := tool_executor s; abort_requested := abort_requested s;
     conversation_history := conversation_history s;
     pending_tool_confirmations := pending_tool_confirmations s;
     _pending_loop_context := _pending_loop_context s;
     sent := sent s; executed := executed s; tick := tick s; ids := S (ids s) |}.

(** [self.tool_executor.execute(tool_name, tool_input)] *)
Definition run_tool (W : World) (s : Server) (c : ToolCall) : jval * Server :=
  let '(r, x) := ToolExecutor.execute W (tool_executor s) (name c) (input c) in
  (r, {| tool_executor := x; abort_requested := abort_requested s;
         conversation_history := conversation_history s;
         pending_tool_confirmations := pending_tool_confirmations s;
         _pending_loop_context := _pending_loop_context s;
         sent := sent s; executed := executed s ++ [c]; tick := tick s; ids := ids s |}).

(** *** [_get_symbol_summary] *)






(** *** The stream: tokens in, events out *)

Definition sentinel : string := "[TOOL:".

(** The [while True] over the token queue, on the tokens of one answer.
    The state is the four locals [current_response], [display_buffer],
    [tool_block_buffer], [in_tool_block]; the result is the events sent,
    the tool found in the stream if any, and [current_response]. *)
Fixpoint intercept (tokens : list string) (current_response display_buffer tool_block_buffer : string)
    (in_tool_block : bool) : list Event * option ToolCall * string :=
  match tokens with
  | [] => ([], None, current_response)
  | content :: rest =>
      let current_response := current_response +:+ content in
      if in_tool_block then
        let tool_block_buffer := tool_block_buffer +:+ content in
        if (2 <=? PyStr.count Re.fence tool_block_buffer)%nat then
          match _parse_tool_block tool_block_buffer with
          | Some tc =>
              ([ToolDetected (name tc) (input tc)], Some tc, current_response)
          | None =>
              let '(evs, tc, cr) :=
                intercept rest current_response (display_buffer +:+ tool_block_buffer) "" false in
              (Token tool_block_buffer :: evs, tc, cr)
          end
        else intercept rest current_response display_buffer tool_block_buffer true
      else if PyStr.contains sentinel current_response then
        let before_tool := PyStr.before sentinel current_response in
        let shown :=
          if PyStr.nonempty before_tool && PyStr.nonempty (PyStr.strip before_tool)
             && negb (PyStr.contains before_tool display_buffer) then
            let new_text := PyStr.drop (PyStr.len display_buffer) before_tool in
            if PyStr.nonempty new_text then [Token new_text] else []
          else [] in
        let '(evs, tc, cr) :=
          intercept rest current_response before_tool
            (sentinel +:+ PyStr.after sentinel current_response) true in
        (shown ++ evs, tc, cr)
      else
        let '(evs, tc, cr) :=
          intercept rest current_response (display_buffer +:+ content) tool_block_buffer false in
        (Token content :: evs, tc, cr)
  end.

(** *** [_run_agentic_loop] *)

Definition max_exploration : nat := 20.
Definition exploration_tools : list string := ["list_dir"; "read_file"; "search_code"].
Definition confirm_tools : list string := ["write_file"; "edit_file"; "bash"].
Definition editor_tools : list string := ["read_file"; "edit_file"; "write_file"; "search_code"].
Definition modifying_tools : list string := ["edit_file"; "write_file"].

Definition among (x : string) (l : list string) : bool := existsb (String.eqb x) l.

Definition nl2 : string := String PyStr.nl (String PyStr.nl "").
Definition nl1 : string := String PyStr.nl "".

Definition full_message (system_prompt user_message full_response : string) : string :=
  system_prompt +:+ nl2 +:+ "사용자: " +:+ user_message
  +:+ (if PyStr.nonempty full_response
       then nl2 +:+ "이전 응답:" +:+ nl1 +:+ PyStr.suffix_of_len 2000 full_response
       else "").

Definition exploration_token : string :=
  nl2 +:+ "---" +:+ nl1 +:+ "충분히 탐색했습니다. 이제 파악한 내용을 정리해드리겠습니다." +:+ nl2.

Definition exploration_note : string :=
  nl2 +:+ "---" +:+ nl1 +:+ "[시스템 안내]" +:+ nl1
  +:+ "탐색을 충분히 진행했습니다 (" +:+ pretty max_exploration +:+ "회)." +:+ nl1
  +:+ "지금까지 수집한 정보를 바탕으로 사용자의 질문에 답변해주세요." +:+ nl1
  +:+ "추가 탐색 없이, 파악한 내용을 명확하게 정리해서 설명해주세요." +:+ nl1.

Definition context_update (W : World) (tool_name : string) (result : jval)
    (exploration_count : nat) : string :=
  let hint := if among tool_name exploration_tools
              then nl1 +:+ "(탐색 " +:+ pretty exploration_count +:+ "/"
                   +:+ pretty max_exploration +:+ "회 사용)"
              else "" in
  nl2 +:+ "---" +:+ nl1 +:+ "## [도구 실행 결과: " +:+ tool_name +:+ "]" +:+ hint +:+ nl1
  +:+ PyStr.upto 3000 (json_dumps W result) +:+ nl1 +:+ "---" +:+ nl2
  +:+ "위 결과를 바탕으로 계속 진행하세요." +:+ nl1
  +:+ "- 더 궁금한 파일이 있으면 read_file로 읽으세요." +:+ nl1
  +:+ "- 연관된 코드를 찾으려면 search_code를 사용하세요." +:+ nl1
  +:+ "- 충분히 이해했으면 사용자에게 설명하세요." +:+ nl1.

Definition _get_tool_description (W : World) (tool_name : string) (tool_input : jval)
  : outcome string :=
  if String.eqb tool_name "bash" then
    c <-! Py.get tool_input "command" (JStr "") ;; Return ("명령어 실행: " +:+ Py.fmt c)
  else if String.eqb tool_name "write_file" then
    p <-! Py.get tool_input "file_path" (JStr "") ;;
    c <-! Py.get tool_input "content" (JStr "") ;;
    match c with
    | JStr text => Return ("파일 작성: " +:+ Py.fmt p +:+ " (" +:+ pretty (PyStr.len text) +:+ "자)")
    | JArr l => Return ("파일 작성: " +:+ Py.fmt p +:+ " (" +:+ pretty (length l) +:+ "자)")
    | JObj kv => Return ("파일 작성: " +:+ Py.fmt p +:+ " (" +:+ pretty (length kv) +:+ "자)")
    | _ => Raise (TypeError "object has no len()")
    end
  else if String.eqb tool_name "edit_file" then
    p <-! Py.get tool_input "file_path" (JStr "") ;; Return ("파일 수정: " +:+ Py.fmt p)
  else Return (tool_name +:+ ": " +:+ json_dumps W tool_input).

(** The [file_modified] message after a tool of [modifying_tools] that
    reports success. *)
Definition file_modified (tool_name : string) (result file_path : jval) : outcome (list Event) :=
  if among tool_name modifying_tools then
    ok <-! Py.get result "success" JNull ;;
    if Py.truthy ok then
      action <-! Py.get result "action" (JStr "modified") ;;
      Return [FileModified file_path action]
    else Return []
  else Return [].

(** The name [stream] in the dictionary that is to become
    [_pending_loop_context]: [_run_agentic_loop] has no parameter or local
    of that name, and the module has no such global. *)
Definition name_stream : outcome bool :=
  Raise (NameError "name 'stream' is not defined").

Inductive LoopExit :=
| Returned      (* a [return] inside the loop *)
| FellThrough.  (* the [while] ended: abort, or [max_iterations] reached *)

(** How one call of [_run_agentic_loop] ends: the server, the local
    [exploration_count] and [user_message] as they were last, and the way
    out. *)
Record LoopEnd := mkEnd {
  server : Server;
  exploration_count : nat;
  user_message : string;
  how : LoopExit
}.

Definition max_reached : string := nl2 +:+ "[최대 반복 횟수 도달]".

(** The confirmation branch for a tool of [confirm_tools]. *)
Definition park (W : World) (s : Server) (system_prompt user_message full_response : string)
    (c : ToolCall) : Server :=
  let confirm_id := PyStr.take 8 (uuid4 W (ids s)) in
  let s1 := set_pending (next_id s) (<[confirm_id := c]> (pending_tool_confirmations s)) in
  match name_stream with
  | Raise e => send s1 (Error (exn_str e))
  | Return st =>
      let s2 := set_context s1 (Some (mkCtx system_prompt st user_message full_response)) in
      match _get_tool_description W (name c) (input c) with
      | Raise e => send s2 (Error (exn_str e))
      | Return d =>
          send_all s2 [ToolConfirmRequest confirm_id (name c) (input c) d;
                       WaitingConfirmation confirm_id]
      end
  end.

(** The part of an iteration that follows the detection of the tool call
    [c]. [continue] is the rest of the [while] loop, entered with the new
    [user_message], the new [exploration_count] and the server. *)
Definition act (W : World) (continue : string -> nat -> Server -> LoopEnd)
    (system_prompt user_message full_response : string) (exploration_count : nat)
    (s : Server) (c : ToolCall) : LoopEnd :=
  if among (name c) confirm_tools then
    mkEnd (park W s system_prompt user_message full_response c)
          exploration_count user_message Returned
  else
    let counted := among (name c) exploration_tools in
    let exploration_count := if counted then S exploration_count else exploration_count in
    if counted && (max_exploration <? exploration_count)%nat then
      continue (user_message +:+ exploration_note) exploration_count
               (send s (Token exploration_token))
    else
      let s := send s (ToolExecuting (name c) (input c)
                         (if counted then Some exploration_count else None)
                         max_exploration) in
      match (p <-! Py.get (input c) "path" JNull ;;
             f <-! Py.get (input c) "file_path" JNull ;;
             l <-! Py.get (input c) "line" (JNum 1) ;;
             Return (Py.or_else p f, l)) with
      | Raise e => mkEnd (send s (Error (exn_str e))) exploration_count user_message Returned
      | Return (file_path, line) =>
          let s := if Py.truthy file_path && among (name c) editor_tools
                   then send s (OpenInEditor file_path (name c) line) else s in
          let '(result, s) := run_tool W s c in
          let s := send s (ToolResult (name c) result (Some file_path)) in
          match file_modified (name c) result file_path with
          | Return evs =>
              continue (user_message +:+ context_update W (name c) result exploration_count)
                       exploration_count (send_all s evs)
          | Raise e =>
              mkEnd (send s (Error (exn_str e))) exploration_count user_message Returned
          end
      end.

(** [remaining] is [max_iterations - iteration]. *)
Fixpoint loop (W : World) (remaining : nat) (system_prompt user_message full_response : string)
    (exploration_count : nat) (s : Server) : LoopEnd :=
  match remaining with
  | 0 => mkEnd (send s (Done (full_response +:+ max_reached))) exploration_count user_message FellThrough
  | S remaining' =>
      if abort_requested s || abort_at W (tick s) then
        mkEnd (send (set_abort s false) (Done (full_response +:+ max_reached)))
              exploration_count user_message FellThrough
      else
        let '(tokens, ending) := llm W (tick s) (full_message system_prompt user_message full_response) in
        let s := next_tick s in
        let '(evs, found, current_response) := intercept tokens "" "" "" false in
        let s := send_all s evs in
        match found, ending with
        | None, StreamError msg => mkEnd (send s (Error msg)) exploration_count user_message Returned
        | _, _ =>
            let full_response := full_response +:+ current_response in
            let tool_detected :=
              match found with
              | Some tc => Some tc
              | None => head (_detect_tool_calls current_response)
              end in
            match tool_detected with
            | None =>
                mkEnd (send (remember s "assistant" (PyStr.upto 500 full_response))
                            (Done full_response))
                      exploration_count user_message Returned
            | Some c =>
                act W (fun user_message exploration_count s =>
                         loop W remaining' system_prompt user_message full_response
                              exploration_count s)
                    system_prompt user_message full_response exploration_count s c
            end
        end
  end.

Definition _run_agentic_loop (W : World) (s : Server) (user_message system_prompt : string)
    (max_iterations : nat) : LoopEnd :=
  loop W max_iterations system_prompt user_message "" 0 (set_abort s false).

(** *** [websocket_chat], the branch for a [tool_confirm] message *)

Definition rejected : jval :=
  JObj [("success", JBool false); ("error", JStr "사용자가 거부함")].

Definition continue_message (W : World) (result : jval) : string :=
  nl1 +:+ "도구 실행 결과:" +:+ nl1 +:+ "```json" +:+ nl1
  +:+ PyStr.upto 2000 (json_dumps W result) +:+ nl1 +:+ "```" +:+ nl2
  +:+ "위 결과를 바탕으로 다음 작업을 계속하세요. 추가 수정이 필요하면 edit_file을, 완료됐으면 사용자에게 결과를 설명하세요."
  +:+ nl1.

(** An exception in this branch is not caught here: it ends the handler of
    the connection. The result tells whether that happened. *)
Definition tool_confirm (W : World) (s : Server) (confirmation_id : string) (approved : bool)
  : Server * option exn :=
  match pending_tool_confirmations s !! confirmation_id with
  | None => (s, None)
  | Some tool_info =>
      let s := set_pending s (delete confirmation_id (pending_tool_confirmations s)) in
      if approved then
        let '(result, s) := run_tool W s tool_info in
        let s := send s (ToolResult (name tool_info) result None) in
        match (f <-! Py.get (input tool_info) "file_path" JNull ;;
               p <-! Py.get (input tool_info) "path" JNull ;;
               file_modified (name tool_info) result (Py.or_else f p)) with
        | Raise e => (s, Some e)
        | Return evs =>
            let s := send_all s evs in
            match _pending_loop_context s with
            | Some ctx =>
                let e := _run_agentic_loop W s (continue_message W result)
                           (ctx_system_prompt ctx) (if ctx_stream ctx then 1 else 0) in
                (set_context (server e) None, None)
            | None => (s, None)
            end
        end
      else
        let s := send_all s [ToolResult (name tool_info) rejected None;
                             Done "도구 실행이 거부되어 작업을 중단합니다."] in
        (set_context s None, None)
  end.

(** The branch for a [cancel] message. *)
Definition cancel (s : Server) : Server :=
  send s (Cancelled "작업이 취소되었습니다").

Definition new_server (root : string) (d : Disk) : Server :=
  {| tool_executor := ToolExecutor.mkExec root (CodeTools.new_tx_manager root) d [];
     abort_requested := false;
     conversation_history := [];
     pending_tool_confirmations := ∅;
     _pending_loop_context := None;
     sent := []; executed := []; tick := 0; ids := 0 |}.

End IDE.

(** ** Notions used to state the properties *)

Import CodeTools.

(** One change applied on its turn; a failure or an exception leaves the
    disk as it is. *)
Definition apply_step (ops : SafeFileOps) (d : Disk) (c : FileChange) : Disk :=
  match _apply_change ops c d with
  | Return (_, d1) => d1
  | Raise _ => d
  end.

(** The disk that the [i]-th change of a commit finds. *)
Definition state_before (ops : SafeFileOps) (cs : list FileChange) (d : Disk) (i : nat) : Disk :=
  fold_left (apply_step ops) (firstn i cs) d.

Definition fails_at (ops : SafeFileOps) (cs : list FileChange) (d : Disk) (i : nat) : Prop :=
  exists c err d1, cs !! i = Some c /\
    _apply_change ops c (state_before ops cs d i) = Return ((false, err), d1).

Definition raises_at (ops : SafeFileOps) (cs : list FileChange) (d : Disk) (i : nat) : Prop :=
  exists c e, cs !! i = Some c /\
    _apply_change ops c (state_before ops cs d i) = Raise e.

(** The same change, whatever its status and error text. *)
Definition same_change (c c' : FileChange) : Prop :=
  operation c' = operation c /\ file_path c' = file_path c /\
  new_content c' = new_content c /\ old_content c' = old_content c /\
  new_path c' = new_path c.

(** ** Concrete workspaces for the examples *)

Module Ex.

Definition ws : string := "/ws".

Definition empty_disk : Disk := mkDisk ∅ [].

(** A transaction opened on [tm], its changes staged against [d]. *)
Inductive request :=
| Write (path content : string)
| Edit (path old_string new_string : string) (replace_all : bool)
| Delete (path : string)
| Rename (old_path new_path : string).

Definition stage_request (d : Disk) (tm : TransactionManager) (r : request) : TransactionManager :=
  match r with
  | Write p c => (write tm d p c).2
  | Edit p o n a => (edit tm d p o n a).2
  | Delete p => (delete tm d p).2
  | Rename p q => (rename tm p q).2
  end.

Definition staged (tm : TransactionManager) (d : Disk) (descr new_id : string)
    (rs : list request) : TransactionManager :=
  match begin tm descr new_id with
  | Return (_, tm1) => fold_left (stage_request d) rs tm1
  | Raise _ => tm
  end.

(** A file is written, then a file that does not exist is deleted. *)
Definition tm_write_then_bad_delete : TransactionManager :=
  staged (new_tx_manager ws) empty_disk "two changes" "0a1b2c3d"
    [Write "a.txt" "1"; Delete "b.txt"].

Definition tx_write_then_bad_delete : Transaction :=
  mkTx "0a1b2c3d" "two changes"
    [mkChange CREATE "a.txt" (Some "1") None None PENDING None;
     mkChange DELETE "b.txt" None None None PENDING None] PENDING.

End Ex.

(** ** Footprints and well-staged changes *)

Definition key (ops : SafeFileOps) (p : string) : string :=
  Path.canon (_resolve_path ops p).

Definition tmp_key (ops : SafeFileOps) (p : string) : string :=
  Path.canon (Path.with_tmp (_resolve_path ops p)).

(** The files a change reads or writes, when it is applied or reverted. *)
Definition footprint (ops : SafeFileOps) (c : FileChange) : list string :=
  match operation c with
  | CREATE | MODIFY | DELETE => [key ops (file_path c); tmp_key ops (file_path c)]
  | RENAME =>
      key ops (file_path c) ::
      match new_path c with Some np => [key ops np] | None => [] end
  | MOVE | COPY => []
  end.



(** Text that a read returns as it is stored: no null byte in the probe, no
    carriage return. *)
Definition is_plain (content : string) : bool :=
  negb (is_binary content) && negb (PyStr.has_chr PyStr.cr content).

Definition absent (s : gmap string string) (k : string) : bool :=
  negb (is_some (s !! k)).

(** The backup of the file can be named: backups are off, or the path is
    below the root. *)
Definition backup_ok (ops : SafeFileOps) (p : string) : bool :=
  negb (backup_enabled ops) ||
  is_some (Path.relative_to (root_path ops) (_resolve_path ops p)).

(** A change that records the files [s] as [CodeEditor] would stage it on a
    workspace of plain text without a left-over temporary file: a created
    file is not there, a modified or deleted file holds the recorded old
    content, a renamed file is there and its new name is free. *)
Definition well_staged (ops : SafeFileOps) (s : gmap string string) (c : FileChange) : bool :=
  let k := key ops (file_path c) in
  let t := tmp_key ops (file_path c) in
  match operation c with
  | CREATE => absent s k && absent s t && is_some (new_content c)
  | MODIFY =>
      match old_content c, new_content c with
      | Some o, Some n =>
          bool_decide (s !! k = Some o) && is_plain o && negb (is_binary n)
          && absent s t && backup_ok ops (file_path c)
      | _, _ => false
      end
  | DELETE =>
      match old_content c with
      | Some o =>
          bool_decide (s !! k = Some o) && is_plain o && absent s t
          && backup_ok ops (file_path c)
      | None => false
      end
  | RENAME =>
      match new_path c with
      | Some np => is_some (s !! k) && absent s (key ops np)
      | None => false
      end
  | MOVE | COPY => false
  end.

(** The files after a well-staged change has been applied. *)
Definition post (ops : SafeFileOps) (c : FileChange) (s : gmap string string)
  : gmap string string :=
  let k := key ops (file_path c) in
  match operation c with
  | CREATE | MODIFY =>
      match new_content c with Some n => <[k := n]> s | None => s end
  | DELETE => base.delete k s
  | RENAME =>
      match new_path c, s !! k with
      | Some np, Some content => <[key ops np := content]> (base.delete k s)
      | _, _ => s
      end
  | MOVE | COPY => s
  end.



Module Ex2.

(** Four files' worth of changes, one of each kind, on three files. *)
Definition disk_abc : Disk :=
  mkDisk {[ "/ws/a.txt" := "1"; "/ws/b.txt" := "b"; "/ws/c.txt" := "c" ]} [].

Definition tm_mixed : TransactionManager :=
  Ex.staged (new_tx_manager Ex.ws) disk_abc "one of each" "12345678"
    [Ex.Write "a.txt" "2"; Ex.Write "n.txt" "new"; Ex.Delete "b.txt";
     Ex.Rename "c.txt" "d.txt"].

Definition tx_mixed : Transaction :=
  mkTx "12345678" "one of each"
    [mkChange MODIFY "a.txt" (Some "2") (Some "1") None PENDING None;
     mkChange CREATE "n.txt" (Some "new") None None PENDING None;
     mkChange DELETE "b.txt" None (Some "b") None PENDING None;
     mkChange RENAME "c.txt" None None (Some "d.txt") PENDING None] PENDING.

(** A transaction whose changes share files: [b.txt] is created and renamed
    away, [a.txt] is renamed to [b.txt] and written again. *)
Definition disk_a : Disk := mkDisk {[ "/ws/a.txt" := "old" ]} [].


End Ex2.

(** A world for the examples: no symbols are found, every other tool
    reports success and touches nothing, the model's answers are given per
    request, nobody aborts. *)
Module Demo.

Definition world (answers : nat -> list string) : World :=
  {| parse_symbols := fun _ _ => ([], [], [], [], None);
     other_tool := fun _ _ td => (JObj [("success", JBool true)], td);
     llm := fun n _ => (answers n, StreamDone);
     abort_at := fun _ => false;
     uuid4 := fun n => "c0ffee0" +:+ pretty n +:+ "-0000-4000-8000-000000000000";
     json_dumps := fun _ => "{}" |}.

Definition quiet : World := world (fun _ => []).

Definition q : string := String Json.dquote "".

(** [{"k1": "v1", ...}] as the model writes it *)
Fixpoint fields (kv : list (string * string)) : string :=
  match kv with
  | [] => ""
  | [(k, v)] => q +:+ k +:+ q +:+ ": " +:+ q +:+ v +:+ q
  | (k, v) :: kv' => q +:+ k +:+ q +:+ ": " +:+ q +:+ v +:+ q +:+ ", " +:+ fields kv'
  end.

(** A tool block in the form the prompt asks for. *)
Definition block (tool : string) (kv : list (string * string)) : string :=
  "[TOOL:" +:+ tool +:+ "]" +:+ IDE.nl1 +:+ "```json" +:+ IDE.nl1
  +:+ "{" +:+ fields kv +:+ "}" +:+ IDE.nl1 +:+ "```".

Definition executor (d : Disk) : ToolExecutor.Executor :=
  ToolExecutor.mkExec "/ws" (new_tx_manager "/ws") d [].

Definition disk_with_secret : Disk :=
  mkDisk {[ "/etc/passwd" := "root"; "/ws/foo.py" := "say hi" ]} [].

End Demo.

(** The first scenario of the specification: a file, one request, and the
    model's answer with an [edit_file] block. *)
Module Scenario.

Definition disk_foo : Disk := mkDisk {[ "/ws/foo.py" := "say hi" +:+ IDE.nl1 ]} [].

Definition edit_call : ToolCall :=
  mkCall "edit_file"
    (JObj [("file_path", JStr "foo.py"); ("old_text", JStr "hi"); ("new_text", JStr "hello")]).

Definition edit_answer : list string :=
  ["I will change it. ";
   Demo.block "edit_file" [("file_path", "foo.py"); ("old_text", "hi"); ("new_text", "hello")];
   " Done."].

Definition world : World := Demo.world (fun _ => edit_answer).

(** The server after the loop has run on the request. *)
Definition parked : IDE.Server :=
  IDE.server (IDE._run_agentic_loop world (IDE.new_server "/ws" disk_foo)
                "change hi to hello" "You are a coding assistant." 99).

(** A file in which the text to replace occurs twice. *)
Definition disk_twice : Disk := mkDisk {[ "/ws/f.txt" := "aa" ]} [].

Definition edit_twice : jval :=
  JObj [("file_path", JStr "f.txt"); ("old_text", JStr "a"); ("new_text", JStr "b")].

End Scenario.


Module Later.


End Later.

(** ** Notions for the loop *)

(** What the iteration that begins in state [s] sees: the events of the
    stream, [current_response], and the tool call it settles on, found in
    the stream or, when the stream has ended well, by
    [_detect_tool_calls]. *)
Definition proposed (W : World) (s : IDE.Server) (system_prompt user_message full_response : string)
  : option (list IDE.Event * string * ToolCall) :=
  let '(tokens, ending) := llm W (IDE.tick s)
                             (IDE.full_message system_prompt user_message full_response) in
  let '(evs, found, current_response) := IDE.intercept tokens "" "" "" false in
  match found, ending with
  | Some c, _ => Some (evs, current_response, c)
  | None, StreamError _ => None
  | None, StreamDone =>
      match head (_detect_tool_calls current_response) with
      | Some c => Some (evs, current_response, c)
      | None => None
      end
  end.

Definition aborting (W : World) (s : IDE.Server) : bool :=
  IDE.abort_requested s || abort_at W (IDE.tick s).

(** The executed calls that count as exploration. *)
Definition explorations (l : list ToolCall) : nat :=
  length (filter (fun c => IDE.among (name c) IDE.exploration_tools = true) l).

(** Turns in which the model keeps asking for one tool. *)
Module Turn.

Definition start : IDE.Server := IDE.new_server "/ws" Scenario.disk_foo.

Definition grep_call : ToolCall := mkCall "grep" (JObj [("pattern", JStr "hi")]).
Definition read_call : ToolCall := mkCall "read_file" (JObj [("file_path", JStr "foo.py")]).
Definition multi_call : ToolCall := mkCall "multi_edit" (JObj [("description", JStr "batch")]).

Definition grep_answer : list string := [Demo.block "grep" [("pattern", "hi")]; "."].
Definition read_answer : list string := [Demo.block "read_file" [("file_path", "foo.py")]; "."].
Definition multi_answer : list string := [Demo.block "multi_edit" [("description", "batch")]; "."].

Definition always_grep : World := Demo.world (fun _ => grep_answer).
Definition always_read : World := Demo.world (fun _ => read_answer).
Definition multi_then_done : World :=
  Demo.world (fun n => match n with 0 => multi_answer | _ => ["All done."] end).

Definition response (answer : list string) : string := PyStr.join "" answer.

End Turn.

(** The fifth scenario of the specification, and the same answer cut
    inside the sentinel. *)
Module Stream.

Definition read_block : string := Demo.block "read_file" [("file_path", "x.py")].

Definition read_x : ToolCall := mkCall "read_file" (JObj [("file_path", JStr "x.py")]).

Definition whole_sentinel : list string :=
  ["I will read "; "that. "; read_block; " ignored tail"].

Definition split_sentinel : list string :=
  ["I will read "; "that. [TO"; PyStr.drop 3 read_block; " ignored tail"].

(** A file of three lines. *)
Definition disk_lines : Disk :=
  mkDisk {[ "/ws/f.txt" := "one" +:+ IDE.nl1 +:+ "two" +:+ IDE.nl1 +:+ "three" ]} [].

End Stream.

(** The input of a [read_file] call for a range of lines. *)
Definition read_input (p : string) (start_line : Z) (end_line : option Z) : jval :=
  JObj ([("file_path", JStr p); ("start_line", JNum start_line)]
        ++ match end_line with Some e => [("end_line", JNum e)] | None => [] end).

(** ** [UndoManager]: history and accounting *)

(** [l[-limit:]] *)
Definition last_slice {A} (limit : Z) (l : list A) : list A :=
  if (0 <? limit)%Z then skipn (length l - Z.to_nat limit) l
  else skipn (Z.to_nat (- limit)) l.

(** [Transaction.file_count] and [Transaction.summary] *)
Definition file_count (tx : Transaction) : nat := length (changes tx).

Record Summary := mkSummary {
  sum_create : nat;
  sum_modify : nat;
  sum_delete : nat;
  sum_rename : nat
}.

Definition is_op (o : OperationType) (c : FileChange) : bool :=
  match o, operation c with
  | CREATE, CREATE | MODIFY, MODIFY | DELETE, DELETE | RENAME, RENAME
  | MOVE, MOVE | COPY, COPY => true
  | _, _ => false
  end.

Definition count_op (o : OperationType) (tx : Transaction) : nat :=
  length (filter (fun c => is_op o c = true) (changes tx)).

Definition summary (tx : Transaction) : Summary :=
  {| sum_create := count_op CREATE tx; sum_modify := count_op MODIFY tx;
     sum_delete := count_op DELETE tx; sum_rename := count_op RENAME tx |}.

(** An entry of [get_history], without its time stamp. *)
Record HistoryEntry := mkHistory {
  h_id : string;
  h_description : string;
  h_files : nat;
  h_summary : Summary
}.

Definition history_entry (tx : Transaction) : HistoryEntry :=
  {| h_id := tx_id tx; h_description := description tx;
     h_files := file_count tx; h_summary := summary tx |}.

Definition get_history (um : UndoManager) (limit : Z) : list HistoryEntry :=
  map history_entry (rev (last_slice limit (_undo_stack um))).

(** [OperationType.value] *)
Definition op_value (o : OperationType) : string :=
  match o with
  | CREATE => "create" | MODIFY => "modify" | DELETE => "delete"
  | RENAME => "rename" | MOVE => "move" | COPY => "copy"
  end.

(** An entry of [get_file_history], without its time stamp. *)
Record FileHistoryEntry := mkFileHistory {
  transaction_id : string;
  fh_operation : string;
  has_old_content : bool
}.

Definition file_history_entry (tx : Transaction) (c : FileChange) : FileHistoryEntry :=
  {| transaction_id := tx_id tx; fh_operation := op_value (operation c);
     has_old_content := is_some (old_content c) |}.

(** The inner loop of [get_file_history] over the changes of [tx]; the
    flag tells whether the function returned from inside it. *)
Fixpoint scan_changes (limit : Z) (path : string) (tx : Transaction) (cs : list FileChange)
    (history : list FileHistoryEntry) : list FileHistoryEntry * bool :=
  match cs with
  | [] => (history, false)
  | c :: cs' =>
      if String.eqb (file_path c) path then
        let history := history ++ [file_history_entry tx c] in
        if (limit <=? Z.of_nat (length history))%Z then (history, true)
        else scan_changes limit path tx cs' history
      else scan_changes limit path tx cs' history
  end.

Fixpoint scan_stack (limit : Z) (path : string) (txs : list Transaction)
    (history : list FileHistoryEntry) : list FileHistoryEntry :=
  match txs with
  | [] => history
  | tx :: txs' =>
      let '(history, returned) := scan_changes limit path tx (changes tx) history in
      if returned then history else scan_stack limit path txs' history
  end.

Definition get_file_history (um : UndoManager) (path : string) (limit : Z)
  : list FileHistoryEntry :=
  scan_stack limit path (rev (_undo_stack um)) [].

(** Every change to [path] that the undo stack records, the newest
    transaction first. *)
Definition changes_to (path : string) (txs : list Transaction) : list FileHistoryEntry :=
  flat_map (fun tx => map (file_history_entry tx)
                        (filter (fun c => String.eqb (file_path c) path = true) (changes tx)))
           txs.

(** The sizes on the undo stack, and the invariant that [_total_bytes] is
    their sum. *)
Definition stack_bytes (stack : list Transaction) : Z :=
  fold_right (fun tx acc => (_calculate_size tx + acc)%Z) 0%Z stack.

Definition accounted (um : UndoManager) : Prop :=
  _total_bytes um = stack_bytes (_undo_stack um).



(** A tool block as the system prompt asks for it, with white space where
    the pattern allows it. *)
Definition tool_block (name ws0 ws1 body ws2 : string) : string :=
  "[TOOL:" +:+ name +:+ "]" +:+ ws0 +:+ "```json" +:+ ws1 +:+ body +:+ ws2 +:+ "```".

Definition is_final (e : IDE.Event) : bool :=
  match e with
  | IDE.Done _ | IDE.Error _ => true
  | _ => false
  end.

(** What one run adds: events that end with [done] or [error], at most
    [remaining] requests to the model, and at most one entry of the
    conversation history. *)
Definition run_adds (remaining : nat) (s s' : IDE.Server) : Prop :=
  (exists evs final, IDE.sent s' = IDE.sent s ++ evs ++ [final] /\ is_final final = true) /\
  IDE.tick s <= IDE.tick s' <= IDE.tick s + remaining /\
  (IDE.conversation_history s' = IDE.conversation_history s \/
   exists text, IDE.conversation_history s' = IDE.conversation_history s ++ [("assistant", text)] /\
                PyStr.len text <= 500).

(** Small cases on which the properties below are instantiated. *)
Module Sample.

Definition ops : SafeFileOps := editor_ops Ex.ws.

Definition tm : TransactionManager := new_tx_manager Ex.ws.

(** A file that starts with a null byte. *)
Definition disk_binary : Disk := mkDisk {[ "/ws/logo.png" := String "000" "PNG" ]} [].

(** A committed transaction that created [f] with [content]. *)
Definition created (id content : string) : Transaction :=
  mkTx id "d" [mkChange CREATE "f" (Some content) None None APPLIED None] APPLIED.

(** An undo manager for two transactions, which it holds. *)
Definition um_full : UndoManager :=
  mkUndo 2 100 [created "t1" "aaaa"; created "t2" "bbbb"] [] 16.

(** The commit of [Ex2.tm_mixed]. *)
Definition tx_mixed_applied : Transaction :=
  with_changes Ex2.tx_mixed (map (fun c => set_status c APPLIED) (changes Ex2.tx_mixed)) APPLIED.

Definition committed : TransactionManager * Disk :=
  let '(_, tm1, d1) := commit Ex2.tm_mixed false Ex2.disk_abc in (tm1, d1).

(** A transaction that deletes a file outside the root: its backup cannot
    be named. *)
Definition tx_outside : Transaction :=
  mkTx "aaaa0000" "outside"
    [mkChange DELETE "/etc/passwd" None (Some "root") None PENDING None] PENDING.

Definition tm_outside : TransactionManager :=
  Ex.staged tm Demo.disk_with_secret "outside" "aaaa0000" [Ex.Delete "/etc/passwd"].



End Sample.

(** ** [IDEServer]: the size of the conversation and its compression *)

Module Tokens.








End Tokens.

(** ** [IDEServer._detect_language] *)

Module Language.

(** [str.lower] on the characters below 256: the letters A to Z and the
    accented capitals from U+00C0 to U+00DE, the multiplication sign
    excepted. *)
Definition lower_chr (a : ascii) : ascii :=
  let n := nat_of_ascii a in
  if (((65 <=? n) && (n <=? 90)) || ((192 <=? n) && (n <=? 222) && negb (n =? 215)))%nat
  then ascii_of_nat (n + 32) else a.

Fixpoint lower (s : string) : string :=
  match s with
  | "" => ""
  | String a s' => String (lower_chr a) (lower s')
  end.

(** [s.rfind(c)], [None] for -1 *)
Fixpoint rfind (c : ascii) (s : string) : option nat :=
  match s with
  | "" => None
  | String a s' =>
      match rfind c s' with
      | Some i => Some (S i)
      | None => if Ascii.eqb a c then Some 0 else None
      end
  end.

(** [Path(path).name]: the last component, empty for the root and for [.] *)
Definition name (path : string) : string := default "" (last (Path.parts path)).

(** [Path(path).suffix]: from the last dot of the name on, when that dot is
    neither its first nor its last character. *)
Definition suffix (path : string) : string :=
  let n := name path in
  match rfind "." n with
  | Some i => if ((0 <? i) && (i <? PyStr.len n - 1))%nat then PyStr.drop i n else ""
  | None => ""
  end.

Definition ext_map : list (string * string) :=
  [(".py", "python"); (".js", "javascript"); (".ts", "typescript"); (".tsx", "typescript");
   (".jsx", "javascript"); (".html", "html"); (".css", "css"); (".scss", "scss");
   (".json", "json"); (".md", "markdown"); (".yaml", "yaml"); (".yml", "yaml");
   (".xml", "xml"); (".sql", "sql"); (".sh", "shell"); (".bash", "shell"); (".zsh", "shell");
   (".c", "c"); (".cpp", "cpp"); (".h", "c"); (".hpp", "cpp"); (".java", "java");
   (".go", "go"); (".rs", "rust"); (".rb", "ruby"); (".php", "php"); (".swift", "swift");
   (".kt", "kotlin"); (".scala", "scala"); (".r", "r"); (".R", "r"); (".lua", "lua");
   (".pl", "perl"); (".dockerfile", "dockerfile"); (".toml", "toml"); (".ini", "ini");
   (".cfg", "ini"); (".env", "shell")].

Fixpoint dict_get (d : list (string * string)) (k dflt : string) : string :=
  match d with
  | [] => dflt
  | (k', v) :: d' => if String.eqb k' k then v else dict_get d' k dflt
  end.

Definition _detect_language (path : string) : string :=
  let ext := lower (suffix path) in
  let name := lower (name path) in
  if String.eqb name "dockerfile" then "dockerfile"
  else if String.eqb name "makefile" then "makefile"
  else dict_get ext_map ext "plaintext".

End Language.

(** * Properties *)

(** ** Commit *)

Section Commit.

Variable ops : SafeFileOps.

Lemma state_before_cons c cs d i :
  state_before ops (c :: cs) d (S i) = state_before ops cs (apply_step ops d c) i.
Proof. reflexivity. Qed.

Lemma fails_at_cons c cs d i :
  fails_at ops (c :: cs) d (S i) <-> fails_at ops cs (apply_step ops d c) i.
Proof. unfold fails_at. rewrite state_before_cons. reflexivity. Qed.

Lemma raises_at_cons c cs d i :
  raises_at ops (c :: cs) d (S i) <-> raises_at ops cs (apply_step ops d c) i.
Proof. unfold raises_at. rewrite state_before_cons. reflexivity. Qed.

(** Without an exception the loop of [commit] visits every change: the
    disk it leaves is the fold of the steps, the error list is empty
    exactly when no step failed, and the changes come back in order. *)
Lemma commit_loop_spec cs : forall d,
  (forall i, ~ raises_at ops cs d i) ->
  exists cs' errs,
    commit_loop ops cs d = (cs', errs, fold_left (apply_step ops) cs d, None) /\
    (errs = [] <-> forall i, ~ fails_at ops cs d i) /\
    Forall2 same_change cs cs'.
Proof.
  induction cs as [|c cs IH]; intros d Hno.
  - exists [], []. repeat split; auto.
    intros _ i (c & err & d1 & Hc & _). rewrite lookup_nil in Hc. discriminate.
  - destruct (_apply_change ops c d) as [[[ok err] d1]|e] eqn:Happ.
    2:{ exfalso. apply (Hno 0). exists c, e. split; [reflexivity | exact Happ]. }
    assert (Hstep : apply_step ops d c = d1) by (unfold apply_step; now rewrite Happ).
    destruct (IH d1) as (cs' & errs & Hloop & Herrs & Hsame).
    { intros i Hr. apply (Hno (S i)). apply raises_at_cons. now rewrite Hstep. }
    simpl. rewrite Happ, Hloop, Hstep. destruct ok.
    + exists (set_status c APPLIED :: cs'), errs. repeat split.
      * intros He [|i] Hf.
        -- destruct Hf as (c0 & err0 & d0 & Hc & Hf). simpl in Hc. injection Hc as <-.
           unfold state_before in Hf. simpl in Hf. rewrite Happ in Hf. discriminate.
        -- apply fails_at_cons in Hf. rewrite Hstep in Hf.
           exact (proj1 Herrs He i Hf).
      * intros Hnf. apply Herrs. intros i Hf. apply (Hnf (S i)).
        apply fails_at_cons. now rewrite Hstep.
      * constructor; [repeat split | exact Hsame].
    + exists (with_status c FAILED err :: cs'),
             ((file_path c +:+ ": " +:+ default "None" err) :: errs). repeat split.
      * discriminate.
      * intros Hnf. exfalso. apply (Hnf 0). exists c, err, d1. split; [reflexivity | exact Happ].
      * constructor; [repeat split | exact Hsame].
Qed.

End Commit.

(** C3, as the code has it. A commit in which the application of some
    change fails (and none raises an exception) returns the transaction
    marked [FAILED], closes it and leaves the undo manager as it was, so
    the transaction is not pushed. Nothing is rolled back: the disk is the
    one reached by applying every change in order, the changes after the
    failing one included. *)
Theorem commit_failure_marks_failed_without_rollback
  (tm : TransactionManager) (d : Disk) (tx : Transaction) (i : nat) :
  _current_transaction tm = Some tx ->
  (forall j, ~ raises_at (file_ops tm) (changes tx) d j) ->
  fails_at (file_ops tm) (changes tx) d i ->
  exists cs,
    commit tm false d =
      (Return (with_changes tx cs FAILED), with_current tm None,
       fold_left (apply_step (file_ops tm)) (changes tx) d) /\
    Forall2 same_change (changes tx) cs /\
    undo_manager (with_current tm None) = undo_manager tm.
Proof.
  intros Hcur Hno Hfail.
  destruct (commit_loop_spec (file_ops tm) (changes tx) d Hno)
    as (cs & errs & Hloop & Herrs & Hsame).
  exists cs. unfold commit. rewrite Hcur, Hloop.
  destruct errs as [|e errs].
  - exfalso. exact (proj1 Herrs eq_refl i Hfail).
  - repeat split. exact Hsame.
Qed.

Lemma commit_failure_marks_failed_without_rollback_witness :
  exists cs,
    commit Ex.tm_write_then_bad_delete false Ex.empty_disk =
      (Return (with_changes Ex.tx_write_then_bad_delete cs FAILED),
       with_current Ex.tm_write_then_bad_delete None,
       fold_left (apply_step (file_ops Ex.tm_write_then_bad_delete))
         (changes Ex.tx_write_then_bad_delete) Ex.empty_disk) /\
    Forall2 same_change (changes Ex.tx_write_then_bad_delete) cs /\
    undo_manager (with_current Ex.tm_write_then_bad_delete None)
      = undo_manager Ex.tm_write_then_bad_delete.
Proof.
  apply (commit_failure_marks_failed_without_rollback Ex.tm_write_then_bad_delete
           Ex.empty_disk Ex.tx_write_then_bad_delete 1).
  - reflexivity.
  - intros [|[|j]] (c & e & Hc & Hr); vm_compute in Hc; try discriminate;
      injection Hc as <-; vm_compute in Hr; discriminate.
  - exists (mkChange DELETE "b.txt" None None None PENDING None), (Some (msg_missing "b.txt")).
    eexists. split; [reflexivity | vm_compute; reflexivity].
Defined.

(** C3 as the specification states it fails: after the failed commit of
    [tm_write_then_bad_delete] the file written by the first change is
    still there, although the workspace had no file before the commit. *)
Lemma failed_commit_keeps_applied_change :
  exists tx tm' d',
    commit Ex.tm_write_then_bad_delete false Ex.empty_disk = (Return tx, tm', d') /\
    tx_status tx = FAILED /\
    files Ex.empty_disk !! "/ws/a.txt" = None /\
    files d' !! "/ws/a.txt" = Some "1".
Proof.
  do 3 eexists. split; [vm_compute; reflexivity |].
  repeat split; vm_compute; reflexivity.
Qed.

(** ** Undo and redo *)

Lemma universal_newlines_plain s :
  PyStr.has_chr PyStr.cr s = false -> PyStr.universal_newlines s = s.
Proof.
  induction s as [|a s IH]; simpl; [reflexivity |].
  intros H. apply orb_false_iff in H as [Ha Hs].
  rewrite Ha. now rewrite IH.
Qed.

Lemma is_plain_spec o :
  is_plain o = true -> is_binary o = false /\ PyStr.universal_newlines o = o.
Proof.
  unfold is_plain. intros H. apply andb_true_iff in H as [H1 H2].
  apply negb_true_iff in H1, H2. split; [exact H1 | now apply universal_newlines_plain].
Qed.



Section UndoRedo.

Variable ops : SafeFileOps.



End UndoRedo.

Section UndoRedoSteps.
Variable ops : SafeFileOps.


Lemma read_plain d p o :
  files d !! key ops p = Some o -> is_plain o = true ->
  read_file ops d p = (Some o, None).
Proof.
  intros Hk Hp. apply is_plain_spec in Hp as [Hb Hu].
  unfold read_file, disk_lookup. fold (key ops p). rewrite Hk, Hb, Hu. reflexivity.
Qed.










Lemma well_staged_status s c st err :
  well_staged ops s (with_status c st err) = well_staged ops s c.
Proof. reflexivity. Qed.

Lemma footprint_status c st err : footprint ops (with_status c st err) = footprint ops c.
Proof. reflexivity. Qed.

Lemma post_status c st err s : post ops (with_status c st err) s = post ops c s.
Proof. reflexivity. Qed.

Lemma apply_status c st err d :
  _apply_change ops (with_status c st err) d = _apply_change ops c d.
Proof. reflexivity. Qed.

Lemma revert_status c st err d :
  _revert_change ops (with_status c st err) d = _revert_change ops c d.
Proof. reflexivity. Qed.










End UndoRedoSteps.

(** What [CodeEditor] stages on a workspace of plain text is well staged. *)
Section Staging.

Variable root : string.
Variable d : Disk.


Lemma editor_delete_well_staged p o :
  files d !! key (editor_ops root) p = Some o -> is_plain o = true ->
  absent (files d) (tmp_key (editor_ops root) p) = true ->
  backup_ok (editor_ops root) p = true ->
  well_staged (editor_ops root) (files d) (editor_delete root d p) = true.
Proof.
  intros Hk Hp Ht Hbk. unfold editor_delete, well_staged.
  cbn [operation old_content file_path].
  rewrite (read_plain (editor_ops root) d p o Hk Hp). cbn [fst].
  rewrite Hk, Hp, Ht, Hbk. now rewrite bool_decide_eq_true_2.
Qed.

Lemma editor_rename_well_staged a b :
  is_some (files d !! key (editor_ops root) a) = true ->
  absent (files d) (key (editor_ops root) b) = true ->
  well_staged (editor_ops root) (files d) (editor_rename a b) = true.
Proof.
  intros Ha Hb. unfold editor_rename, well_staged.
  cbn [operation new_path file_path]. now rewrite Ha, Hb.
Qed.

End Staging.


Lemma push_top um tx :
  exists st, _undo_stack (push um tx) = st ++ [tx] /\ _redo_stack (push um tx) = [].
Proof.
  unfold push. destruct (evict_for_bytes _ _ _ _) as [stack1 total1].
  destruct (Z.of_nat (length stack1) >=? max_stack um)%Z.
  - destruct stack1 as [|r rest]; eexists; split; reflexivity.
  - eexists; split; reflexivity.
Qed.





(** ** Paths *)

Lemma resolve_is_join root b p :
  _resolve_path (mkOps root b) p = Path.join root p.
Proof. reflexivity. Qed.



(** A relative path that climbs out of the workspace is written as well. *)
Lemma traversal_outside_workspace_succeeds :
  Path.inside "/ws" (Path.join "/ws" "../etc/passwd") = false /\
  let '(r, x') := ToolExecutor.execute Demo.quiet (Demo.executor Demo.disk_with_secret)
                    "write_file" (JObj [("file_path", JStr "../etc/passwd");
                                        ("content", JStr "mallory")]) in
  Py.get r "success" JNull = Return (JBool true) /\
  files (ToolExecutor.disk x') !! "/etc/passwd" = Some "mallory".
Proof. vm_compute. repeat split. Qed.

(** ** The file tools and the undo stack *)

(** [write_file] and [edit_file] never reach the transaction manager. *)
Lemma write_and_edit_bypass_transactions (W : World) (x : ToolExecutor.Executor)
    (tool_name : string) (tool_input : jval) :
  tool_name = "write_file" \/ tool_name = "edit_file" ->
  ToolExecutor.tx_manager (ToolExecutor.execute W x tool_name tool_input).2
  = ToolExecutor.tx_manager x.
Proof.
  intros [-> | ->]; unfold ToolExecutor.execute; simpl.
  - unfold ToolExecutor.exec_write_file.
    destruct (Py.bind _ _) as [[fp c]|e]; [| reflexivity].
    destruct c; reflexivity.
  - destruct (ToolExecutor.exec_edit_file x tool_input) as [[r x']|e] eqn:E; [| reflexivity].
    simpl. unfold ToolExecutor.exec_edit_file in E.
    repeat match type of E with
    | Py.bind ?m _ = _ => destruct m; simpl in E; [| discriminate]
    | context [match ?t with _ => _ end] => destruct t eqn:?; simpl in E; try discriminate
    | Return _ = Return _ => injection E as <- <-
    end; reflexivity.
Qed.

(** C2 at its failing input: the first scenario of the specification. The
    loop has parked the [edit_file] call; the approval executes it once and
    the file holds the new text, but the undo stack of the transaction
    manager is still empty: no [Transaction] records the old content. *)
Theorem approved_edit_leaves_undo_stack_empty :
  IDE.pending_tool_confirmations Scenario.parked !! "c0ffee00" = Some Scenario.edit_call /\
  let '(s, ex) := IDE.tool_confirm Scenario.world Scenario.parked "c0ffee00" true in
  let x := IDE.tool_executor s in
  ex = None /\
  IDE.executed s = [Scenario.edit_call] /\
  files (ToolExecutor.disk Scenario.parked.(IDE.tool_executor)) !! "/ws/foo.py"
    = Some ("say hi" +:+ IDE.nl1) /\
  files (ToolExecutor.disk x) !! "/ws/foo.py" = Some ("say hello" +:+ IDE.nl1) /\
  _undo_stack (undo_manager (ToolExecutor.tx_manager x)) = [].
Proof. vm_compute. repeat split. Qed.

(** ** [edit_file] in text mode *)

(** C7 at its failing input: the text to replace occurs twice, the call
    succeeds and replaces the first occurrence. *)
Theorem edit_file_replaces_first_of_two_occurrences :
  PyStr.count "a" "aa" = 2 /\
  let '(r, x) := ToolExecutor.execute Demo.quiet (Demo.executor Scenario.disk_twice)
                   "edit_file" Scenario.edit_twice in
  Py.get r "success" JNull = Return (JBool true) /\
  files (ToolExecutor.disk x) !! "/ws/f.txt" = Some "ba".
Proof. vm_compute. repeat split. Qed.

(** The sibling path, [CodeEditor.edit], does what the claim says: without
    [replace_all] it stages a change only when the text occurs once. *)
Lemma editor_edit_requires_one_occurrence root d path old_string new_string :
  status (editor_edit root d path old_string new_string false) = PENDING ->
  exists content,
    (read_file (editor_ops root) d path).1 = Some content /\
    PyStr.count old_string content = 1 /\
    new_content (editor_edit root d path old_string new_string false)
      = Some (PyStr.replace1 old_string new_string content).
Proof.
  unfold editor_edit. destruct (read_file _ _ _) as [[content|] [err|]]; simpl; try discriminate.
  destruct (PyStr.count old_string content) as [|[|n]] eqn:Hc; simpl; try discriminate.
  intros _. exists content. repeat split. exact Hc.
Qed.

(** ** The symbol index *)

Section SymbolIndex.

Import ToolExecutor.









End SymbolIndex.

(** ** The agentic loop *)

Section Loop.

Import IDE.

Lemma executed_send s e : executed (send s e) = executed s.
Proof. reflexivity. Qed.

Lemma executed_send_all evs : forall s, executed (send_all s evs) = executed s.
Proof. induction evs as [|e evs IH]; intros s; simpl; [reflexivity | now rewrite IH]. Qed.

Lemma pending_send_all evs : forall s,
  pending_tool_confirmations (send_all s evs) = pending_tool_confirmations s.
Proof. induction evs as [|e evs IH]; intros s; simpl; [reflexivity | now rewrite IH]. Qed.

Lemma context_send_all evs : forall s,
  _pending_loop_context (send_all s evs) = _pending_loop_context s.
Proof. induction evs as [|e evs IH]; intros s; simpl; [reflexivity | now rewrite IH]. Qed.

Lemma ids_send_all evs : forall s, ids (send_all s evs) = ids s.
Proof. induction evs as [|e evs IH]; intros s; simpl; [reflexivity | now rewrite IH]. Qed.

Lemma sent_send_all evs : forall s, sent (send_all s evs) = sent s ++ evs.
Proof.
  induction evs as [|e evs IH]; intros s; simpl; [now rewrite app_nil_r |].
  rewrite IH. simpl. now rewrite <- app_assoc.
Qed.

Lemma executed_run_tool W s c : executed (run_tool W s c).2 = executed s ++ [c].
Proof. unfold run_tool. now destruct (ToolExecutor.execute _ _ _ _). Qed.

Lemma executed_park W s sp um fr c : executed (park W s sp um fr c) = executed s.
Proof.
  unfold park. simpl. reflexivity.
Qed.

Lemma explorations_cons c l :
  explorations (c :: l) =
  (if among (name c) exploration_tools then 1 else 0) + explorations l.
Proof.
  unfold explorations. rewrite filter_cons.
  destruct (among (name c) exploration_tools).
  - destruct (decide _) as [_|n]; [reflexivity | now exfalso; apply n].
  - destruct (decide _) as [e|_]; [discriminate e | reflexivity].
Qed.

(** A run remains within [good] when each of its ways out does. *)
Section Act.

Variable W : World.
Variable continue : string -> nat -> Server -> LoopEnd.
Variables system_prompt user_message full_response : string.

Lemma act_confirm ec s c :
  among (name c) confirm_tools = true ->
  act W continue system_prompt user_message full_response ec s c
  = mkEnd (park W s system_prompt user_message full_response c) ec user_message Returned.
Proof. intros H. unfold act. now rewrite H. Qed.

Lemma act_refuse ec s c :
  among (name c) confirm_tools = false ->
  among (name c) exploration_tools = true ->
  max_exploration <= ec ->
  act W continue system_prompt user_message full_response ec s c
  = continue (user_message +:+ exploration_note) (S ec) (send s (Token exploration_token)).
Proof.
  intros Hc He Hmax. unfold act. rewrite Hc, He. simpl andb.
  assert (Hlt : (max_exploration <? S ec)%nat = true) by (apply Nat.ltb_lt; lia).
  now rewrite Hlt.
Qed.

(** What [act] executes, given what the rest of the loop executes. *)
Lemma act_executed ec s c :
  (forall um' ec' s', ec <= ec' ->
     exists new, executed (server (continue um' ec' s')) = executed s' ++ new /\
       explorations new <= max_exploration - ec' /\
       Forall (fun c => among (name c) confirm_tools = false) new) ->
  exists new,
    executed (server (act W continue system_prompt user_message full_response ec s c))
      = executed s ++ new /\
    explorations new <= max_exploration - ec /\
    Forall (fun c => among (name c) confirm_tools = false) new.
Proof.
  intros Hk.
  assert (Hnone : forall s', executed s' = executed s ->
            exists new, executed s' = executed s ++ new /\
              explorations new <= max_exploration - ec /\
              Forall (fun c => among (name c) confirm_tools = false) new).
  { intros s' H. exists []. rewrite app_nil_r. repeat split; auto.
    unfold explorations; simpl; lia. }
  unfold act. destruct (among (name c) confirm_tools) eqn:Hconf.
  { apply Hnone. cbn [server]. apply executed_park. }
  destruct (among (name c) exploration_tools) eqn:Hexp; simpl andb.
  - destruct (max_exploration <? S ec)%nat eqn:Hmax.
    + destruct (Hk (user_message +:+ exploration_note) (S ec)
                   (send s (Token exploration_token))) as (new & Hn & Hb & Hf); [lia |].
      exists new. rewrite Hn. repeat split; auto. lia.
    + apply Nat.ltb_ge in Hmax.
      destruct (Py.bind _ _) as [[file_path line]|e]; [| now apply Hnone].
      match goal with |- context [run_tool W ?a c] => set (s2 := a) end.
      assert (Hs2 : executed s2 = executed s) by (unfold s2; now destruct (_ && _)).
      pose proof (executed_run_tool W s2 c) as Hs0.
      destruct (run_tool W s2 c) as [result s0]. simpl in Hs0. rewrite Hs2 in Hs0.
      destruct (file_modified (name c) result file_path) as [evs|e].
      * destruct (Hk (user_message +:+ context_update W (name c) result (S ec)) (S ec)
                     (send_all (send s0 (ToolResult (name c) result (Some file_path))) evs))
          as (new & Hn & Hb & Hf); [lia |].
        exists (c :: new). rewrite Hn, executed_send_all. simpl. rewrite Hs0, <- app_assoc.
        repeat split; auto. rewrite explorations_cons, Hexp. lia.
      * exists [c]. simpl. rewrite Hs0. repeat split; auto.
        rewrite explorations_cons, Hexp. unfold explorations. simpl. lia.
  - destruct (Py.bind _ _) as [[file_path line]|e]; [| now apply Hnone].
    match goal with |- context [run_tool W ?a c] => set (s2 := a) end.
    assert (Hs2 : executed s2 = executed s) by (unfold s2; now destruct (_ && _)).
    pose proof (executed_run_tool W s2 c) as Hs0.
    destruct (run_tool W s2 c) as [result s0]. simpl in Hs0. rewrite Hs2 in Hs0.
    destruct (file_modified (name c) result file_path) as [evs|e].
    + destruct (Hk (user_message +:+ context_update W (name c) result ec) ec
                   (send_all (send s0 (ToolResult (name c) result (Some file_path))) evs))
        as (new & Hn & Hb & Hf); [lia |].
      exists (c :: new). rewrite Hn, executed_send_all. simpl. rewrite Hs0, <- app_assoc.
      repeat split; auto. rewrite explorations_cons, Hexp. lia.
    + exists [c]. simpl. rewrite Hs0. repeat split; auto.
      rewrite explorations_cons, Hexp. unfold explorations. simpl. lia.
Qed.

End Act.

(** One iteration that is not aborted and whose answer proposes a tool. *)
Lemma loop_step W r sp um fr ec s evs cr c :
  aborting W s = false ->
  proposed W s sp um fr = Some (evs, cr, c) ->
  loop W (S r) sp um fr ec s
  = act W (fun um' ec' s' => loop W r sp um' (fr +:+ cr) ec' s')
        sp um (fr +:+ cr) ec (send_all (next_tick s) evs) c.
Proof.
  unfold aborting, proposed. intros Ha Hp. cbn [loop]. rewrite Ha.
  destruct (llm W (tick s) (full_message sp um fr)) as [tokens ending].
  destruct (intercept tokens "" "" "" false) as [[evs' found] cr'].
  destruct found as [c'|].
  - injection Hp as -> -> ->. reflexivity.
  - destruct ending as [|msg]; [| discriminate].
    destruct (head (_detect_tool_calls cr')) as [c'|]; [| discriminate].
    injection Hp as -> -> ->. reflexivity.
Qed.

(** What one run of the loop executes: nothing that needs a confirmation,
    and no more explorations than the budget still allows. *)
Lemma loop_executed W r : forall sp um fr ec s,
  exists new,
    executed (server (loop W r sp um fr ec s)) = executed s ++ new /\
    explorations new <= max_exploration - ec /\
    Forall (fun c => among (name c) confirm_tools = false) new.
Proof.
  induction r as [|r IH]; intros sp um fr ec s.
  - exists []. simpl. rewrite app_nil_r. repeat split; [unfold explorations; simpl; lia | constructor].
  - assert (Hnone : forall s', executed s' = executed s ->
              exists new, executed s' = executed s ++ new /\
                explorations new <= max_exploration - ec /\
                Forall (fun c => among (name c) confirm_tools = false) new).
    { intros s' H. exists []. rewrite app_nil_r. repeat split; auto.
      unfold explorations; simpl; lia. }
    cbn [loop].
    destruct (abort_requested s || abort_at W (tick s)); [now apply Hnone |].
    destruct (llm W (tick s) (full_message sp um fr)) as [tokens ending].
    destruct (intercept tokens "" "" "" false) as [[evs found] cr].
    assert (Hs1 : executed (send_all (next_tick s) evs) = executed s)
      by now rewrite executed_send_all.
    assert (Hcall : forall c, exists new,
      executed (server (act W (fun um' ec' s' => loop W r sp um' (fr +:+ cr) ec' s')
                          sp um (fr +:+ cr) ec (send_all (next_tick s) evs) c))
        = executed s ++ new /\
      explorations new <= max_exploration - ec /\
      Forall (fun c => among (name c) confirm_tools = false) new).
    { intros c. rewrite <- Hs1. apply act_executed. intros um' ec' s' _. apply IH. }
    destruct found as [c|].
    + apply Hcall.
    + destruct ending as [|msg].
      * destruct (head (_detect_tool_calls cr)) as [c|]; [apply Hcall |].
        apply Hnone. simpl. exact Hs1.
      * apply Hnone. simpl. exact Hs1.
Qed.

(** The attribute [_pending_loop_context] is never set. *)
Lemma loop_leaves_context W r : forall sp um fr ec s,
  _pending_loop_context (server (loop W r sp um fr ec s)) = _pending_loop_context s.
Proof.
  induction r as [|r IH]; intros sp um fr ec s; [reflexivity |].
  cbn [loop].
  destruct (abort_requested s || abort_at W (tick s)); [reflexivity |].
  destruct (llm W (tick s) (full_message sp um fr)) as [tokens ending].
  destruct (intercept tokens "" "" "" false) as [[evs found] cr].
  assert (Hs1 : _pending_loop_context (send_all (next_tick s) evs) = _pending_loop_context s)
    by now rewrite context_send_all.
  assert (Hcall : forall c,
    _pending_loop_context
      (server (act W (fun um' ec' s' => loop W r sp um' (fr +:+ cr) ec' s')
                 sp um (fr +:+ cr) ec (send_all (next_tick s) evs) c))
    = _pending_loop_context s).
  { intros c. rewrite <- Hs1. generalize (send_all (next_tick s) evs). intros s1.
    unfold act. destruct (among (name c) confirm_tools); [reflexivity |].
    destruct (among (name c) exploration_tools && _).
    { now rewrite IH. }
    destruct (Py.bind _ _) as [[file_path line]|e]; [| reflexivity].
    match goal with |- context [run_tool W ?a c] => set (s2 := a) end.
    assert (Hs2 : _pending_loop_context s2 = _pending_loop_context s1)
      by (unfold s2; now destruct (_ && _)).
    assert (Hrun : _pending_loop_context (run_tool W s2 c).2 = _pending_loop_context s2).
    { unfold run_tool. now destruct (ToolExecutor.execute _ _ _ _). }
    destruct (run_tool W s2 c) as [result s0]. simpl in Hrun.
    destruct (file_modified (name c) result file_path) as [evs0|e].
    - rewrite IH, context_send_all. simpl. congruence.
    - simpl. congruence. }
  destruct found as [c|]; [apply Hcall |].
  destruct ending as [|msg]; [| exact Hs1].
  destruct (head (_detect_tool_calls cr)) as [c|]; [apply Hcall | exact Hs1].
Qed.

(** Hence no approval ever re-enters the loop: a server that starts
    without a parked context never has one. *)
Lemma tool_confirm_leaves_context W s id approved :
  _pending_loop_context s = None ->
  _pending_loop_context (tool_confirm W s id approved).1 = None.
Proof.
  intros H. unfold tool_confirm.
  destruct (pending_tool_confirmations s !! id) as [c|]; [| exact H].
  destruct approved; [| reflexivity].
  match goal with |- context [run_tool W ?a c] => set (s1 := a) end.
  assert (Hrun : _pending_loop_context (run_tool W s1 c).2 = None).
  { unfold run_tool. destruct (ToolExecutor.execute _ _ _ _). exact H. }
  destruct (run_tool W s1 c) as [result s2]. simpl in Hrun.
  destruct (Py.bind _ _) as [evs|e]; [| exact Hrun].
  cbv zeta. rewrite context_send_all. cbn [_pending_loop_context send]. rewrite Hrun.
  cbn [fst]. rewrite context_send_all. exact Hrun.
Qed.

Lemma exploration_needs_no_confirmation n :
  among n exploration_tools = true -> among n confirm_tools = false.
Proof.
  unfold among, exploration_tools, confirm_tools. simpl.
  rewrite !orb_false_r, !orb_true_iff. intros [H | [H | H]];
    apply String.eqb_eq in H; subst; reflexivity.
Qed.

(** C6, as the code has it. In one run of the loop at most
    [max_exploration] calls of the tools [list_dir], [read_file] and
    [search_code] are executed. When the model asks for one of them and the
    counter has reached the budget, the tool is not executed: a note goes to
    the user interface, the system note is appended to the user message and
    the loop goes on with the next iteration. The counter itself keeps
    counting the refused calls, and the other read-only tools are outside
    this accounting. *)
Theorem exploration_is_capped_per_run (W : World) (s : Server) (sp um : string) :
  (forall max_iterations,
     exists new,
       executed (server (_run_agentic_loop W s um sp max_iterations)) = executed s ++ new /\
       explorations new <= max_exploration) /\
  (forall r fr ec evs cr c,
     aborting W s = false ->
     proposed W s sp um fr = Some (evs, cr, c) ->
     among (name c) exploration_tools = true ->
     max_exploration <= ec ->
     let s' := send (send_all (next_tick s) evs) (Token exploration_token) in
     loop W (S r) sp um fr ec s
       = loop W r sp (um +:+ exploration_note) (fr +:+ cr) (S ec) s' /\
     executed s' = executed s).
Proof.
  split.
  - intros n. unfold _run_agentic_loop.
    destruct (loop_executed W n sp um "" 0 (set_abort s false)) as (new & Hn & Hb & _).
    exists new. split; [exact Hn |]. lia.
  - intros r fr ec evs cr c Ha Hp He Hmax s'. split.
    + rewrite (loop_step W r sp um fr ec s evs cr c Ha Hp).
      now rewrite act_refuse by (auto using exploration_needs_no_confirmation).
    + unfold s'. simpl. now rewrite executed_send_all.
Qed.

(** C1, as the code has it. When the tool the model asks for is
    [write_file], [edit_file] or [bash], the loop does not execute it: it
    registers the call under an identifier drawn for it and returns. An
    approval that carries the identifier executes the call, once, and sends
    its result; the identifier is then gone, and a second approval does
    nothing. *)
Theorem confirmation_parks_and_approval_executes_once
  (W : World) (s : Server) (sp um fr : string) (r ec : nat)
  (evs : list Event) (cr : string) (c : ToolCall) :
  aborting W s = false ->
  proposed W s sp um fr = Some (evs, cr, c) ->
  among (name c) confirm_tools = true ->
  _pending_loop_context s = None ->
  let e := loop W (S r) sp um fr ec s in
  let id := PyStr.take 8 (uuid4 W (ids s)) in
  how e = Returned /\
  executed (server e) = executed s /\
  pending_tool_confirmations (server e) = <[id := c]> (pending_tool_confirmations s) /\
  let '(s', _) := tool_confirm W (server e) id true in
  executed s' = executed s ++ [c] /\
  (exists result rest, sent s' = sent (server e) ++ ToolResult (name c) result None :: rest) /\
  pending_tool_confirmations s' !! id = None /\
  tool_confirm W s' id true = (s', None).
Proof.
  intros Ha Hp Hc Hctx e id.
  assert (He : e = mkEnd (park W (send_all (next_tick s) evs) sp um (fr +:+ cr) c) ec um Returned).
  { unfold e. rewrite (loop_step W r sp um fr ec s evs cr c Ha Hp). now apply act_confirm. }
  set (s0 := send_all (next_tick s) evs) in *.
  assert (Hpark : park W s0 sp um (fr +:+ cr) c
            = send (set_pending (next_id s0) (<[id := c]> (pending_tool_confirmations s0)))
                   (Error "name 'stream' is not defined")).
  { unfold park, id, s0. now rewrite ids_send_all. }
  assert (Hp0 : pending_tool_confirmations s0 = pending_tool_confirmations s)
    by (unfold s0; now rewrite pending_send_all).
  assert (He0 : executed s0 = executed s) by (unfold s0; now rewrite executed_send_all).
  assert (Hc0 : _pending_loop_context s0 = None) by (unfold s0; now rewrite context_send_all).
  rewrite He. cbn [how server]. rewrite Hpark, Hp0 in *.
  split; [reflexivity |]. split; [exact He0 |]. split; [reflexivity |].
  unfold tool_confirm at 1. cbn [pending_tool_confirmations send set_pending].
  rewrite lookup_insert_eq.
  match goal with |- context [run_tool W ?a c] => set (s1 := a) end.
  pose proof (executed_run_tool W s1 c) as Hrun.
  assert (Hx1 : exists result s2, run_tool W s1 c = (result, s2) /\
            sent s2 = sent s1 /\ _pending_loop_context s2 = None /\
            pending_tool_confirmations s2 = pending_tool_confirmations s1).
  { unfold run_tool. destruct (ToolExecutor.execute _ _ _ _) as [result x].
    do 2 eexists. split; [reflexivity |]. repeat split. exact Hc0. }
  destruct Hx1 as (result & s2 & Hr & Hsent & Hctx2 & Hpend2).
  rewrite Hr in Hrun |- *. simpl in Hrun.
  assert (Hgone : pending_tool_confirmations s1 !! id = None).
  { unfold s1. simpl. apply lookup_delete_eq. }
  destruct (Py.bind _ _) as [evs2|ex].
  - rewrite context_send_all. cbn [_pending_loop_context send]. rewrite Hctx2.
    rewrite executed_send_all. cbn [executed send]. rewrite Hrun.
    split; [unfold s1; simpl; now rewrite He0 |].
    split. { exists result, evs2. rewrite sent_send_all. simpl. rewrite Hsent.
             unfold s1. simpl. now rewrite <- app_assoc. }
    assert (Hg : pending_tool_confirmations
                   (send_all (send s2 (ToolResult (name c) result None)) evs2) !! id = None).
    { rewrite pending_send_all. simpl. now rewrite Hpend2. }
    split; [exact Hg |]. unfold tool_confirm. now rewrite Hg.
  - cbn [executed send]. rewrite Hrun.
    split; [unfold s1; simpl; now rewrite He0 |].
    split. { exists result, []. simpl. rewrite Hsent. unfold s1. reflexivity. }
    assert (Hg : pending_tool_confirmations (send s2 (ToolResult (name c) result None)) !! id = None).
    { simpl. now rewrite Hpend2. }
    split; [exact Hg |]. unfold tool_confirm. now rewrite Hg.
Qed.

Lemma exploration_is_capped_per_run_witness :
  aborting Turn.always_read Turn.start = false /\
  proposed Turn.always_read Turn.start "system" "question" ""
    = Some ([ToolDetected "read_file" (input Turn.read_call)],
            Turn.response Turn.read_answer, Turn.read_call) /\
  among (name Turn.read_call) exploration_tools = true /\
  max_exploration <= 20 /\
  let s' := send (send_all (next_tick Turn.start)
                    [ToolDetected "read_file" (input Turn.read_call)])
                 (Token exploration_token) in
  loop Turn.always_read 1 "system" "question" "" 20 Turn.start
    = loop Turn.always_read 0 "system" ("question" +:+ exploration_note)
        ("" +:+ Turn.response Turn.read_answer) 21 s' /\
  executed s' = executed Turn.start.
Proof.
  assert (H1 : aborting Turn.always_read Turn.start = false) by reflexivity.
  assert (H2 : proposed Turn.always_read Turn.start "system" "question" ""
                = Some ([ToolDetected "read_file" (input Turn.read_call)],
                        Turn.response Turn.read_answer, Turn.read_call))
    by (vm_compute; reflexivity).
  assert (H3 : among (name Turn.read_call) exploration_tools = true) by reflexivity.
  assert (H4 : max_exploration <= 20) by (unfold max_exploration; lia).
  repeat (split; [assumption |]).
  exact (proj2 (exploration_is_capped_per_run Turn.always_read Turn.start "system" "question")
           0 "" 20 _ _ _ H1 H2 H3 H4).
Defined.

(** C6 as the specification states it fails: [grep] is one of the
    read-only tools of the claim, and the loop executes it in every one of
    99 iterations; it is not counted and never refused. *)
Lemma grep_is_never_refused :
  let e := _run_agentic_loop Turn.always_grep Turn.start "question" "system" 99 in
  executed (server e) = repeat Turn.grep_call 99 /\
  exploration_count e = 0 /\
  existsb (fun ev => match ev with Token t => String.eqb t exploration_token | _ => false end)
          (sent (server e)) = false.
Proof. vm_compute. repeat split. Qed.

(** The counter is raised before it is compared: when the model keeps
    asking for [read_file], 20 calls are executed and the counter ends
    at 99. *)
Lemma exploration_count_exceeds_the_cap :
  let e := _run_agentic_loop Turn.always_read Turn.start "question" "system" 99 in
  executed (server e) = repeat Turn.read_call 20 /\
  exploration_count e = 99.
Proof. vm_compute. repeat split. Qed.

Lemma confirmation_parks_and_approval_executes_once_witness :
  aborting Scenario.world Turn.start = false /\
  proposed Scenario.world Turn.start "system" "change hi to hello" ""
    = Some ([Token "I will change it. "; ToolDetected "edit_file" (input Scenario.edit_call)],
            Turn.response Scenario.edit_answer, Scenario.edit_call) /\
  among (name Scenario.edit_call) confirm_tools = true /\
  _pending_loop_context Turn.start = None /\
  let e := loop Scenario.world 99 "system" "change hi to hello" "" 0 Turn.start in
  let id := PyStr.take 8 (uuid4 Scenario.world (ids Turn.start)) in
  how e = Returned /\
  executed (server e) = executed Turn.start /\
  pending_tool_confirmations (server e)
    = <[id := Scenario.edit_call]> (pending_tool_confirmations Turn.start) /\
  let '(s', _) := tool_confirm Scenario.world (server e) id true in
  executed s' = executed Turn.start ++ [Scenario.edit_call] /\
  (exists result rest,
     sent s' = sent (server e) ++ ToolResult (name Scenario.edit_call) result None :: rest) /\
  pending_tool_confirmations s' !! id = None /\
  tool_confirm Scenario.world s' id true = (s', None).
Proof.
  assert (H1 : aborting Scenario.world Turn.start = false) by reflexivity.
  assert (H2 : proposed Scenario.world Turn.start "system" "change hi to hello" ""
    = Some ([Token "I will change it. "; ToolDetected "edit_file" (input Scenario.edit_call)],
            Turn.response Scenario.edit_answer, Scenario.edit_call))
    by (vm_compute; reflexivity).
  assert (H3 : among (name Scenario.edit_call) confirm_tools = true) by reflexivity.
  assert (H4 : _pending_loop_context Turn.start = None) by reflexivity.
  repeat (split; [assumption |]).
  exact (confirmation_parks_and_approval_executes_once Scenario.world Turn.start
           "system" "change hi to hello" "" 98 0 _ _ _ H1 H2 H3 H4).
Defined.

(** C1 as the specification states it fails: [multi_edit] is in the
    destructive set of the claim, and the loop executes it in the iteration
    that detects it. Nothing is parked and no confirmation is requested. *)
Lemma multi_edit_runs_without_confirmation :
  let e := _run_agentic_loop Turn.multi_then_done Turn.start "question" "system" 99 in
  executed (server e) = [Turn.multi_call] /\
  pending_tool_confirmations (server e) = ∅ /\
  sent (server e) =
    [ToolDetected "multi_edit" (input Turn.multi_call);
     ToolExecuting "multi_edit" (input Turn.multi_call) None 20;
     ToolResult "multi_edit" (JObj [("success", JBool true)]) (Some JNull);
     Token "All done.";
     Done (Turn.response Turn.multi_answer +:+ "All done.")].
Proof. vm_compute. repeat split. Qed.

End Loop.

(** ** The stream *)

(** The fifth scenario of the specification: the sentinel arrives in one
    token, the prose before it is forwarded and nothing after it. *)
Lemma whole_sentinel_is_held_back :
  IDE.intercept Stream.whole_sentinel "" "" "" false
  = ([IDE.Token "I will read "; IDE.Token "that. ";
      IDE.ToolDetected "read_file" (input Stream.read_x)],
     Some Stream.read_x,
     PyStr.join "" Stream.whole_sentinel).
Proof. vm_compute. reflexivity. Qed.

(** C5 at its failing input: the same stream, cut after the third
    character of the sentinel. The sentinel begins at position 18 of the
    stream and the tool block that starts there is parsed; the second
    token event carries the characters 18 to 20, the first three of the
    sentinel. *)
Theorem sentinel_split_across_tokens_is_forwarded :
  PyStr.join "" Stream.split_sentinel = PyStr.join "" Stream.whole_sentinel /\
  PyStr.find IDE.sentinel (PyStr.join "" Stream.split_sentinel) = Some 18 /\
  IDE.intercept Stream.split_sentinel "" "" "" false
  = ([IDE.Token "I will read "; IDE.Token "that. [TO";
      IDE.ToolDetected "read_file" (input Stream.read_x)],
     Some Stream.read_x,
     PyStr.join "" Stream.split_sentinel).
Proof. vm_compute. repeat split. Qed.

(** ** [read_file] *)

Section ReadFile.
Import ToolExecutor.






End ReadFile.

(** C9 at its failing input: with [end_line = -1] the call reports
    [has_more] and a [next_offset] of 0, which is no line number. *)
Theorem read_file_negative_end_line_gives_offset_zero :
  let '(r, _) := ToolExecutor.execute Demo.quiet (Demo.executor Stream.disk_lines)
                   "read_file" (JObj [("file_path", JStr "f.txt"); ("end_line", JNum (-1))]) in
  Py.get r "success" JNull = Return (JBool true) /\
  Py.get r "total_lines" JNull = Return (JNum 3) /\
  Py.get r "has_more" JNull = Return (JBool true) /\
  Py.get r "next_offset" JNull = Return (JNum 0).
Proof. vm_compute. repeat split. Qed.

(** ** Strings: [find], [count] and [replace] *)

Lemma append_cons (a : ascii) (s t : string) : String a s +:+ t = String a (s +:+ t).
Proof. reflexivity. Qed.

Lemma append_nil (t : string) : "" +:+ t = t.
Proof. reflexivity. Qed.

Lemma append_nil_r (s : string) : s +:+ "" = s.
Proof. induction s as [|a s IH]; [reflexivity |]. rewrite append_cons. now rewrite IH. Qed.

Lemma prefix_split (p s : string) :
  String.prefix p s = true -> s = p +:+ PyStr.drop (PyStr.len p) s.
Proof.
  revert s. induction p as [|a p IH]; intros s H.
  - now destruct s.
  - destruct s as [|b s]; [discriminate |]. simpl in H.
    destruct (Ascii.ascii_dec a b) as [-> | Hne]; [| discriminate].
    rewrite append_cons. cbn [PyStr.len String.length PyStr.drop]. f_equal. now apply IH.
Qed.

Lemma find_split (sub s : string) (i : nat) :
  PyStr.find sub s = Some i ->
  s = PyStr.take i s +:+ sub +:+ PyStr.drop (i + PyStr.len sub) s.
Proof.
  revert i. induction s as [|a s IH]; intros i H.
  - cbn [PyStr.find] in H. destruct (String.prefix sub "") eqn:Hp; [| discriminate].
    injection H as <-. apply prefix_split in Hp. exact Hp.
  - cbn [PyStr.find] in H. destruct (String.prefix sub (String a s)) eqn:Hp.
    + injection H as <-. apply prefix_split in Hp. exact Hp.
    + destruct (PyStr.find sub s) as [j|] eqn:Hf; [| discriminate].
      injection H as <-. cbn [PyStr.take PyStr.drop Nat.add]. rewrite append_cons.
      f_equal. now apply IH.
Qed.

Lemma count_fuel_pos (sub : string) (fuel : nat) : forall s,
  0 < PyStr.count_fuel fuel sub s -> exists i, PyStr.find sub s = Some i.
Proof.
  induction fuel as [|fuel IH]; intros s H; [simpl in H; lia |].
  cbn [PyStr.count_fuel] in H.
  destruct s as [|a s]; cbn [PyStr.find];
    destruct (String.prefix sub _); try (now exists 0); try lia.
  destruct (IH s H) as (i & ->). now exists (S i).
Qed.

Lemma count_pos (sub s : string) :
  0 < PyStr.count sub s -> exists i, PyStr.find sub s = Some i.
Proof.
  unfold PyStr.count. destruct sub as [|a sub].
  - intros _. exists 0. now destruct s.
  - apply count_fuel_pos.
Qed.

(** X6. [CodeEditor.edit] without [replace_all] stages a change only for
    text that [read_file] reads and in which [old_string] occurs exactly
    once; the new content is then the old content with that occurrence,
    and nothing around it, replaced by [new_string]. *)
Theorem edit_replaces_the_single_occurrence (root : string) (d : Disk)
    (path old_string new_string : string) :
  status (editor_edit root d path old_string new_string false) = PENDING ->
  exists before after,
    read_file (editor_ops root) d path = (Some (before +:+ old_string +:+ after), None) /\
    PyStr.count old_string (before +:+ old_string +:+ after) = 1 /\
    editor_edit root d path old_string new_string false
      = mkChange MODIFY path (Some (before +:+ new_string +:+ after))
          (Some (before +:+ old_string +:+ after)) None PENDING None.
Proof.
  unfold editor_edit.
  destruct (read_file _ _ _) as [[content|] [err|]] eqn:Hr; simpl; try discriminate.
  destruct (PyStr.count old_string content) as [|[|n]] eqn:Hc; simpl; try discriminate.
  intros _.
  destruct (count_pos old_string content) as (i & Hf); [lia |].
  pose proof (find_split _ _ _ Hf) as Hs.
  exists (PyStr.take i content), (PyStr.drop (i + PyStr.len old_string) content).
  rewrite <- Hs. repeat split; [exact Hc |].
  unfold PyStr.replace1. now rewrite Hf.
Qed.

(** X7. An empty [old_string] is found once in an empty file and
    [len + 1] times in any other: without [replace_all], [CodeEditor.edit]
    fills an empty file with [new_string] and refuses every other file as
    ambiguous. *)
Theorem edit_with_empty_old_string (root : string) (d : Disk) (path new_string content : string) :
  read_file (editor_ops root) d path = (Some content, None) ->
  editor_edit root d path "" new_string false
  = match content with
    | "" => mkChange MODIFY path (Some new_string) (Some "") None PENDING None
    | _ => mkChange MODIFY path None (Some content) None FAILED
             (Some (msg_old_ambiguous (S (PyStr.len content))))
    end.
Proof.
  intros Hr. unfold editor_edit. rewrite Hr. destruct content as [|a s]; [| reflexivity].
  cbn. unfold PyStr.replace1. cbn. now rewrite append_nil_r.
Qed.

(** ** [SafeFileOps]: what a caller can rely on *)

Section FileOps.

Variable ops : SafeFileOps.

Lemma binary_error_is_recognised : PyStr.contains "바이너리" msg_binary = true.
Proof. vm_compute. reflexivity. Qed.

Lemma missing_error_is_not_binary p d :
  disk_exists d (_resolve_path ops p) = true ->
  forall oc err, read_file ops d p = (oc, Some err) -> err = msg_binary /\ oc = None.
Proof.
  unfold disk_exists, read_file. destruct (disk_lookup d _) as [content|]; [| discriminate].
  intros _ oc err. destruct (is_binary content); intros H; inversion H; auto.
Qed.

(** X1. A [write_file] that reports success is seen by the next
    [read_file] of the same path: the text comes back as a read in text mode
    decodes it (every CR LF and CR as LF), unless its first 8 KiB hold a
    null byte, in which case the file now counts as binary. The old content
    reported is what [read_file] returned before the write. *)
Theorem write_file_then_read_file (d d' : Disk) (p c : string) (bk : option bool)
    (old err : option string) :
  write_file ops p (Some c) bk d = ((true, old, err), d') ->
  read_file ops d' p
    = (if is_binary c then (None, Some msg_binary)
       else (Some (PyStr.universal_newlines c), None)) /\
  old = (if disk_exists d (_resolve_path ops p) then (read_file ops d p).1 else None) /\
  err = None.
Proof.
  unfold write_file. intros H.
  assert (Hread : forall d1 : Disk,
    read_file ops (set_files d1 (<[Path.canon (_resolve_path ops p) := c]>
                     (base.delete (Path.canon (Path.with_tmp (_resolve_path ops p))) (files d1)))) p
    = (if is_binary c then (None, Some msg_binary)
       else (Some (PyStr.universal_newlines c), None))).
  { intros d1. unfold read_file, disk_lookup. simpl. now rewrite lookup_insert_eq. }
  destruct (disk_exists d (_resolve_path ops p)) eqn:Hex.
  - destruct (read_file ops d p) as [oc [e|]] eqn:Hr.
    + destruct (missing_error_is_not_binary p d Hex oc e Hr) as [-> ->].
      rewrite binary_error_is_recognised in H. simpl in H. discriminate.
    + simpl in H. destruct oc as [o|]; simpl in H.
      * destruct (default (backup_enabled ops) bk).
        -- destruct (_backup_file ops (_resolve_path ops p) o d) as [d1|e]; simpl in H;
             [| discriminate].
           injection H as <- <- <-. repeat split. apply Hread.
        -- injection H as <- <- <-. repeat split. apply Hread.
      * injection H as <- <- <-. repeat split. apply Hread.
  - simpl in H. injection H as <- <- <-. repeat split. apply Hread.
Qed.

(** X2. [write_file] never changes a file whose first 8 KiB hold a null
    byte: the call is refused and the disk, backups included, stays as it
    is. *)
Theorem write_file_refuses_binary_file (d : Disk) (p bytes : string)
    (content : option string) (bk : option bool) :
  disk_lookup d (_resolve_path ops p) = Some bytes ->
  is_binary bytes = true ->
  write_file ops p content bk d = ((false, None, Some msg_binary_write), d).
Proof.
  intros Hl Hb. unfold write_file, disk_exists, read_file. rewrite Hl, Hb.
  rewrite binary_error_is_recognised. reflexivity.
Qed.



(** X5. With backups enabled, text is never overwritten or deleted without
    a copy: a successful [write_file] or [delete_file] on a file that
    [read_file] reads appends that text to the backups, under the path
    relative to the root, and returns it as the old content. *)
Theorem overwrite_and_delete_back_up_the_old_text (d : Disk) (p o : string) :
  backup_enabled ops = true ->
  read_file ops d p = (Some o, None) ->
  (forall c old err d',
     write_file ops p (Some c) None d = ((true, old, err), d') ->
     old = Some o /\
     exists rel, Path.relative_to (root_path ops) (_resolve_path ops p) = Some rel /\
                 backups d' = backups d ++ [(rel, o)]) /\
  (forall old err d',
     delete_file ops p None d = Return ((true, old, err), d') ->
     old = Some o /\
     exists rel, Path.relative_to (root_path ops) (_resolve_path ops p) = Some rel /\
                 backups d' = backups d ++ [(rel, o)]).
Proof.
  intros Hen Hr.
  assert (Hex : disk_exists d (_resolve_path ops p) = true).
  { unfold read_file in Hr. unfold disk_exists.
    destruct (disk_lookup d _); [reflexivity | discriminate]. }
  split.
  - intros c old err d'. unfold write_file. rewrite Hex, Hr, Hen. simpl.
    unfold _backup_file. rewrite Hen. simpl.
    destruct (Path.relative_to _ _) as [rel|]; simpl; [| discriminate].
    intros H. injection H as <- <- <-. split; [reflexivity |].
    exists rel. split; reflexivity.
  - intros old err d'. unfold delete_file. rewrite Hex, Hr, Hen. simpl.
    unfold _backup_file. rewrite Hen. simpl.
    destruct (Path.relative_to _ _) as [rel|]; simpl; [| discriminate].
    intros H. injection H as <- <- <-. split; [reflexivity |].
    exists rel. split; reflexivity.
Qed.

End FileOps.

(** ** [UndoManager] *)

Section Undo.

Lemma evict_for_bytes_suffix maxb tx_bytes : forall stack total stack1 total1,
  evict_for_bytes maxb tx_bytes stack total = (stack1, total1) ->
  exists k, stack1 = skipn k stack /\
            (total1 - stack_bytes stack1 = total - stack_bytes stack)%Z /\
            ((total1 + tx_bytes <= maxb)%Z \/ stack1 = []).
Proof.
  induction stack as [|removed rest IH]; intros total stack1 total1 H; simpl in H.
  - injection H as <- <-. exists 0. repeat split. now right.
  - destruct (total + tx_bytes >? maxb)%Z eqn:Hgt.
    + destruct (IH _ _ _ H) as (k & -> & Hb & Hor). exists (S k).
      split; [reflexivity |]. split; [| exact Hor].
      unfold stack_bytes in *. cbn [fold_right]. lia.
    + injection H as <- <-. exists 0. repeat split. left.
      rewrite Z.gtb_ltb in Hgt. apply Z.ltb_ge in Hgt. exact Hgt.
Qed.

Lemma change_size_nonneg c : (0 <= change_size c)%Z.
Proof.
  unfold change_size, opt_len.
  destruct (old_content c), (new_content c); lia.
Qed.

Lemma calculate_size_nonneg tx : (0 <= _calculate_size tx)%Z.
Proof.
  unfold _calculate_size.
  assert (H : forall cs acc, (0 <= acc)%Z ->
            (0 <= fold_left (fun acc c => acc + change_size c) cs acc)%Z).
  { induction cs as [|c cs IH]; intros acc Ha; simpl; [exact Ha |].
    apply IH. pose proof (change_size_nonneg c). lia. }
  specialize (H (changes tx) 0%Z). lia.
Qed.

Lemma stack_bytes_app st tx : stack_bytes (st ++ [tx]) = (stack_bytes st + _calculate_size tx)%Z.
Proof. induction st as [|t st IH]; simpl; [lia | rewrite IH; lia]. Qed.

(** X8. [push] drops transactions only from the old end of the undo stack,
    puts the new one on top and empties the redo stack; a stack within
    [max_stack] stays within it. *)
Theorem push_evicts_only_the_oldest (um : UndoManager) (tx : Transaction) :
  (1 <= max_stack um)%Z ->
  (Z.of_nat (length (_undo_stack um)) <= max_stack um)%Z ->
  exists k,
    _undo_stack (push um tx) = skipn k (_undo_stack um) ++ [tx] /\
    (Z.of_nat (length (_undo_stack (push um tx))) <= max_stack um)%Z /\
    _redo_stack (push um tx) = [].
Proof.
  intros Hmax Hlen. unfold push.
  destruct (evict_for_bytes _ _ _ _) as [stack1 total1] eqn:He.
  destruct (evict_for_bytes_suffix _ _ _ _ _ _ He) as (k & -> & _ & _).
  assert (Hk : length (skipn k (_undo_stack um)) <= length (_undo_stack um))
    by (rewrite length_skipn; lia).
  destruct (Z.of_nat (length (skipn k (_undo_stack um))) >=? max_stack um)%Z eqn:Hge;
    rewrite Z.geb_leb in Hge; [apply Z.leb_le in Hge | apply Z.leb_gt in Hge].
  - destruct (skipn k (_undo_stack um)) as [|removed rest] eqn:Hs.
    + simpl in Hge. lia.
    + exists (S k). cbn [_undo_stack _redo_stack]. split; [| split; [| reflexivity]].
      * f_equal. replace (S k) with (1 + k) by lia.
        rewrite <- skipn_skipn, Hs. reflexivity.
      * rewrite length_app. simpl in *. lia.
  - exists k. cbn [_undo_stack _redo_stack]. split; [reflexivity |]. split; [| reflexivity].
    rewrite length_app. simpl. lia.
Qed.

(** X9. The byte counter is exact and bounded: if [_total_bytes] is the
    sum of the sizes on the undo stack, it still is after [push], and a
    transaction that fits [max_bytes] by itself leaves the total within
    [max_bytes]. *)
Theorem push_keeps_bytes_within_limit (um : UndoManager) (tx : Transaction) :
  accounted um ->
  accounted (push um tx) /\
  ((_calculate_size tx <= max_bytes um)%Z -> (_total_bytes (push um tx) <= max_bytes um)%Z).
Proof.
  unfold accounted, push. intros Hacc.
  destruct (evict_for_bytes _ _ _ _) as [stack1 total1] eqn:He.
  destruct (evict_for_bytes_suffix _ _ _ _ _ _ He) as (k & _ & Hb & Hor).
  assert (H1 : total1 = stack_bytes stack1) by lia.
  assert (H2 : (_calculate_size tx <= max_bytes um -> total1 + _calculate_size tx <= max_bytes um)%Z).
  { intros Hfit. destruct Hor as [? | ->]; [assumption |]. simpl in H1. lia. }
  destruct (Z.of_nat (length stack1) >=? max_stack um)%Z.
  - destruct stack1 as [|removed rest]; cbn [_undo_stack _total_bytes].
    + rewrite stack_bytes_app. split; [lia | exact H2].
    + rewrite stack_bytes_app. simpl in H1. split; [lia |].
      intros Hfit. pose proof (calculate_size_nonneg removed). specialize (H2 Hfit). lia.
  - cbn [_undo_stack _total_bytes]. rewrite stack_bytes_app. split; [lia | exact H2].
Qed.

Lemma removelast_snoc {A} (l : list A) x : removelast (l ++ [x]) = l.
Proof. apply removelast_last. Qed.

Lemma last_removelast {A} (l : list A) x : last l = Some x -> removelast l ++ [x] = l.
Proof.
  intros H. destruct (list.last_Some l x) as [H1 _]. destruct (H1 H) as (l' & ->).
  now rewrite removelast_last.
Qed.

(** X10. [UndoManager.undo] and [UndoManager.redo] undo each other: after
    an [undo] that returns a transaction, [redo] returns the same
    transaction and leaves both stacks and the byte counter as they were,
    and the same holds for [redo] followed by [undo]. *)
Theorem undo_manager_undo_redo_are_inverse (um : UndoManager) (tx : Transaction) :
  (forall um', um_undo um = (Some tx, um') -> um_redo um' = (Some tx, um)) /\
  (forall um', um_redo um = (Some tx, um') -> um_undo um' = (Some tx, um)).
Proof.
  destruct um as [ms mb us rs tb]. split; intros um'.
  - unfold um_undo. cbn [_undo_stack _redo_stack _total_bytes max_stack max_bytes].
    destruct (last us) as [t|] eqn:Hl; [| discriminate].
    intros H. injection H as -> <-. unfold um_redo.
    cbn [_undo_stack _redo_stack _total_bytes max_stack max_bytes].
    rewrite last_snoc, removelast_snoc, (last_removelast us tx Hl).
    do 2 f_equal. lia.
  - unfold um_redo. cbn [_undo_stack _redo_stack _total_bytes max_stack max_bytes].
    destruct (last rs) as [t|] eqn:Hl; [| discriminate].
    intros H. injection H as -> <-. unfold um_undo.
    cbn [_undo_stack _redo_stack _total_bytes max_stack max_bytes].
    rewrite last_snoc, removelast_snoc, (last_removelast rs tx Hl).
    do 2 f_equal. lia.
Qed.


Lemma sizes_fold cs : forall acc,
  fold_left (fun acc c => (acc + change_size c)%Z) cs acc
  = fold_left Z.add (map change_size cs) acc.
Proof. induction cs as [|c cs IH]; intros acc; simpl; [reflexivity | apply IH]. Qed.

Lemma calculate_size_with_changes tx cs st :
  map change_size cs = map change_size (changes tx) ->
  _calculate_size (with_changes tx cs st) = _calculate_size tx.
Proof.
  intros H. unfold _calculate_size. cbn [tx_id description changes with_changes].
  now rewrite !sizes_fold, H.
Qed.

Lemma change_size_with_status c st err : change_size (with_status c st err) = change_size c.
Proof. reflexivity. Qed.

Lemma commit_loop_sizes ops cs : forall d cs' errs d' ex,
  commit_loop ops cs d = (cs', errs, d', ex) -> map change_size cs' = map change_size cs.
Proof.
  induction cs as [|c cs IH]; intros d cs' errs d' ex H; simpl in H.
  - now injection H as <- _ _ _.
  - destruct (_apply_change ops c d) as [[[ok err] d1]|e].
    + destruct (commit_loop ops cs d1) as [[[cs1 errs1] d2] ex1] eqn:Hl.
      specialize (IH _ _ _ _ _ Hl).
      destruct ok; injection H as <- _ _ _; simpl; now rewrite IH.
    + now injection H as <- _ _ _.
Qed.

Lemma revert_loop_sizes ops cs : forall d cs' d' ex,
  revert_loop ops cs d = (cs', d', ex) -> map change_size cs' = map change_size cs.
Proof.
  induction cs as [|c cs IH]; intros d cs' d' ex H; simpl in H.
  - now injection H as <- _ _.
  - destruct (_revert_change ops c d) as [[r d1]|e].
    + destruct (revert_loop ops cs d1) as [[cs1 d2] ex1] eqn:Hl.
      specialize (IH _ _ _ _ Hl). injection H as <- _ _. simpl. now rewrite IH.
    + now injection H as <- _ _.
Qed.

Lemma reapply_loop_sizes ops cs : forall d cs' d' ex,
  reapply_loop ops cs d = (cs', d', ex) -> map change_size cs' = map change_size cs.
Proof.
  induction cs as [|c cs IH]; intros d cs' d' ex H; simpl in H.
  - now injection H as <- _ _.
  - destruct (_apply_change ops c d) as [[r d1]|e].
    + destruct (reapply_loop ops cs d1) as [[cs1 d2] ex1] eqn:Hl.
      specialize (IH _ _ _ _ Hl). injection H as <- _ _. simpl. now rewrite IH.
    + now injection H as <- _ _.
Qed.

Lemma push_accounted um tx : accounted um -> accounted (push um tx).
Proof.
  unfold accounted, push. intros Hacc.
  destruct (evict_for_bytes _ _ _ _) as [stack1 total1] eqn:He.
  destruct (evict_for_bytes_suffix _ _ _ _ _ _ He) as (k & _ & Hb & _).
  assert (H1 : total1 = stack_bytes stack1) by lia.
  destruct (Z.of_nat (length stack1) >=? max_stack um)%Z.
  - destruct stack1 as [|removed rest]; cbn [_undo_stack _total_bytes];
      rewrite stack_bytes_app; simpl in H1; lia.
  - cbn [_undo_stack _total_bytes]. rewrite stack_bytes_app. lia.
Qed.

Lemma stack_bytes_removelast st tx :
  last st = Some tx -> stack_bytes (removelast st) = (stack_bytes st - _calculate_size tx)%Z.
Proof.
  intros H. rewrite <- (last_removelast st tx H) at 2. rewrite stack_bytes_app. lia.
Qed.

(** X11. [TransactionManager] keeps the accounting of [UndoManager] exact:
    if [_total_bytes] is the sum of the sizes on the undo stack, it still
    is after [commit], after [undo] and after [redo], whatever they do to
    the disk and however they end. *)
Theorem transaction_manager_keeps_bytes_accounted
    (tm : TransactionManager) (d : Disk) (dry_run : bool) :
  accounted (undo_manager tm) ->
  accounted (undo_manager (commit tm dry_run d).1.2) /\
  accounted (undo_manager (undo tm d).1.2) /\
  accounted (undo_manager (redo tm d).1.2).
Proof.
  intros Hacc. split; [| split].
  - unfold commit. destruct (_current_transaction tm) as [tx|]; [| exact Hacc].
    destruct dry_run; [exact Hacc |].
    destruct (commit_loop _ _ _) as [[[cs errs] d'] ex].
    destruct errs, ex; try exact Hacc. simpl. now apply push_accounted.
  - unfold undo, um_undo. destruct (last (_undo_stack (undo_manager tm))) as [tx|] eqn:Hl;
      [| exact Hacc].
    assert (Hpop : (_total_bytes (undo_manager tm) - _calculate_size tx)%Z
                   = stack_bytes (removelast (_undo_stack (undo_manager tm)))).
    { rewrite (stack_bytes_removelast _ _ Hl). unfold accounted in Hacc. lia. }
    destruct (revert_loop _ _ _) as [[cs d'] [e|]]; exact Hpop.
  - unfold redo, um_redo. destruct (last (_redo_stack (undo_manager tm))) as [tx|] eqn:Hl;
      [| exact Hacc].
    destruct (reapply_loop _ _ _) as [[cs d'] ex] eqn:Hre.
    pose proof (reapply_loop_sizes _ _ _ _ _ _ Hre) as Hs.
    assert (Hput : forall st,
      (_total_bytes (undo_manager tm) + _calculate_size tx)%Z
      = stack_bytes (set_last (_undo_stack (undo_manager tm) ++ [tx]) (with_changes tx cs st))).
    { intros st. unfold set_last. rewrite removelast_snoc, stack_bytes_app.
      rewrite (calculate_size_with_changes tx cs st Hs). unfold accounted in Hacc. lia. }
    destruct ex as [e|]; apply Hput.
Qed.

(** X12. A successful [commit] discards the redo history: the transaction
    it returns as [APPLIED] is the one on top of the undo stack, and a
    [redo] right after it finds nothing and changes nothing. *)
Theorem commit_discards_redo_history (tm tm1 : TransactionManager) (d d1 : Disk)
    (tx1 : Transaction) :
  commit tm false d = (Return tx1, tm1, d1) ->
  tx_status tx1 = APPLIED ->
  last (_undo_stack (undo_manager tm1)) = Some tx1 /\
  _current_transaction tm1 = None /\
  redo tm1 d1 = (Return None, tm1, d1).
Proof.
  unfold commit. destruct (_current_transaction tm) as [tx|]; [| discriminate].
  destruct (commit_loop _ _ _) as [[[cs errs] d'] ex].
  destruct errs as [|er errs], ex as [e|]; intros H; try discriminate;
    injection H as <- <- <-; [| discriminate].
  intros _. destruct (push_top (undo_manager tm) (with_changes tx cs APPLIED)) as (st & Hst & Hre).
  split; [| split].
  - cbn [undo_manager with_current with_undo]. rewrite Hst. apply last_snoc.
  - reflexivity.
  - unfold redo, um_redo. cbn [undo_manager with_current with_undo]. now rewrite Hre.
Qed.

Lemma commit_loop_paths ops cs : forall d cs' errs d' ex,
  commit_loop ops cs d = (cs', errs, d', ex) -> map file_path cs' = map file_path cs.
Proof.
  induction cs as [|c cs IH]; intros d cs' errs d' ex H; simpl in H.
  - now injection H as <- _ _ _.
  - destruct (_apply_change ops c d) as [[[ok err] d1]|e].
    + destruct (commit_loop ops cs d1) as [[[cs1 errs1] d2] ex1] eqn:Hl.
      specialize (IH _ _ _ _ _ Hl).
      destruct ok; injection H as <- _ _ _; simpl; now rewrite IH.
    + now injection H as <- _ _ _.
Qed.

(** X13. When the application of a change raises an exception, [commit]
    leaves the transaction open and the undo history as it was: every
    [begin] is then refused until [rollback], after which it succeeds. *)
Theorem commit_exception_leaves_transaction_open (tm tm' : TransactionManager) (d d' : Disk)
    (tx : Transaction) (e : exn) :
  _current_transaction tm = Some tx ->
  commit tm false d = (Raise e, tm', d') ->
  undo_manager tm' = undo_manager tm /\
  (exists cs, _current_transaction tm' = Some (with_changes tx cs (tx_status tx)) /\
              map file_path cs = map file_path (changes tx)) /\
  (forall descr new_id, begin tm' descr new_id = Raise (RuntimeError msg_tx_open)) /\
  (forall descr new_id,
     begin (rollback tm') descr new_id
     = Return (new_id, with_current tm' (Some (mkTx new_id descr [] PENDING)))).
Proof.
  intros Hcur. unfold commit. rewrite Hcur.
  destruct (commit_loop _ _ _) as [[[cs errs] d1] ex] eqn:Hl.
  destruct errs, ex; intros H; try discriminate; injection H as <- <- <-;
    (split; [reflexivity |]); (split; [| split; reflexivity]);
    exists cs; (split; [reflexivity |]); exact (commit_loop_paths _ _ _ _ _ _ _ Hl).
Qed.

End Undo.

(** ** History *)

Section History.

Lemma rev_skipn_firstn {A} (l : list A) (n : nat) :
  rev (skipn (length l - n) l) = firstn n (rev l).
Proof.
  rewrite <- (rev_involutive l) at 2. rewrite skipn_rev, rev_involutive.
  rewrite length_rev.
  destruct (Nat.le_gt_cases n (length l)) as [H | H].
  - replace (length l - (length l - n)) with n by lia. reflexivity.
  - replace (length l - n) with 0 by lia. rewrite Nat.sub_0_r.
    rewrite <- (length_rev l). rewrite firstn_all. symmetry. apply firstn_all2.
    rewrite length_rev. lia.
Qed.

(** X14. [get_history] lists the transactions of the undo stack newest
    first: with a positive [limit] the [limit] most recent ones, the first
    of them being the transaction that [undo] would take; with [limit = 0]
    the slice [[-0:]] is the whole stack; a negative [limit] leaves out
    that many of the oldest. *)
Theorem get_history_lists_the_newest_first (um : UndoManager) (limit : Z) :
  let newest_first := map history_entry (rev (_undo_stack um)) in
  get_history um limit
  = (if (0 <? limit)%Z then firstn (Z.to_nat limit) newest_first
     else firstn (length (_undo_stack um) - Z.to_nat (- limit)) newest_first) /\
  get_history um 0 = newest_first /\
  ((0 < limit)%Z ->
   head (get_history um limit) = history_entry <$> (um_undo um).1).
Proof.
  unfold get_history, last_slice. cbn zeta. split; [| split].
  - destruct (0 <? limit)%Z.
    + now rewrite rev_skipn_firstn, firstn_map.
    + rewrite firstn_map, <- rev_skipn_firstn.
      destruct (Nat.le_gt_cases (Z.to_nat (- limit)) (length (_undo_stack um))) as [H | H].
      * replace (length (_undo_stack um) - (length (_undo_stack um) - Z.to_nat (- limit)))
          with (Z.to_nat (- limit)) by lia.
        reflexivity.
      * replace (length (_undo_stack um) - Z.to_nat (- limit)) with 0 by lia.
        rewrite Nat.sub_0_r, skipn_all, skipn_all2 by lia. reflexivity.
  - reflexivity.
  - intros Hpos. destruct (0 <? limit)%Z eqn:Hlt; [| apply Z.ltb_ge in Hlt; lia].
    rewrite rev_skipn_firstn. unfold um_undo.
    destruct (Z.to_nat limit) as [|n] eqn:Hn; [lia |].
    destruct (last (_undo_stack um)) as [tx|] eqn:Hl.
    + apply list.last_Some in Hl as (l' & ->). rewrite rev_app_distr. reflexivity.
    + apply list.last_None in Hl as ->. reflexivity.
Qed.

Lemma scan_changes_spec (limit : Z) (path : string) (tx : Transaction) :
  let n := Z.to_nat (Z.max 1 limit) in
  forall cs history,
    length history < n ->
    let found := map (file_history_entry tx)
                   (filter (fun c => String.eqb (file_path c) path = true) cs) in
    scan_changes limit path tx cs history
    = if (n <=? length history + length found)%nat
      then (history ++ firstn (n - length history) found, true)
      else (history ++ found, false).
Proof.
  intros n. induction cs as [|c cs IH]; intros history Hlt found.
  - subst found. simpl. rewrite Nat.add_0_r.
    destruct (Nat.leb_spec n (length history)); [lia |]. now rewrite app_nil_r.
  - subst found. cbn [scan_changes]. rewrite filter_cons.
    destruct (String.eqb (file_path c) path) eqn:He.
    + destruct (decide (true = true)) as [_ | Hc]; [| congruence].
      cbn [map length]. rewrite length_app. cbn [length].
      destruct (Z.leb_spec limit (Z.of_nat (length history + 1))) as [Hle | Hgt].
      * assert (Hn : n = S (length history)) by (unfold n in *; lia).
        destruct (Nat.leb_spec n (length history + S (length (map (file_history_entry tx)
          (filter (fun c0 => String.eqb (file_path c0) path = true) cs))))); [| lia].
        rewrite Hn. replace (S (length history) - length history) with 1 by lia.
        reflexivity.
      * rewrite IH by (rewrite length_app; simpl; unfold n; lia).
        rewrite length_app. cbn [length].
        replace (length history + 1 + length (map (file_history_entry tx)
                   (filter (fun c0 => String.eqb (file_path c0) path = true) cs)))
          with (length history + S (length (map (file_history_entry tx)
                   (filter (fun c0 => String.eqb (file_path c0) path = true) cs)))) by lia.
        destruct (n <=? _)%nat.
        -- rewrite <- app_assoc. do 2 f_equal. cbn [app].
           replace (n - length history) with (S (n - (length history + 1))) by (unfold n in *; lia).
           reflexivity.
        -- now rewrite <- app_assoc.
    + destruct (decide (false = true)) as [Hc | _]; [discriminate |].
      now rewrite IH.
Qed.

Lemma scan_stack_spec (limit : Z) (path : string) :
  let n := Z.to_nat (Z.max 1 limit) in
  forall txs history,
    length history < n ->
    scan_stack limit path txs history
    = history ++ firstn (n - length history) (changes_to path txs).
Proof.
  intros n. induction txs as [|tx txs IH]; intros history Hlt.
  - simpl. rewrite firstn_nil. now rewrite app_nil_r.
  - cbn [scan_stack changes_to flat_map].
    rewrite (scan_changes_spec limit path tx (changes tx) history Hlt). fold n.
    set (found := map (file_history_entry tx)
                    (filter (fun c => String.eqb (file_path c) path = true) (changes tx))).
    destruct (Nat.leb_spec n (length history + length found)) as [Hle | Hgt].
    + f_equal. rewrite firstn_app.
      replace (n - length history - length found) with 0 by lia.
      rewrite firstn_O. now rewrite app_nil_r.
    + rewrite IH by (rewrite length_app; lia).
      rewrite <- app_assoc. f_equal. rewrite firstn_app.
      rewrite (@firstn_all2 _ (n - length history) found) by lia. f_equal. fold (changes_to path txs).
      rewrite length_app. f_equal. lia.
Qed.

(** X15. [get_file_history] returns the first entries of the list of all
    recorded changes to the path (compared as it is spelt), newest
    transaction first: [limit] of them, and one when [limit] is zero or
    negative, because the limit is only looked at after an entry has been
    added. *)
Theorem get_file_history_is_a_prefix (um : UndoManager) (path : string) (limit : Z) :
  get_file_history um path limit
  = firstn (Z.to_nat (Z.max 1 limit)) (changes_to path (rev (_undo_stack um))).
Proof.
  unfold get_file_history. rewrite scan_stack_spec by (simpl; lia).
  simpl. now rewrite Nat.sub_0_r.
Qed.

End History.

(** ** [quick_edit] and [quick_write] *)

Section Quick.

Variable root : string.
Variable tm : TransactionManager.
Hypothesis Hops : file_ops tm = editor_ops root.
Hypothesis Hidle : _current_transaction tm = None.

Lemma tm_root_is_root : tm_root tm = root.
Proof. unfold tm_root. now rewrite Hops. Qed.




Lemma apply_change_without_content (ops : SafeFileOps) (c : FileChange) (d : Disk) :
  operation c = MODIFY -> new_content c = None ->
  exists e d', _apply_change ops c d = Return ((false, Some e), d') /\ files d' = files d.
Proof.
  intros Hop Hnc. unfold _apply_change. rewrite Hop, Hnc. unfold write_file.
  destruct (if disk_exists d _ then _ else _) as [old [|]]; cbn [fst snd].
  - do 2 eexists. split; reflexivity.
  - destruct old as [o|].
    + destruct (default (backup_enabled ops) None).
      * unfold _backup_file. destruct (negb _).
        -- do 2 eexists. split; reflexivity.
        -- destruct (Path.relative_to _ _); do 2 eexists; split; reflexivity.
      * do 2 eexists. split; reflexivity.
    + do 2 eexists. split; reflexivity.
Qed.

Lemma failed_edit_has_no_content (d : Disk) (path old_string new_string : string) :
  status (editor_edit root d path old_string new_string false) = FAILED ->
  operation (editor_edit root d path old_string new_string false) = MODIFY /\
  new_content (editor_edit root d path old_string new_string false) = None.
Proof.
  unfold editor_edit. destruct (read_file _ _ _) as [[content|] [err|]];
    try (split; reflexivity).
  destruct (PyStr.count old_string content =? 0)%nat; [split; reflexivity |].
  destruct ((1 <? PyStr.count old_string content)%nat && negb false);
    [split; reflexivity | discriminate].
Qed.

(** X18. A [quick_edit] that cannot stage its change ([old_string] not
    found, found more than once, or the file missing or binary) still
    commits the failed change: the transaction comes back [FAILED], no file
    is changed and nothing is pushed on the undo stack. *)
Theorem failed_quick_edit_changes_no_file (d : Disk)
    (path old_string new_string descr new_id : string) :
  status (editor_edit root d path old_string new_string false) = FAILED ->
  exists tx d',
    quick_edit tm d path old_string new_string descr new_id
      = (Return tx, with_current tm None, d') /\
    tx_status tx = FAILED /\
    files d' = files d.
Proof.
  intros Hf. destruct (failed_edit_has_no_content d path old_string new_string Hf) as [Hop Hnc].
  destruct (apply_change_without_content (editor_ops root) _ d Hop Hnc) as (e & d' & Happ & Hfd).
  exists (with_changes
            (mkTx new_id (if PyStr.nonempty descr then descr else "Edit " +:+ path)
               [editor_edit root d path old_string new_string false] PENDING)
            [with_status (editor_edit root d path old_string new_string false) FAILED (Some e)]
            FAILED), d'.
  split; [| split; [reflexivity | exact Hfd]].
  unfold quick_edit, begin, edit. rewrite Hidle. cbn [snd].
  unfold tm_root. cbn [with_current file_ops]. rewrite Hops.
  change (root_path (editor_ops root)) with root.
  unfold commit, stage. cbn [_current_transaction with_current file_ops add_change changes app].
  rewrite Hops. cbn [commit_loop]. rewrite Happ. reflexivity.
Qed.

End Quick.

(** ** [ToolExecutor]: [edit_file], [write_file], [read_file] *)

Section Executor.

Import ToolExecutor.





Lemma join_cons (sep x y : string) (l : list string) :
  PyStr.join sep (x :: y :: l) = x +:+ sep +:+ PyStr.join sep (y :: l).
Proof. reflexivity. Qed.



(** X21. [write_file] opens the file for writing before it looks at the
    content: when the content is not a string the call reports a failure
    and the file is left empty, whether or not it existed. *)
Theorem write_file_without_text_empties_the_file (W : World) (x : Executor) (p : string)
    (content : jval) :
  (forall text, content <> JStr text) ->
  let '(r, x') := execute W x "write_file"
                    (JObj [("file_path", JStr p); ("content", content)]) in
  Py.get r "success" JNull = Return (JBool false) /\
  disk_lookup (disk x') (Path.join (workspace x) p) = Some "" /\
  (forall k, k <> Path.canon (Path.join (workspace x) p) ->
             files (disk x') !! k = files (disk x) !! k).
Proof.
  intros Hc. unfold execute. cbn [String.eqb Ascii.eqb Bool.eqb].
  unfold exec_write_file.
  cbn -[disk_lookup Path.join truncate store disk_exists].
  destruct content as [|b|z|lit|text|l|kv]; try (exfalso; now apply (Hc text));
    (split; [reflexivity |]; split;
     [unfold truncate, disk_lookup; cbn [files set_files disk with_disk]; apply lookup_insert_eq
     | intros k Hk; unfold truncate; cbn [files set_files disk with_disk];
       now rewrite lookup_insert_ne by congruence]).
Qed.






(** X23. The first line is line 1, and nothing lies before it: a
    [start_line] of zero or below, with no [offset] given, reads what
    [start_line = 1] reads and gives the same answer. *)
Theorem read_file_start_line_below_one (W : World) (x : Executor) (p : string) (s : Z)
    (end_line : option Z) :
  (s <= 1)%Z ->
  execute W x "read_file" (read_input p s end_line)
  = execute W x "read_file" (read_input p 1 end_line).
Proof.
  intros Hs. unfold execute. cbn [String.eqb Ascii.eqb Bool.eqb]. f_equal.
  unfold exec_read_file, read_input.
  destruct end_line as [e|];
    cbn -[Py.or_else max_chars read_capped numbered_range PyStr.universal_newlines PyStr.split
          disk_lookup Path.join pretty Z.to_nat Z.of_nat Z.ltb Z.max Nat.ltb];
    (destruct (disk_lookup (disk x) (Path.join (workspace x) p)) as [bytes|]; [| reflexivity]);
    (assert (Hint : exists t, Py.as_int (Py.or_else (JNum s) (JNum 1)) = Return t /\
                              Z.to_nat (Z.max 0 (t - 1)) = 0)
       by (unfold Py.or_else, Py.truthy; destruct (Z.eqb_spec s 0);
           [exists 1%Z; split; [reflexivity | lia] | exists s; split; [reflexivity | lia]]));
    destruct Hint as (t & -> & Ht);
    change (Py.or_else (JNum 1) (JNum 1)) with (JNum 1);
    cbn -[max_chars read_capped numbered_range PyStr.universal_newlines PyStr.split
          disk_lookup Path.join pretty Z.to_nat Z.of_nat Z.ltb Z.max Nat.ltb];
    rewrite Ht; reflexivity.
Qed.

End Executor.

(** ** The stream and the tool block *)

Section Stream.

Import IDE.

Lemma append_assoc (a b c : string) : (a +:+ b) +:+ c = a +:+ (b +:+ c).
Proof.
  induction a as [|x a IH]; [reflexivity |]. rewrite !append_cons. now rewrite IH.
Qed.

Lemma prefix_append (p s t : string) :
  String.prefix p s = true -> String.prefix p (s +:+ t) = true.
Proof.
  revert s. induction p as [|a p IH]; intros s H; [now destruct (s +:+ t) |].
  destruct s as [|b s]; [discriminate |]. rewrite append_cons. simpl in *.
  destruct (Ascii.ascii_dec a b); [now apply IH | discriminate].
Qed.

Lemma contains_append (sub s t : string) :
  PyStr.contains sub (s +:+ t) = false -> PyStr.contains sub s = false.
Proof.
  unfold PyStr.contains. revert t. induction s as [|a s IH]; intros t H.
  - cbn [PyStr.find]. destruct (String.prefix sub "") eqn:Hp; [| reflexivity].
    rewrite append_nil in H.
    pose proof (prefix_append sub "" t Hp) as Hp'. rewrite append_nil in Hp'.
    destruct t; cbn [PyStr.find] in H; rewrite Hp' in H; discriminate.
  - rewrite append_cons in H. cbn [PyStr.find] in *.
    destruct (String.prefix sub (String a s)) eqn:Hp.
    + pose proof (prefix_append sub (String a s) t Hp) as Hp'. rewrite append_cons in Hp'.
      rewrite Hp' in H. discriminate.
    + destruct (String.prefix sub (String a (s +:+ t))); [discriminate |].
      specialize (IH t).
      destruct (PyStr.find sub (s +:+ t)); [discriminate |].
      destruct (PyStr.find sub s); [specialize (IH eq_refl); discriminate | reflexivity].
Qed.

Lemma join_empty_cons (x : string) (l : list string) :
  PyStr.join "" (x :: l) = x +:+ PyStr.join "" l.
Proof.
  destruct l as [|y l]; [simpl; now rewrite append_nil_r |].
  rewrite join_cons. now rewrite append_nil.
Qed.

Lemma intercept_plain (tokens : list string) : forall cr db tb,
  PyStr.contains sentinel (cr +:+ PyStr.join "" tokens) = false ->
  intercept tokens cr db tb false = (map Token tokens, None, cr +:+ PyStr.join "" tokens).
Proof.
  induction tokens as [|t tokens IH]; intros cr db tb H.
  - simpl. now rewrite append_nil_r.
  - rewrite join_empty_cons in H |- *. rewrite <- append_assoc in H |- *.
    cbn [intercept]. rewrite (contains_append _ _ _ H).
    rewrite (IH _ _ _ H). reflexivity.
Qed.

(** X24. An answer in which [[TOOL:] never occurs is streamed as it is:
    every token goes out as one [token] event, in order, no tool is
    detected in the stream, and the response is the concatenation of the
    tokens. *)
Theorem stream_without_sentinel_is_forwarded (tokens : list string) :
  PyStr.contains sentinel (PyStr.join "" tokens) = false ->
  intercept tokens "" "" "" false = (map Token tokens, None, PyStr.join "" tokens).
Proof.
  intros H. rewrite (intercept_plain tokens "" "" ""); [reflexivity |].
  now rewrite append_nil.
Qed.













End Stream.

(** ** How a run of the loop ends *)

Section Run.

Import IDE.

Lemma take_len (n : nat) : forall s, PyStr.len (PyStr.take n s) <= n.
Proof.
  induction n as [|n IH]; intros [|a s]; cbn [PyStr.take PyStr.len String.length]; try lia.
  specialize (IH s). unfold PyStr.len in IH. lia.
Qed.

Lemma run_adds_final (r : nat) (s s0 : Server) (evs : list Event) (final : Event) :
  sent s0 = sent s ++ evs -> is_final final = true ->
  tick s <= tick s0 <= tick s + r ->
  conversation_history s0 = conversation_history s ->
  run_adds r s (send s0 final).
Proof.
  intros Hs Hf Ht Hh. split; [| split].
  - exists evs, final. cbn [sent send]. rewrite Hs, <- ?app_assoc. now split.
  - exact Ht.
  - left. exact Hh.
Qed.

Lemma tick_send_all evs : forall s, tick (send_all s evs) = tick s.
Proof. induction evs as [|e evs IH]; intros s; [reflexivity |]. simpl. now rewrite IH. Qed.

Lemma history_send_all evs : forall s,
  conversation_history (send_all s evs) = conversation_history s.
Proof. induction evs as [|e evs IH]; intros s; [reflexivity |]. simpl. now rewrite IH. Qed.

Lemma run_tool_keeps W s c :
  sent (run_tool W s c).2 = sent s /\ tick (run_tool W s c).2 = tick s /\
  conversation_history (run_tool W s c).2 = conversation_history s.
Proof. unfold run_tool. destruct (ToolExecutor.execute _ _ _ _). repeat split. Qed.

Lemma loop_run_adds W r : forall sp um fr ec s s0 evs0,
  sent s0 = sent s ++ evs0 ->
  tick s <= tick s0 ->
  conversation_history s0 = conversation_history s ->
  run_adds (tick s0 - tick s + r) s (server (loop W r sp um fr ec s0)).
Proof.
  induction r as [|r IH]; intros sp um fr ec s s0 evs0 Hs Ht Hh.
  - cbn [loop server]. apply (run_adds_final _ s s0 evs0); auto. lia.
  - cbn [loop].
    destruct (abort_requested s0 || abort_at W (tick s0)).
    { cbn [server]. apply (run_adds_final _ s (set_abort s0 false) evs0); auto.
      cbn [tick set_abort]. lia. }
    destruct (llm W (tick s0) (full_message sp um fr)) as [tokens ending].
    destruct (intercept tokens "" "" "" false) as [[evs found] cr].
    set (s1 := send_all (next_tick s0) evs).
    assert (Hs1 : sent s1 = sent s ++ (evs0 ++ evs)).
    { unfold s1. rewrite sent_send_all. cbn [sent next_tick]. rewrite Hs. rewrite <- ?app_assoc; reflexivity. }
    assert (Ht1 : tick s1 = S (tick s0)) by (unfold s1; now rewrite tick_send_all).
    assert (Hh1 : conversation_history s1 = conversation_history s)
      by (unfold s1; now rewrite history_send_all).
    assert (Hcall : forall c,
      run_adds (tick s0 - tick s + S r) s
        (server (act W (fun um' ec' s' => loop W r sp um' (fr +:+ cr) ec' s')
                   sp um (fr +:+ cr) ec s1 c))).
    { intros c. unfold act.
      destruct (among (name c) confirm_tools).
      { cbn [server]. unfold park. cbn [name_stream].
        apply (run_adds_final _ s _ (evs0 ++ evs)); auto.
        cbn [tick set_pending next_id]. lia. }
      destruct (among (name c) exploration_tools && _).
      { replace (tick s0 - tick s + S r) with (tick (send s1 (Token exploration_token)) - tick s + r)
          by (cbn [tick send]; lia).
        apply (IH _ _ _ _ s _ ((evs0 ++ evs) ++ [Token exploration_token])).
        - cbn [sent send]. rewrite Hs1. rewrite <- ?app_assoc; reflexivity.
        - cbn [tick send]. lia.
        - exact Hh1. }
      match goal with |- context [Py.bind ?m _] => destruct (Py.bind m _) as [[file_path line]|e] end.
      2:{ cbn [server].
          apply (run_adds_final _ s _ ((evs0 ++ evs) ++ [ToolExecuting (name c) (input c)
                    (if among (name c) exploration_tools
                     then Some (if among (name c) exploration_tools then S ec else ec)
                     else None) max_exploration])); auto.
          - cbn [sent send]. rewrite Hs1. rewrite <- ?app_assoc; reflexivity.
          - cbn [tick send]. lia. }
      match goal with |- context [run_tool W ?a c] => set (s2 := a) end.
      assert (Hs2 : exists ev2, sent s2 = sent s ++ ev2).
      { unfold s2. destruct (_ && _); cbn [sent send]; rewrite Hs1;
          eexists; rewrite <- ?app_assoc; reflexivity. }
      assert (Ht2 : tick s2 = S (tick s0)) by (unfold s2; now destruct (_ && _)).
      assert (Hh2 : conversation_history s2 = conversation_history s)
        by (unfold s2; now destruct (_ && _)).
      destruct (run_tool_keeps W s2 c) as (Hr1 & Hr2 & Hr3).
      destruct (run_tool W s2 c) as [result s3]. cbn [snd] in Hr1, Hr2, Hr3.
      destruct Hs2 as (ev2 & Hs2).
      destruct (file_modified (name c) result file_path) as [evs3|e].
      - replace (tick s0 - tick s + S r)
          with (tick (send_all (send s3 (ToolResult (name c) result (Some file_path))) evs3)
                - tick s + r)
          by (rewrite tick_send_all; cbn [tick send]; lia).
        apply (IH _ _ _ _ s _ ((ev2 ++ [ToolResult (name c) result (Some file_path)]) ++ evs3)).
        + rewrite sent_send_all. cbn [sent send]. rewrite Hr1, Hs2. rewrite <- ?app_assoc; reflexivity.
        + rewrite tick_send_all. cbn [tick send]. lia.
        + rewrite history_send_all. cbn [conversation_history send]. congruence.
      - cbn [server].
        apply (run_adds_final _ s _ (ev2 ++ [ToolResult (name c) result (Some file_path)])); auto.
        + cbn [sent send]. rewrite Hr1, Hs2. rewrite <- ?app_assoc; reflexivity.
        + cbn [tick send]. lia.
        + cbn [conversation_history send]. congruence. }
    assert (Hdone : run_adds (tick s0 - tick s + S r) s
              (send (remember s1 "assistant" (PyStr.upto 500 (fr +:+ cr))) (Done (fr +:+ cr)))).
    { split; [| split].
      - exists (evs0 ++ evs), (Done (fr +:+ cr)). cbn [sent send remember]. rewrite Hs1.
        rewrite <- app_assoc. now split.
      - cbn [tick send remember]. lia.
      - right. exists (PyStr.upto 500 (fr +:+ cr)). cbn [conversation_history send remember].
        rewrite Hh1. split; [reflexivity | apply take_len]. }
    destruct found as [c|]; [apply Hcall |].
    destruct ending as [|msg].
    + destruct (head (_detect_tool_calls cr)) as [c|]; [apply Hcall | exact Hdone].
    + cbn [server]. apply (run_adds_final _ s s1 (evs0 ++ evs)); auto. lia.
Qed.

(** X26. Every run of [_run_agentic_loop] comes to an end that the user
    interface can see: the last event it sends is [done] or [error]. It
    puts at most [max_iterations] requests to the model, and it adds at
    most one entry to the conversation history, the assistant's answer cut
    at 500 characters. *)
Theorem agentic_loop_ends_with_done_or_error (W : World) (s : Server)
    (user_message system_prompt : string) (max_iterations : nat) :
  let s' := server (_run_agentic_loop W s user_message system_prompt max_iterations) in
  (exists evs final, sent s' = sent s ++ evs ++ [final] /\ is_final final = true) /\
  tick s <= tick s' <= tick s + max_iterations /\
  (conversation_history s' = conversation_history s \/
   exists text, conversation_history s' = conversation_history s ++ [("assistant", text)] /\
                PyStr.len text <= 500).
Proof.
  unfold _run_agentic_loop.
  pose proof (loop_run_adds W max_iterations system_prompt user_message "" 0
                (set_abort s false) (set_abort s false) []) as H.
  rewrite Nat.sub_diag in H. apply H.
  - cbn [sent set_abort]. now rewrite app_nil_r.
  - lia.
  - reflexivity.
Qed.

(** X27. A rejection executes nothing. For a pending confirmation, the
    answer [approved = false] removes it, sends the rejected result and
    [done], and leaves the executor, and with it the disk, as it was; an
    approval that comes afterwards for the same identifier, like one for
    any identifier that is not pending, does nothing at all. *)
Theorem rejected_tool_is_not_executed (W : World) (s : Server) (id : string) (c : ToolCall) :
  pending_tool_confirmations s !! id = Some c ->
  let '(s', ex) := tool_confirm W s id false in
  ex = None /\
  executed s' = executed s /\
  tool_executor s' = tool_executor s /\
  pending_tool_confirmations s' = base.delete id (pending_tool_confirmations s) /\
  sent s' = sent s ++ [ToolResult (name c) rejected None;
                       Done "도구 실행이 거부되어 작업을 중단합니다."] /\
  forall approved, tool_confirm W s' id approved = (s', None).
Proof.
  intros Hp. unfold tool_confirm at 1. rewrite Hp.
  match goal with |- context [tool_confirm W ?a id _] => set (s1 := a) end.
  assert (Hpend : pending_tool_confirmations s1 = base.delete id (pending_tool_confirmations s))
    by reflexivity.
  repeat (split; [reflexivity |]).
  split; [unfold s1; cbn; rewrite <- ?app_assoc; reflexivity |].
  intros approved. unfold tool_confirm. now rewrite Hpend, lookup_delete_eq.
Qed.

End Run.

(** ** The compression of the conversation *)

Section Compression.

Import Tokens.






End Compression.

(** ** The language of a file *)

Section DetectLanguage.

Import Language.

Lemma lower_chr_idem (a : ascii) : lower_chr (lower_chr a) = lower_chr a.
Proof. destruct a as [[] [] [] [] [] [] [] []]; vm_compute; reflexivity. Qed.

Lemma lower_chr_slash (a : ascii) : Ascii.eqb (lower_chr a) "/" = Ascii.eqb a "/".
Proof. destruct a as [[] [] [] [] [] [] [] []]; vm_compute; reflexivity. Qed.

Lemma lower_chr_dot (a : ascii) : Ascii.eqb (lower_chr a) "." = Ascii.eqb a ".".
Proof. destruct a as [[] [] [] [] [] [] [] []]; vm_compute; reflexivity. Qed.

Lemma lower_idem (s : string) : lower (lower s) = lower s.
Proof. induction s as [|a s IH]; simpl; [reflexivity |]. now rewrite lower_chr_idem, IH. Qed.

Lemma lower_len (s : string) : PyStr.len (lower s) = PyStr.len s.
Proof. unfold PyStr.len. induction s as [|a s IH]; simpl; [reflexivity |]. now rewrite IH. Qed.

Lemma lower_drop (n : nat) : forall s, PyStr.drop n (lower s) = lower (PyStr.drop n s).
Proof. induction n as [|n IH]; intros [|a s]; simpl; try reflexivity. apply IH. Qed.

Lemma lower_split (s : string) :
  PyStr.split "/" (lower s) = map lower (PyStr.split "/" s).
Proof.
  induction s as [|a s IH]; [reflexivity |]. cbn [lower PyStr.split].
  rewrite lower_chr_slash, IH. destruct (Ascii.eqb a "/"); [reflexivity |].
  destruct (PyStr.split "/" s); reflexivity.
Qed.

Lemma lower_is_empty (s : string) : String.eqb (lower s) "" = String.eqb s "".
Proof. now destruct s. Qed.

Lemma lower_is_dot (s : string) : String.eqb (lower s) "." = String.eqb s ".".
Proof.
  destruct s as [|a [|b s]]; try reflexivity.
  - cbn [lower String.eqb]. now rewrite lower_chr_dot.
  - cbn [lower String.eqb]. now rewrite lower_chr_dot.
Qed.

Lemma lower_parts (p : string) : Path.parts (lower p) = map lower (Path.parts p).
Proof.
  unfold Path.parts. rewrite lower_split.
  induction (PyStr.split "/" p) as [|c l IH]; [reflexivity |].
  cbn [map]. rewrite !filter_cons, lower_is_empty, lower_is_dot, IH.
  destruct (decide _); reflexivity.
Qed.

Lemma lower_name (p : string) : name (lower p) = lower (name p).
Proof.
  unfold name. rewrite lower_parts.
  induction (Path.parts p) as [|c l IH]; [reflexivity |].
  destruct l as [|c2 l]; [reflexivity |]. exact IH.
Qed.

Lemma lower_rfind (s : string) : rfind "." (lower s) = rfind "." s.
Proof.
  induction s as [|a s IH]; [reflexivity |]. cbn [lower rfind].
  now rewrite IH, lower_chr_dot.
Qed.

Lemma lower_suffix (p : string) : suffix (lower p) = lower (suffix p).
Proof.
  unfold suffix. rewrite lower_name, lower_rfind, lower_len.
  destruct (rfind "." (name p)) as [i|]; [| reflexivity].
  destruct (_ && _)%nat; [apply lower_drop | reflexivity].
Qed.

(** X29. [_detect_language] does not look at the case of letters: a path
    and the same path in small letters are given the same language, so two
    paths that differ only in case are. *)
Theorem detect_language_ignores_case (path : string) :
  _detect_language (lower path) = _detect_language path.
Proof.
  unfold _detect_language. now rewrite lower_suffix, lower_name, !lower_idem.
Qed.

End DetectLanguage.

(** ** The properties on small cases *)

Section Cases.

Import ToolExecutor IDE.

Lemma write_file_then_read_file_witness :
  let d' := (write_file Sample.ops "a.txt" (Some "new") None Ex2.disk_a).2 in
  read_file Sample.ops d' "a.txt" = (Some "new", None) /\
  Some "old" = Some "old" /\ @None string = None.
Proof.
  exact (write_file_then_read_file Sample.ops Ex2.disk_a
           (write_file Sample.ops "a.txt" (Some "new") None Ex2.disk_a).2
           "a.txt" "new" None (Some "old") None ltac:(vm_compute; reflexivity)).
Defined.

Lemma write_file_refuses_binary_file_witness :
  write_file Sample.ops "logo.png" (Some "text") None Sample.disk_binary
  = ((false, None, Some msg_binary_write), Sample.disk_binary).
Proof.
  apply (write_file_refuses_binary_file Sample.ops Sample.disk_binary "logo.png"
           (String "000" "PNG")); vm_compute; reflexivity.
Defined.



Lemma overwrite_and_delete_back_up_the_old_text_witness :
  (forall c old err d',
     write_file Sample.ops "a.txt" (Some c) None Ex2.disk_a = ((true, old, err), d') ->
     old = Some "old" /\
     exists rel, Path.relative_to (root_path Sample.ops) (_resolve_path Sample.ops "a.txt")
                 = Some rel /\
                 backups d' = backups Ex2.disk_a ++ [(rel, "old")]) /\
  (forall old err d',
     delete_file Sample.ops "a.txt" None Ex2.disk_a = Return ((true, old, err), d') ->
     old = Some "old" /\
     exists rel, Path.relative_to (root_path Sample.ops) (_resolve_path Sample.ops "a.txt")
                 = Some rel /\
                 backups d' = backups Ex2.disk_a ++ [(rel, "old")]).
Proof.
  apply (overwrite_and_delete_back_up_the_old_text Sample.ops Ex2.disk_a "a.txt" "old");
    vm_compute; reflexivity.
Defined.

Lemma edit_replaces_the_single_occurrence_witness :
  exists before after,
    read_file (editor_ops "/ws") Ex2.disk_a "a.txt" = (Some (before +:+ "ol" +:+ after), None) /\
    PyStr.count "ol" (before +:+ "ol" +:+ after) = 1 /\
    editor_edit "/ws" Ex2.disk_a "a.txt" "ol" "co" false
      = mkChange MODIFY "a.txt" (Some (before +:+ "co" +:+ after))
          (Some (before +:+ "ol" +:+ after)) None PENDING None.
Proof.
  apply (edit_replaces_the_single_occurrence "/ws" Ex2.disk_a "a.txt" "ol" "co").
  vm_compute. reflexivity.
Defined.

Lemma edit_with_empty_old_string_witness :
  editor_edit "/ws" Ex2.disk_a "a.txt" "" "x" false
  = mkChange MODIFY "a.txt" None (Some "old") None FAILED (Some (msg_old_ambiguous 4)).
Proof.
  apply (edit_with_empty_old_string "/ws" Ex2.disk_a "a.txt" "x" "old").
  vm_compute. reflexivity.
Defined.

Lemma push_evicts_only_the_oldest_witness :
  exists k,
    _undo_stack (push Sample.um_full (Sample.created "t3" "cc"))
      = skipn k (_undo_stack Sample.um_full) ++ [Sample.created "t3" "cc"] /\
    (Z.of_nat (length (_undo_stack (push Sample.um_full (Sample.created "t3" "cc"))))
     <= max_stack Sample.um_full)%Z /\
    _redo_stack (push Sample.um_full (Sample.created "t3" "cc")) = [].
Proof.
  apply (push_evicts_only_the_oldest Sample.um_full (Sample.created "t3" "cc"));
    vm_compute; discriminate.
Defined.

Lemma push_keeps_bytes_within_limit_witness :
  accounted (push Sample.um_full (Sample.created "t3" "cc")) /\
  ((_calculate_size (Sample.created "t3" "cc") <= max_bytes Sample.um_full)%Z ->
   (_total_bytes (push Sample.um_full (Sample.created "t3" "cc")) <= max_bytes Sample.um_full)%Z).
Proof.
  apply (push_keeps_bytes_within_limit Sample.um_full (Sample.created "t3" "cc")).
  vm_compute. reflexivity.
Defined.

Lemma transaction_manager_keeps_bytes_accounted_witness :
  accounted (undo_manager (commit Ex2.tm_mixed false Ex2.disk_abc).1.2) /\
  accounted (undo_manager (undo Ex2.tm_mixed Ex2.disk_abc).1.2) /\
  accounted (undo_manager (redo Ex2.tm_mixed Ex2.disk_abc).1.2).
Proof.
  apply (transaction_manager_keeps_bytes_accounted Ex2.tm_mixed Ex2.disk_abc false).
  vm_compute. reflexivity.
Defined.

Lemma commit_discards_redo_history_witness :
  last (_undo_stack (undo_manager Sample.committed.1)) = Some Sample.tx_mixed_applied /\
  _current_transaction Sample.committed.1 = None /\
  redo Sample.committed.1 Sample.committed.2
    = (Return None, Sample.committed.1, Sample.committed.2).
Proof.
  apply (commit_discards_redo_history Ex2.tm_mixed Sample.committed.1 Ex2.disk_abc
           Sample.committed.2 Sample.tx_mixed_applied); vm_compute; reflexivity.
Defined.

Lemma commit_exception_leaves_transaction_open_witness :
  let r := commit Sample.tm_outside false Demo.disk_with_secret in
  undo_manager r.1.2 = undo_manager Sample.tm_outside /\
  (exists cs, _current_transaction r.1.2
              = Some (with_changes Sample.tx_outside cs (tx_status Sample.tx_outside)) /\
              map file_path cs = map file_path (changes Sample.tx_outside)) /\
  (forall descr new_id, begin r.1.2 descr new_id = Raise (RuntimeError msg_tx_open)) /\
  (forall descr new_id,
     begin (rollback r.1.2) descr new_id
     = Return (new_id, with_current r.1.2 (Some (mkTx new_id descr [] PENDING)))).
Proof.
  apply (commit_exception_leaves_transaction_open Sample.tm_outside
           (commit Sample.tm_outside false Demo.disk_with_secret).1.2
           Demo.disk_with_secret
           (commit Sample.tm_outside false Demo.disk_with_secret).2
           Sample.tx_outside (ValueError "path is not in the subpath of the root"));
    vm_compute; reflexivity.
Defined.



Lemma failed_quick_edit_changes_no_file_witness :
  exists tx d',
    quick_edit Sample.tm Ex2.disk_a "a.txt" "zzz" "co" "" "0badcafe"
      = (Return tx, with_current Sample.tm None, d') /\
    tx_status tx = FAILED /\
    files d' = files Ex2.disk_a.
Proof.
  apply (failed_quick_edit_changes_no_file Ex.ws Sample.tm eq_refl eq_refl Ex2.disk_a
           "a.txt" "zzz" "co" "" "0badcafe").
  vm_compute. reflexivity.
Defined.


Lemma write_file_without_text_empties_the_file_witness :
  let '(r, x') := execute Demo.quiet (Demo.executor Stream.disk_lines) "write_file"
                    (JObj [("file_path", JStr "f.txt"); ("content", JNum 5)]) in
  Py.get r "success" JNull = Return (JBool false) /\
  disk_lookup (disk x') (Path.join "/ws" "f.txt") = Some "" /\
  (forall k, k <> Path.canon (Path.join "/ws" "f.txt") ->
             files (disk x') !! k = files Stream.disk_lines !! k).
Proof.
  exact (write_file_without_text_empties_the_file Demo.quiet (Demo.executor Stream.disk_lines)
           "f.txt" (JNum 5) ltac:(intros text; discriminate)).
Defined.


Lemma read_file_start_line_below_one_witness :
  execute Demo.quiet (Demo.executor Stream.disk_lines) "read_file" (read_input "f.txt" 0 None)
  = execute Demo.quiet (Demo.executor Stream.disk_lines) "read_file" (read_input "f.txt" 1 None).
Proof.
  apply (read_file_start_line_below_one Demo.quiet (Demo.executor Stream.disk_lines)
           "f.txt" 0 None). lia.
Defined.

Lemma stream_without_sentinel_is_forwarded_witness :
  intercept ["Hello, "; "world"] "" "" "" false
  = ([Token "Hello, "; Token "world"], None, "Hello, world").
Proof.
  apply (stream_without_sentinel_is_forwarded ["Hello, "; "world"]). vm_compute. reflexivity.
Defined.


Lemma rejected_tool_is_not_executed_witness :
  let '(s', ex) := tool_confirm Scenario.world Scenario.parked "c0ffee00" false in
  ex = None /\
  executed s' = executed Scenario.parked /\
  tool_executor s' = tool_executor Scenario.parked /\
  pending_tool_confirmations s'
    = base.delete "c0ffee00" (pending_tool_confirmations Scenario.parked) /\
  sent s' = sent Scenario.parked ++ [ToolResult (name Scenario.edit_call) rejected None;
                                     Done "도구 실행이 거부되어 작업을 중단합니다."] /\
  forall approved, tool_confirm Scenario.world s' "c0ffee00" approved = (s', None).
Proof.
  exact (rejected_tool_is_not_executed Scenario.world Scenario.parked "c0ffee00"
           Scenario.edit_call ltac:(vm_compute; reflexivity)).
Defined.


End Cases.
